(** * Speed controller plugin: mode arbitration, readiness gating and the
      PID cascade of [controller_plugin_speed_controller::Plugin].

    The development embeds [src/speed_controller_plugin.cpp] function by
    function.  The plugin object is a record, every member function is a
    function on that record, and the collaborators the plugin only calls
    (the PID library, the ROS parameter values, the frame utilities, the
    message constants) are modelled by their interface. *)

From Stdlib Require Import Bool List String ZArith Lia PrimFloat.
Import ListNotations.
Local Open Scope string_scope.
Local Open Scope list_scope.

(** ** Numbers and vectors *)

(** A C++ [double] is an IEEE 754 binary64 number. *)
Definition double : Type := float.
Bind Scope float_scope with double.

Module Eigen.

(** [Eigen::Vector3d], with its accessors [x()], [y()], [z()]. *)
Record Vector3d : Type := Vector3 { x : double; y : double; z : double }.

(** [Eigen::Vector3d::Zero()]. *)
Definition Zero : Vector3d := Vector3 0%float 0%float 0%float.

(** [v.x() = d], [v.y() = d], [v.z() = d]. *)
Definition set_x (d : double) (v : Vector3d) : Vector3d := Vector3 d (y v) (z v).
Definition set_y (d : double) (v : Vector3d) : Vector3d := Vector3 (x v) d (z v).
Definition set_z (d : double) (v : Vector3d) : Vector3d := Vector3 (x v) (y v) d.

End Eigen.

(** ** Messages *)

Module std_msgs.
Record Header : Type := { stamp_sec : Z; stamp_nanosec : Z; frame_id : string }.
End std_msgs.

Module geometry_msgs.

Record Quaternion : Type := { qx : double; qy : double; qz : double; qw : double }.

(** [PoseStamped]: [pose.position] and [pose.orientation] under a header. *)
Record PoseStamped : Type :=
  { pose_header : std_msgs.Header;
    position : Eigen.Vector3d;
    orientation : Quaternion }.

(** [TwistStamped]: [twist.linear] and [twist.angular] under a header. *)
Record TwistStamped : Type :=
  { twist_header : std_msgs.Header;
    linear : Eigen.Vector3d;
    angular : Eigen.Vector3d }.

End geometry_msgs.

Module trajectory_msgs.
Record JointTrajectoryPoint : Type :=
  { positions : list double;
    velocities : list double;
    accelerations : list double }.
End trajectory_msgs.

Module as2_msgs.
(** [as2_msgs::msg::ControlMode]: three [uint8] fields.  A field can hold
    any byte, not only the named constants. *)
Record ControlMode : Type :=
  { yaw_mode : Z; control_mode : Z; reference_frame : Z }.
End as2_msgs.

(** ** ROS parameters *)

Module rclcpp.

(** The value variant of [rclcpp::ParameterValue]. *)
Inductive ParameterValue : Type :=
| NotSet
| BoolValue (b : bool)
| IntegerValue (i : Z)
| DoubleValue (d : double)
| StringValue (s : string)
| ByteArrayValue (l : list Z)
| BoolArrayValue (l : list bool)
| IntegerArrayValue (l : list Z)
| DoubleArrayValue (l : list double)
| StringArrayValue (l : list string).

(** [rclcpp::Parameter]; the trailing underscore keeps the name clear of
    the vernacular keyword. *)
Record Parameter_ : Type := { get_name : string; get_parameter_value : ParameterValue }.

(** [param.get_value<bool>()] and [param.get_value<double>()]: the typed
    read raises [InvalidParameterTypeException] when the parameter holds a
    value of another type; [None] stands for the raise. *)
Definition get_value_bool (p : Parameter_) : option bool :=
  match get_parameter_value p with BoolValue b => Some b | _ => None end.

Definition get_value_double (p : Parameter_) : option double :=
  match get_parameter_value p with DoubleValue d => Some d | _ => None end.

End rclcpp.

Module rcl_interfaces.
Record SetParametersResult : Type := { successful : bool; reason : string }.
End rcl_interfaces.

(** ** Exceptions *)

(** A call either returns or leaves by a C++ exception; the exception names
    the parameter whose typed read failed. *)
Inductive Outcome (A : Type) : Type :=
| Returned (a : A)
| Thrown (parameter_name : string).
Arguments Returned {A} a.
Arguments Thrown {A} parameter_name.

(** ** The PID library *)

(** The plugin never looks inside a regulator: it only calls its methods.
    A handle is therefore modelled by the calls made on it since its
    construction, the latest call first.  Two handles with the same call
    history are the same regulator, and a handle whose history did not grow
    was neither called nor changed. *)
Module pid_controller.

(** The methods of [PIDController] the plugin calls.  [computeControlError]
    is the overload [computeControl(dt, error)], [computeControl] the
    overload [computeControl(dt, state, reference)]. *)
Inductive PIDCall : Type :=
| setResetIntegralSaturationFlag (b : bool)
| setAntiWindup (d : double)
| setAlpha (d : double)
| setGainKp (d : double)
| setGainKi (d : double)
| setGainKd (d : double)
| resetController
| computeControlError (dt : double) (error : double)
| computeControl (dt : double) (state : double) (reference : double).

Definition PIDController : Type := list PIDCall.

(** The methods of [PIDController3D] the plugin calls.  [computeControl3D]
    is [computeControl(dt, state, reference)], [computeControlTrajectory] the
    overload that also takes the measured and the reference velocity. *)
Inductive PID3DCall : Type :=
| setResetIntegralSaturationFlag3D (b : bool)
| setAntiWindup3D (d : double)
| setAlpha3D (d : double)
| setGainKpX (d : double) | setGainKpY (d : double) | setGainKpZ (d : double)
| setGainKiX (d : double) | setGainKiY (d : double) | setGainKiZ (d : double)
| setGainKdX (d : double) | setGainKdY (d : double) | setGainKdZ (d : double)
| setOutputSaturation (limits : Eigen.Vector3d)
| resetController3D
| computeControl3D (dt : double) (state reference : Eigen.Vector3d)
| computeControlTrajectory (dt : double) (pos pos_ref vel vel_ref : Eigen.Vector3d).

Definition PIDController3D : Type := list PID3DCall.

(** [std::make_shared<PIDController>()]: a handle nothing was called on. *)
Definition make_PIDController : PIDController := [].
Definition make_PIDController3D : PIDController3D := [].

End pid_controller.

(** ** The plugin object *)

(** [struct UAV_state]: position, velocity and the yaw vector (angle, rate,
    acceleration).  Its two message headers are never read by the plugin and
    are left out. *)
Record UAV_state : Type :=
  { position : Eigen.Vector3d;
    velocity : Eigen.Vector3d;
    yaw : Eigen.Vector3d }.

(** [struct UAV_command]; its [velocity] member is [command_velocity] here,
    the name [velocity] being taken by [UAV_state]. *)
Record UAV_command : Type :=
  { command_velocity : Eigen.Vector3d;
    yaw_speed : double }.

(** [struct Control_flags], with the speed-in-a-plane flag the
    implementation file uses. *)
Record Control_flags : Type :=
  { state_received : bool;
    ref_received : bool;
    plugin_parameters_read : bool;
    position_controller_parameters_read : bool;
    velocity_controller_parameters_read : bool;
    speed_in_a_plane_controller_parameters_read : bool;
    trajectory_controller_parameters_read : bool;
    yaw_controller_parameters_read : bool }.

(** The data members of [class Plugin] that the implementation file reads
    or writes.  The six regulator handles are distinct objects, each built by
    its own [make_shared] in [ownInitialize]. *)
Record Plugin : Type :=
  { control_mode_in_ : as2_msgs.ControlMode;
    control_mode_out_ : as2_msgs.ControlMode;
    flags_ : Control_flags;
    pid_yaw_handler_ : pid_controller.PIDController;
    pid_3D_position_handler_ : pid_controller.PIDController3D;
    pid_3D_velocity_handler_ : pid_controller.PIDController3D;
    pid_1D_speed_in_a_plane_handler_ : pid_controller.PIDController;
    pid_3D_speed_in_a_plane_handler_ : pid_controller.PIDController3D;
    pid_3D_trajectory_handler_ : pid_controller.PIDController3D;
    plugin_parameters_to_read_ : list string;
    position_control_parameters_to_read_ : list string;
    velocity_control_parameters_to_read_ : list string;
    speed_in_a_plane_control_parameters_to_read_ : list string;
    trajectory_control_parameters_to_read_ : list string;
    yaw_control_parameters_to_read_ : list string;
    uav_state_ : UAV_state;
    control_ref_ : UAV_state;
    control_command_ : UAV_command;
    speed_limits_ : Eigen.Vector3d;
    proportional_limitation_ : bool;
    use_bypass_ : bool;
    enu_frame_id_ : string;
    flu_frame_id_ : string;
    input_pose_frame_id_ : string;
    input_twist_frame_id_ : string;
    output_twist_frame_id_ : string }.

(** Member assignment: [with_f v s] is [s] after [s.f = v]. *)

Definition with_position (v : Eigen.Vector3d) (u : UAV_state) : UAV_state :=
  {| position := v; velocity := velocity u; yaw := yaw u |}.

Definition with_velocity (v : Eigen.Vector3d) (u : UAV_state) : UAV_state :=
  {| position := position u; velocity := v; yaw := yaw u |}.

Definition with_yaw (v : Eigen.Vector3d) (u : UAV_state) : UAV_state :=
  {| position := position u; velocity := velocity u; yaw := v |}.

Definition with_command_velocity (v : Eigen.Vector3d) (c : UAV_command) : UAV_command :=
  {| command_velocity := v; yaw_speed := yaw_speed c |}.

Definition with_yaw_speed (v : double) (c : UAV_command) : UAV_command :=
  {| command_velocity := command_velocity c; yaw_speed := v |}.

Definition with_state_received (v : bool) (f : Control_flags) : Control_flags :=
  {| state_received := v; ref_received := ref_received f; plugin_parameters_read :=
     plugin_parameters_read f; position_controller_parameters_read :=
     position_controller_parameters_read f; velocity_controller_parameters_read :=
     velocity_controller_parameters_read f; speed_in_a_plane_controller_parameters_read :=
     speed_in_a_plane_controller_parameters_read f; trajectory_controller_parameters_read :=
     trajectory_controller_parameters_read f; yaw_controller_parameters_read :=
     yaw_controller_parameters_read f |}.

Definition with_ref_received (v : bool) (f : Control_flags) : Control_flags :=
  {| state_received := state_received f; ref_received := v; plugin_parameters_read :=
     plugin_parameters_read f; position_controller_parameters_read :=
     position_controller_parameters_read f; velocity_controller_parameters_read :=
     velocity_controller_parameters_read f; speed_in_a_plane_controller_parameters_read :=
     speed_in_a_plane_controller_parameters_read f; trajectory_controller_parameters_read :=
     trajectory_controller_parameters_read f; yaw_controller_parameters_read :=
     yaw_controller_parameters_read f |}.

Definition with_plugin_parameters_read (v : bool) (f : Control_flags) : Control_flags :=
  {| state_received := state_received f; ref_received := ref_received f;
     plugin_parameters_read := v; position_controller_parameters_read :=
     position_controller_parameters_read f; velocity_controller_parameters_read :=
     velocity_controller_parameters_read f; speed_in_a_plane_controller_parameters_read :=
     speed_in_a_plane_controller_parameters_read f; trajectory_controller_parameters_read :=
     trajectory_controller_parameters_read f; yaw_controller_parameters_read :=
     yaw_controller_parameters_read f |}.

Definition with_position_controller_parameters_read (v : bool) (f : Control_flags) : Control_flags :=
  {| state_received := state_received f; ref_received := ref_received f;
     plugin_parameters_read := plugin_parameters_read f; position_controller_parameters_read
     := v; velocity_controller_parameters_read := velocity_controller_parameters_read f;
     speed_in_a_plane_controller_parameters_read :=
     speed_in_a_plane_controller_parameters_read f; trajectory_controller_parameters_read :=
     trajectory_controller_parameters_read f; yaw_controller_parameters_read :=
     yaw_controller_parameters_read f |}.

Definition with_velocity_controller_parameters_read (v : bool) (f : Control_flags) : Control_flags :=
  {| state_received := state_received f; ref_received := ref_received f;
     plugin_parameters_read := plugin_parameters_read f; position_controller_parameters_read
     := position_controller_parameters_read f; velocity_controller_parameters_read := v;
     speed_in_a_plane_controller_parameters_read :=
     speed_in_a_plane_controller_parameters_read f; trajectory_controller_parameters_read :=
     trajectory_controller_parameters_read f; yaw_controller_parameters_read :=
     yaw_controller_parameters_read f |}.

Definition with_speed_in_a_plane_controller_parameters_read (v : bool) (f : Control_flags) : Control_flags :=
  {| state_received := state_received f; ref_received := ref_received f;
     plugin_parameters_read := plugin_parameters_read f; position_controller_parameters_read
     := position_controller_parameters_read f; velocity_controller_parameters_read :=
     velocity_controller_parameters_read f; speed_in_a_plane_controller_parameters_read := v;
     trajectory_controller_parameters_read := trajectory_controller_parameters_read f;
     yaw_controller_parameters_read := yaw_controller_parameters_read f |}.

Definition with_trajectory_controller_parameters_read (v : bool) (f : Control_flags) : Control_flags :=
  {| state_received := state_received f; ref_received := ref_received f;
     plugin_parameters_read := plugin_parameters_read f; position_controller_parameters_read
     := position_controller_parameters_read f; velocity_controller_parameters_read :=
     velocity_controller_parameters_read f; speed_in_a_plane_controller_parameters_read :=
     speed_in_a_plane_controller_parameters_read f; trajectory_controller_parameters_read :=
     v; yaw_controller_parameters_read := yaw_controller_parameters_read f |}.

Definition with_yaw_controller_parameters_read (v : bool) (f : Control_flags) : Control_flags :=
  {| state_received := state_received f; ref_received := ref_received f;
     plugin_parameters_read := plugin_parameters_read f; position_controller_parameters_read
     := position_controller_parameters_read f; velocity_controller_parameters_read :=
     velocity_controller_parameters_read f; speed_in_a_plane_controller_parameters_read :=
     speed_in_a_plane_controller_parameters_read f; trajectory_controller_parameters_read :=
     trajectory_controller_parameters_read f; yaw_controller_parameters_read := v |}.

Definition with_control_mode_in_ (v : as2_msgs.ControlMode) (s : Plugin) : Plugin :=
  {| control_mode_in_ := v; control_mode_out_ := control_mode_out_ s; flags_ := flags_ s;
     pid_yaw_handler_ := pid_yaw_handler_ s; pid_3D_position_handler_ :=
     pid_3D_position_handler_ s; pid_3D_velocity_handler_ := pid_3D_velocity_handler_ s;
     pid_1D_speed_in_a_plane_handler_ := pid_1D_speed_in_a_plane_handler_ s;
     pid_3D_speed_in_a_plane_handler_ := pid_3D_speed_in_a_plane_handler_ s;
     pid_3D_trajectory_handler_ := pid_3D_trajectory_handler_ s; plugin_parameters_to_read_
     := plugin_parameters_to_read_ s; position_control_parameters_to_read_ :=
     position_control_parameters_to_read_ s; velocity_control_parameters_to_read_ :=
     velocity_control_parameters_to_read_ s; speed_in_a_plane_control_parameters_to_read_ :=
     speed_in_a_plane_control_parameters_to_read_ s; trajectory_control_parameters_to_read_
     := trajectory_control_parameters_to_read_ s; yaw_control_parameters_to_read_ :=
     yaw_control_parameters_to_read_ s; uav_state_ := uav_state_ s; control_ref_ :=
     control_ref_ s; control_command_ := control_command_ s; speed_limits_ := speed_limits_
     s; proportional_limitation_ := proportional_limitation_ s; use_bypass_ := use_bypass_ s;
     enu_frame_id_ := enu_frame_id_ s; flu_frame_id_ := flu_frame_id_ s; input_pose_frame_id_
     := input_pose_frame_id_ s; input_twist_frame_id_ := input_twist_frame_id_ s;
     output_twist_frame_id_ := output_twist_frame_id_ s |}.

Definition with_control_mode_out_ (v : as2_msgs.ControlMode) (s : Plugin) : Plugin :=
  {| control_mode_in_ := control_mode_in_ s; control_mode_out_ := v; flags_ := flags_ s;
     pid_yaw_handler_ := pid_yaw_handler_ s; pid_3D_position_handler_ :=
     pid_3D_position_handler_ s; pid_3D_velocity_handler_ := pid_3D_velocity_handler_ s;
     pid_1D_speed_in_a_plane_handler_ := pid_1D_speed_in_a_plane_handler_ s;
     pid_3D_speed_in_a_plane_handler_ := pid_3D_speed_in_a_plane_handler_ s;
     pid_3D_trajectory_handler_ := pid_3D_trajectory_handler_ s; plugin_parameters_to_read_
     := plugin_parameters_to_read_ s; position_control_parameters_to_read_ :=
     position_control_parameters_to_read_ s; velocity_control_parameters_to_read_ :=
     velocity_control_parameters_to_read_ s; speed_in_a_plane_control_parameters_to_read_ :=
     speed_in_a_plane_control_parameters_to_read_ s; trajectory_control_parameters_to_read_
     := trajectory_control_parameters_to_read_ s; yaw_control_parameters_to_read_ :=
     yaw_control_parameters_to_read_ s; uav_state_ := uav_state_ s; control_ref_ :=
     control_ref_ s; control_command_ := control_command_ s; speed_limits_ := speed_limits_
     s; proportional_limitation_ := proportional_limitation_ s; use_bypass_ := use_bypass_ s;
     enu_frame_id_ := enu_frame_id_ s; flu_frame_id_ := flu_frame_id_ s; input_pose_frame_id_
     := input_pose_frame_id_ s; input_twist_frame_id_ := input_twist_frame_id_ s;
     output_twist_frame_id_ := output_twist_frame_id_ s |}.

Definition with_flags_ (v : Control_flags) (s : Plugin) : Plugin :=
  {| control_mode_in_ := control_mode_in_ s; control_mode_out_ := control_mode_out_ s; flags_
     := v; pid_yaw_handler_ := pid_yaw_handler_ s; pid_3D_position_handler_ :=
     pid_3D_position_handler_ s; pid_3D_velocity_handler_ := pid_3D_velocity_handler_ s;
     pid_1D_speed_in_a_plane_handler_ := pid_1D_speed_in_a_plane_handler_ s;
     pid_3D_speed_in_a_plane_handler_ := pid_3D_speed_in_a_plane_handler_ s;
     pid_3D_trajectory_handler_ := pid_3D_trajectory_handler_ s; plugin_parameters_to_read_
     := plugin_parameters_to_read_ s; position_control_parameters_to_read_ :=
     position_control_parameters_to_read_ s; velocity_control_parameters_to_read_ :=
     velocity_control_parameters_to_read_ s; speed_in_a_plane_control_parameters_to_read_ :=
     speed_in_a_plane_control_parameters_to_read_ s; trajectory_control_parameters_to_read_
     := trajectory_control_parameters_to_read_ s; yaw_control_parameters_to_read_ :=
     yaw_control_parameters_to_read_ s; uav_state_ := uav_state_ s; control_ref_ :=
     control_ref_ s; control_command_ := control_command_ s; speed_limits_ := speed_limits_
     s; proportional_limitation_ := proportional_limitation_ s; use_bypass_ := use_bypass_ s;
     enu_frame_id_ := enu_frame_id_ s; flu_frame_id_ := flu_frame_id_ s; input_pose_frame_id_
     := input_pose_frame_id_ s; input_twist_frame_id_ := input_twist_frame_id_ s;
     output_twist_frame_id_ := output_twist_frame_id_ s |}.

Definition with_pid_yaw_handler_ (v : pid_controller.PIDController) (s : Plugin) : Plugin :=
  {| control_mode_in_ := control_mode_in_ s; control_mode_out_ := control_mode_out_ s; flags_
     := flags_ s; pid_yaw_handler_ := v; pid_3D_position_handler_ := pid_3D_position_handler_
     s; pid_3D_velocity_handler_ := pid_3D_velocity_handler_ s;
     pid_1D_speed_in_a_plane_handler_ := pid_1D_speed_in_a_plane_handler_ s;
     pid_3D_speed_in_a_plane_handler_ := pid_3D_speed_in_a_plane_handler_ s;
     pid_3D_trajectory_handler_ := pid_3D_trajectory_handler_ s; plugin_parameters_to_read_
     := plugin_parameters_to_read_ s; position_control_parameters_to_read_ :=
     position_control_parameters_to_read_ s; velocity_control_parameters_to_read_ :=
     velocity_control_parameters_to_read_ s; speed_in_a_plane_control_parameters_to_read_ :=
     speed_in_a_plane_control_parameters_to_read_ s; trajectory_control_parameters_to_read_
     := trajectory_control_parameters_to_read_ s; yaw_control_parameters_to_read_ :=
     yaw_control_parameters_to_read_ s; uav_state_ := uav_state_ s; control_ref_ :=
     control_ref_ s; control_command_ := control_command_ s; speed_limits_ := speed_limits_
     s; proportional_limitation_ := proportional_limitation_ s; use_bypass_ := use_bypass_ s;
     enu_frame_id_ := enu_frame_id_ s; flu_frame_id_ := flu_frame_id_ s; input_pose_frame_id_
     := input_pose_frame_id_ s; input_twist_frame_id_ := input_twist_frame_id_ s;
     output_twist_frame_id_ := output_twist_frame_id_ s |}.

Definition with_pid_3D_position_handler_ (v : pid_controller.PIDController3D) (s : Plugin) : Plugin :=
  {| control_mode_in_ := control_mode_in_ s; control_mode_out_ := control_mode_out_ s; flags_
     := flags_ s; pid_yaw_handler_ := pid_yaw_handler_ s; pid_3D_position_handler_ := v;
     pid_3D_velocity_handler_ := pid_3D_velocity_handler_ s; pid_1D_speed_in_a_plane_handler_
     := pid_1D_speed_in_a_plane_handler_ s; pid_3D_speed_in_a_plane_handler_ :=
     pid_3D_speed_in_a_plane_handler_ s; pid_3D_trajectory_handler_ :=
     pid_3D_trajectory_handler_ s; plugin_parameters_to_read_ := plugin_parameters_to_read_
     s; position_control_parameters_to_read_ := position_control_parameters_to_read_ s;
     velocity_control_parameters_to_read_ := velocity_control_parameters_to_read_ s;
     speed_in_a_plane_control_parameters_to_read_ :=
     speed_in_a_plane_control_parameters_to_read_ s; trajectory_control_parameters_to_read_
     := trajectory_control_parameters_to_read_ s; yaw_control_parameters_to_read_ :=
     yaw_control_parameters_to_read_ s; uav_state_ := uav_state_ s; control_ref_ :=
     control_ref_ s; control_command_ := control_command_ s; speed_limits_ := speed_limits_
     s; proportional_limitation_ := proportional_limitation_ s; use_bypass_ := use_bypass_ s;
     enu_frame_id_ := enu_frame_id_ s; flu_frame_id_ := flu_frame_id_ s; input_pose_frame_id_
     := input_pose_frame_id_ s; input_twist_frame_id_ := input_twist_frame_id_ s;
     output_twist_frame_id_ := output_twist_frame_id_ s |}.

Definition with_pid_3D_velocity_handler_ (v : pid_controller.PIDController3D) (s : Plugin) : Plugin :=
  {| control_mode_in_ := control_mode_in_ s; control_mode_out_ := control_mode_out_ s; flags_
     := flags_ s; pid_yaw_handler_ := pid_yaw_handler_ s; pid_3D_position_handler_ :=
     pid_3D_position_handler_ s; pid_3D_velocity_handler_ := v;
     pid_1D_speed_in_a_plane_handler_ := pid_1D_speed_in_a_plane_handler_ s;
     pid_3D_speed_in_a_plane_handler_ := pid_3D_speed_in_a_plane_handler_ s;
     pid_3D_trajectory_handler_ := pid_3D_trajectory_handler_ s; plugin_parameters_to_read_
     := plugin_parameters_to_read_ s; position_control_parameters_to_read_ :=
     position_control_parameters_to_read_ s; velocity_control_parameters_to_read_ :=
     velocity_control_parameters_to_read_ s; speed_in_a_plane_control_parameters_to_read_ :=
     speed_in_a_plane_control_parameters_to_read_ s; trajectory_control_parameters_to_read_
     := trajectory_control_parameters_to_read_ s; yaw_control_parameters_to_read_ :=
     yaw_control_parameters_to_read_ s; uav_state_ := uav_state_ s; control_ref_ :=
     control_ref_ s; control_command_ := control_command_ s; speed_limits_ := speed_limits_
     s; proportional_limitation_ := proportional_limitation_ s; use_bypass_ := use_bypass_ s;
     enu_frame_id_ := enu_frame_id_ s; flu_frame_id_ := flu_frame_id_ s; input_pose_frame_id_
     := input_pose_frame_id_ s; input_twist_frame_id_ := input_twist_frame_id_ s;
     output_twist_frame_id_ := output_twist_frame_id_ s |}.

Definition with_pid_1D_speed_in_a_plane_handler_ (v : pid_controller.PIDController) (s : Plugin) : Plugin :=
  {| control_mode_in_ := control_mode_in_ s; control_mode_out_ := control_mode_out_ s; flags_
     := flags_ s; pid_yaw_handler_ := pid_yaw_handler_ s; pid_3D_position_handler_ :=
     pid_3D_position_handler_ s; pid_3D_velocity_handler_ := pid_3D_velocity_handler_ s;
     pid_1D_speed_in_a_plane_handler_ := v; pid_3D_speed_in_a_plane_handler_ :=
     pid_3D_speed_in_a_plane_handler_ s; pid_3D_trajectory_handler_ :=
     pid_3D_trajectory_handler_ s; plugin_parameters_to_read_ := plugin_parameters_to_read_
     s; position_control_parameters_to_read_ := position_control_parameters_to_read_ s;
     velocity_control_parameters_to_read_ := velocity_control_parameters_to_read_ s;
     speed_in_a_plane_control_parameters_to_read_ :=
     speed_in_a_plane_control_parameters_to_read_ s; trajectory_control_parameters_to_read_
     := trajectory_control_parameters_to_read_ s; yaw_control_parameters_to_read_ :=
     yaw_control_parameters_to_read_ s; uav_state_ := uav_state_ s; control_ref_ :=
     control_ref_ s; control_command_ := control_command_ s; speed_limits_ := speed_limits_
     s; proportional_limitation_ := proportional_limitation_ s; use_bypass_ := use_bypass_ s;
     enu_frame_id_ := enu_frame_id_ s; flu_frame_id_ := flu_frame_id_ s; input_pose_frame_id_
     := input_pose_frame_id_ s; input_twist_frame_id_ := input_twist_frame_id_ s;
     output_twist_frame_id_ := output_twist_frame_id_ s |}.

Definition with_pid_3D_speed_in_a_plane_handler_ (v : pid_controller.PIDController3D) (s : Plugin) : Plugin :=
  {| control_mode_in_ := control_mode_in_ s; control_mode_out_ := control_mode_out_ s; flags_
     := flags_ s; pid_yaw_handler_ := pid_yaw_handler_ s; pid_3D_position_handler_ :=
     pid_3D_position_handler_ s; pid_3D_velocity_handler_ := pid_3D_velocity_handler_ s;
     pid_1D_speed_in_a_plane_handler_ := pid_1D_speed_in_a_plane_handler_ s;
     pid_3D_speed_in_a_plane_handler_ := v; pid_3D_trajectory_handler_ :=
     pid_3D_trajectory_handler_ s; plugin_parameters_to_read_ := plugin_parameters_to_read_
     s; position_control_parameters_to_read_ := position_control_parameters_to_read_ s;
     velocity_control_parameters_to_read_ := velocity_control_parameters_to_read_ s;
     speed_in_a_plane_control_parameters_to_read_ :=
     speed_in_a_plane_control_parameters_to_read_ s; trajectory_control_parameters_to_read_
     := trajectory_control_parameters_to_read_ s; yaw_control_parameters_to_read_ :=
     yaw_control_parameters_to_read_ s; uav_state_ := uav_state_ s; control_ref_ :=
     control_ref_ s; control_command_ := control_command_ s; speed_limits_ := speed_limits_
     s; proportional_limitation_ := proportional_limitation_ s; use_bypass_ := use_bypass_ s;
     enu_frame_id_ := enu_frame_id_ s; flu_frame_id_ := flu_frame_id_ s; input_pose_frame_id_
     := input_pose_frame_id_ s; input_twist_frame_id_ := input_twist_frame_id_ s;
     output_twist_frame_id_ := output_twist_frame_id_ s |}.

Definition with_pid_3D_trajectory_handler_ (v : pid_controller.PIDController3D) (s : Plugin) : Plugin :=
  {| control_mode_in_ := control_mode_in_ s; control_mode_out_ := control_mode_out_ s; flags_
     := flags_ s; pid_yaw_handler_ := pid_yaw_handler_ s; pid_3D_position_handler_ :=
     pid_3D_position_handler_ s; pid_3D_velocity_handler_ := pid_3D_velocity_handler_ s;
     pid_1D_speed_in_a_plane_handler_ := pid_1D_speed_in_a_plane_handler_ s;
     pid_3D_speed_in_a_plane_handler_ := pid_3D_speed_in_a_plane_handler_ s;
     pid_3D_trajectory_handler_ := v; plugin_parameters_to_read_ :=
     plugin_parameters_to_read_ s; position_control_parameters_to_read_ :=
     position_control_parameters_to_read_ s; velocity_control_parameters_to_read_ :=
     velocity_control_parameters_to_read_ s; speed_in_a_plane_control_parameters_to_read_ :=
     speed_in_a_plane_control_parameters_to_read_ s; trajectory_control_parameters_to_read_
     := trajectory_control_parameters_to_read_ s; yaw_control_parameters_to_read_ :=
     yaw_control_parameters_to_read_ s; uav_state_ := uav_state_ s; control_ref_ :=
     control_ref_ s; control_command_ := control_command_ s; speed_limits_ := speed_limits_
     s; proportional_limitation_ := proportional_limitation_ s; use_bypass_ := use_bypass_ s;
     enu_frame_id_ := enu_frame_id_ s; flu_frame_id_ := flu_frame_id_ s; input_pose_frame_id_
     := input_pose_frame_id_ s; input_twist_frame_id_ := input_twist_frame_id_ s;
     output_twist_frame_id_ := output_twist_frame_id_ s |}.

Definition with_plugin_parameters_to_read_ (v : list string) (s : Plugin) : Plugin :=
  {| control_mode_in_ := control_mode_in_ s; control_mode_out_ := control_mode_out_ s; flags_
     := flags_ s; pid_yaw_handler_ := pid_yaw_handler_ s; pid_3D_position_handler_ :=
     pid_3D_position_handler_ s; pid_3D_velocity_handler_ := pid_3D_velocity_handler_ s;
     pid_1D_speed_in_a_plane_handler_ := pid_1D_speed_in_a_plane_handler_ s;
     pid_3D_speed_in_a_plane_handler_ := pid_3D_speed_in_a_plane_handler_ s;
     pid_3D_trajectory_handler_ := pid_3D_trajectory_handler_ s; plugin_parameters_to_read_
     := v; position_control_parameters_to_read_ := position_control_parameters_to_read_ s;
     velocity_control_parameters_to_read_ := velocity_control_parameters_to_read_ s;
     speed_in_a_plane_control_parameters_to_read_ :=
     speed_in_a_plane_control_parameters_to_read_ s; trajectory_control_parameters_to_read_
     := trajectory_control_parameters_to_read_ s; yaw_control_parameters_to_read_ :=
     yaw_control_parameters_to_read_ s; uav_state_ := uav_state_ s; control_ref_ :=
     control_ref_ s; control_command_ := control_command_ s; speed_limits_ := speed_limits_
     s; proportional_limitation_ := proportional_limitation_ s; use_bypass_ := use_bypass_ s;
     enu_frame_id_ := enu_frame_id_ s; flu_frame_id_ := flu_frame_id_ s; input_pose_frame_id_
     := input_pose_frame_id_ s; input_twist_frame_id_ := input_twist_frame_id_ s;
     output_twist_frame_id_ := output_twist_frame_id_ s |}.

Definition with_position_control_parameters_to_read_ (v : list string) (s : Plugin) : Plugin :=
  {| control_mode_in_ := control_mode_in_ s; control_mode_out_ := control_mode_out_ s; flags_
     := flags_ s; pid_yaw_handler_ := pid_yaw_handler_ s; pid_3D_position_handler_ :=
     pid_3D_position_handler_ s; pid_3D_velocity_handler_ := pid_3D_velocity_handler_ s;
     pid_1D_speed_in_a_plane_handler_ := pid_1D_speed_in_a_plane_handler_ s;
     pid_3D_speed_in_a_plane_handler_ := pid_3D_speed_in_a_plane_handler_ s;
     pid_3D_trajectory_handler_ := pid_3D_trajectory_handler_ s; plugin_parameters_to_read_
     := plugin_parameters_to_read_ s; position_control_parameters_to_read_ := v;
     velocity_control_parameters_to_read_ := velocity_control_parameters_to_read_ s;
     speed_in_a_plane_control_parameters_to_read_ :=
     speed_in_a_plane_control_parameters_to_read_ s; trajectory_control_parameters_to_read_
     := trajectory_control_parameters_to_read_ s; yaw_control_parameters_to_read_ :=
     yaw_control_parameters_to_read_ s; uav_state_ := uav_state_ s; control_ref_ :=
     control_ref_ s; control_command_ := control_command_ s; speed_limits_ := speed_limits_
     s; proportional_limitation_ := proportional_limitation_ s; use_bypass_ := use_bypass_ s;
     enu_frame_id_ := enu_frame_id_ s; flu_frame_id_ := flu_frame_id_ s; input_pose_frame_id_
     := input_pose_frame_id_ s; input_twist_frame_id_ := input_twist_frame_id_ s;
     output_twist_frame_id_ := output_twist_frame_id_ s |}.

Definition with_velocity_control_parameters_to_read_ (v : list string) (s : Plugin) : Plugin :=
  {| control_mode_in_ := control_mode_in_ s; control_mode_out_ := control_mode_out_ s; flags_
     := flags_ s; pid_yaw_handler_ := pid_yaw_handler_ s; pid_3D_position_handler_ :=
     pid_3D_position_handler_ s; pid_3D_velocity_handler_ := pid_3D_velocity_handler_ s;
     pid_1D_speed_in_a_plane_handler_ := pid_1D_speed_in_a_plane_handler_ s;
     pid_3D_speed_in_a_plane_handler_ := pid_3D_speed_in_a_plane_handler_ s;
     pid_3D_trajectory_handler_ := pid_3D_trajectory_handler_ s; plugin_parameters_to_read_
     := plugin_parameters_to_read_ s; position_control_parameters_to_read_ :=
     position_control_parameters_to_read_ s; velocity_control_parameters_to_read_ := v;
     speed_in_a_plane_control_parameters_to_read_ :=
     speed_in_a_plane_control_parameters_to_read_ s; trajectory_control_parameters_to_read_
     := trajectory_control_parameters_to_read_ s; yaw_control_parameters_to_read_ :=
     yaw_control_parameters_to_read_ s; uav_state_ := uav_state_ s; control_ref_ :=
     control_ref_ s; control_command_ := control_command_ s; speed_limits_ := speed_limits_
     s; proportional_limitation_ := proportional_limitation_ s; use_bypass_ := use_bypass_ s;
     enu_frame_id_ := enu_frame_id_ s; flu_frame_id_ := flu_frame_id_ s; input_pose_frame_id_
     := input_pose_frame_id_ s; input_twist_frame_id_ := input_twist_frame_id_ s;
     output_twist_frame_id_ := output_twist_frame_id_ s |}.

Definition with_speed_in_a_plane_control_parameters_to_read_ (v : list string) (s : Plugin) : Plugin :=
  {| control_mode_in_ := control_mode_in_ s; control_mode_out_ := control_mode_out_ s; flags_
     := flags_ s; pid_yaw_handler_ := pid_yaw_handler_ s; pid_3D_position_handler_ :=
     pid_3D_position_handler_ s; pid_3D_velocity_handler_ := pid_3D_velocity_handler_ s;
     pid_1D_speed_in_a_plane_handler_ := pid_1D_speed_in_a_plane_handler_ s;
     pid_3D_speed_in_a_plane_handler_ := pid_3D_speed_in_a_plane_handler_ s;
     pid_3D_trajectory_handler_ := pid_3D_trajectory_handler_ s; plugin_parameters_to_read_
     := plugin_parameters_to_read_ s; position_control_parameters_to_read_ :=
     position_control_parameters_to_read_ s; velocity_control_parameters_to_read_ :=
     velocity_control_parameters_to_read_ s; speed_in_a_plane_control_parameters_to_read_ :=
     v; trajectory_control_parameters_to_read_ := trajectory_control_parameters_to_read_ s;
     yaw_control_parameters_to_read_ := yaw_control_parameters_to_read_ s; uav_state_ :=
     uav_state_ s; control_ref_ := control_ref_ s; control_command_ := control_command_ s;
     speed_limits_ := speed_limits_ s; proportional_limitation_ := proportional_limitation_
     s; use_bypass_ := use_bypass_ s; enu_frame_id_ := enu_frame_id_ s; flu_frame_id_ :=
     flu_frame_id_ s; input_pose_frame_id_ := input_pose_frame_id_ s; input_twist_frame_id_
     := input_twist_frame_id_ s; output_twist_frame_id_ := output_twist_frame_id_ s |}.

Definition with_trajectory_control_parameters_to_read_ (v : list string) (s : Plugin) : Plugin :=
  {| control_mode_in_ := control_mode_in_ s; control_mode_out_ := control_mode_out_ s; flags_
     := flags_ s; pid_yaw_handler_ := pid_yaw_handler_ s; pid_3D_position_handler_ :=
     pid_3D_position_handler_ s; pid_3D_velocity_handler_ := pid_3D_velocity_handler_ s;
     pid_1D_speed_in_a_plane_handler_ := pid_1D_speed_in_a_plane_handler_ s;
     pid_3D_speed_in_a_plane_handler_ := pid_3D_speed_in_a_plane_handler_ s;
     pid_3D_trajectory_handler_ := pid_3D_trajectory_handler_ s; plugin_parameters_to_read_
     := plugin_parameters_to_read_ s; position_control_parameters_to_read_ :=
     position_control_parameters_to_read_ s; velocity_control_parameters_to_read_ :=
     velocity_control_parameters_to_read_ s; speed_in_a_plane_control_parameters_to_read_ :=
     speed_in_a_plane_control_parameters_to_read_ s; trajectory_control_parameters_to_read_
     := v; yaw_control_parameters_to_read_ := yaw_control_parameters_to_read_ s; uav_state_
     := uav_state_ s; control_ref_ := control_ref_ s; control_command_ := control_command_ s;
     speed_limits_ := speed_limits_ s; proportional_limitation_ := proportional_limitation_
     s; use_bypass_ := use_bypass_ s; enu_frame_id_ := enu_frame_id_ s; flu_frame_id_ :=
     flu_frame_id_ s; input_pose_frame_id_ := input_pose_frame_id_ s; input_twist_frame_id_
     := input_twist_frame_id_ s; output_twist_frame_id_ := output_twist_frame_id_ s |}.

Definition with_yaw_control_parameters_to_read_ (v : list string) (s : Plugin) : Plugin :=
  {| control_mode_in_ := control_mode_in_ s; control_mode_out_ := control_mode_out_ s; flags_
     := flags_ s; pid_yaw_handler_ := pid_yaw_handler_ s; pid_3D_position_handler_ :=
     pid_3D_position_handler_ s; pid_3D_velocity_handler_ := pid_3D_velocity_handler_ s;
     pid_1D_speed_in_a_plane_handler_ := pid_1D_speed_in_a_plane_handler_ s;
     pid_3D_speed_in_a_plane_handler_ := pid_3D_speed_in_a_plane_handler_ s;
     pid_3D_trajectory_handler_ := pid_3D_trajectory_handler_ s; plugin_parameters_to_read_
     := plugin_parameters_to_read_ s; position_control_parameters_to_read_ :=
     position_control_parameters_to_read_ s; velocity_control_parameters_to_read_ :=
     velocity_control_parameters_to_read_ s; speed_in_a_plane_control_parameters_to_read_ :=
     speed_in_a_plane_control_parameters_to_read_ s; trajectory_control_parameters_to_read_
     := trajectory_control_parameters_to_read_ s; yaw_control_parameters_to_read_ := v;
     uav_state_ := uav_state_ s; control_ref_ := control_ref_ s; control_command_ :=
     control_command_ s; speed_limits_ := speed_limits_ s; proportional_limitation_ :=
     proportional_limitation_ s; use_bypass_ := use_bypass_ s; enu_frame_id_ := enu_frame_id_
     s; flu_frame_id_ := flu_frame_id_ s; input_pose_frame_id_ := input_pose_frame_id_ s;
     input_twist_frame_id_ := input_twist_frame_id_ s; output_twist_frame_id_ :=
     output_twist_frame_id_ s |}.

Definition with_uav_state_ (v : UAV_state) (s : Plugin) : Plugin :=
  {| control_mode_in_ := control_mode_in_ s; control_mode_out_ := control_mode_out_ s; flags_
     := flags_ s; pid_yaw_handler_ := pid_yaw_handler_ s; pid_3D_position_handler_ :=
     pid_3D_position_handler_ s; pid_3D_velocity_handler_ := pid_3D_velocity_handler_ s;
     pid_1D_speed_in_a_plane_handler_ := pid_1D_speed_in_a_plane_handler_ s;
     pid_3D_speed_in_a_plane_handler_ := pid_3D_speed_in_a_plane_handler_ s;
     pid_3D_trajectory_handler_ := pid_3D_trajectory_handler_ s; plugin_parameters_to_read_
     := plugin_parameters_to_read_ s; position_control_parameters_to_read_ :=
     position_control_parameters_to_read_ s; velocity_control_parameters_to_read_ :=
     velocity_control_parameters_to_read_ s; speed_in_a_plane_control_parameters_to_read_ :=
     speed_in_a_plane_control_parameters_to_read_ s; trajectory_control_parameters_to_read_
     := trajectory_control_parameters_to_read_ s; yaw_control_parameters_to_read_ :=
     yaw_control_parameters_to_read_ s; uav_state_ := v; control_ref_ := control_ref_ s;
     control_command_ := control_command_ s; speed_limits_ := speed_limits_ s;
     proportional_limitation_ := proportional_limitation_ s; use_bypass_ := use_bypass_ s;
     enu_frame_id_ := enu_frame_id_ s; flu_frame_id_ := flu_frame_id_ s; input_pose_frame_id_
     := input_pose_frame_id_ s; input_twist_frame_id_ := input_twist_frame_id_ s;
     output_twist_frame_id_ := output_twist_frame_id_ s |}.

Definition with_control_ref_ (v : UAV_state) (s : Plugin) : Plugin :=
  {| control_mode_in_ := control_mode_in_ s; control_mode_out_ := control_mode_out_ s; flags_
     := flags_ s; pid_yaw_handler_ := pid_yaw_handler_ s; pid_3D_position_handler_ :=
     pid_3D_position_handler_ s; pid_3D_velocity_handler_ := pid_3D_velocity_handler_ s;
     pid_1D_speed_in_a_plane_handler_ := pid_1D_speed_in_a_plane_handler_ s;
     pid_3D_speed_in_a_plane_handler_ := pid_3D_speed_in_a_plane_handler_ s;
     pid_3D_trajectory_handler_ := pid_3D_trajectory_handler_ s; plugin_parameters_to_read_
     := plugin_parameters_to_read_ s; position_control_parameters_to_read_ :=
     position_control_parameters_to_read_ s; velocity_control_parameters_to_read_ :=
     velocity_control_parameters_to_read_ s; speed_in_a_plane_control_parameters_to_read_ :=
     speed_in_a_plane_control_parameters_to_read_ s; trajectory_control_parameters_to_read_
     := trajectory_control_parameters_to_read_ s; yaw_control_parameters_to_read_ :=
     yaw_control_parameters_to_read_ s; uav_state_ := uav_state_ s; control_ref_ := v;
     control_command_ := control_command_ s; speed_limits_ := speed_limits_ s;
     proportional_limitation_ := proportional_limitation_ s; use_bypass_ := use_bypass_ s;
     enu_frame_id_ := enu_frame_id_ s; flu_frame_id_ := flu_frame_id_ s; input_pose_frame_id_
     := input_pose_frame_id_ s; input_twist_frame_id_ := input_twist_frame_id_ s;
     output_twist_frame_id_ := output_twist_frame_id_ s |}.

Definition with_control_command_ (v : UAV_command) (s : Plugin) : Plugin :=
  {| control_mode_in_ := control_mode_in_ s; control_mode_out_ := control_mode_out_ s; flags_
     := flags_ s; pid_yaw_handler_ := pid_yaw_handler_ s; pid_3D_position_handler_ :=
     pid_3D_position_handler_ s; pid_3D_velocity_handler_ := pid_3D_velocity_handler_ s;
     pid_1D_speed_in_a_plane_handler_ := pid_1D_speed_in_a_plane_handler_ s;
     pid_3D_speed_in_a_plane_handler_ := pid_3D_speed_in_a_plane_handler_ s;
     pid_3D_trajectory_handler_ := pid_3D_trajectory_handler_ s; plugin_parameters_to_read_
     := plugin_parameters_to_read_ s; position_control_parameters_to_read_ :=
     position_control_parameters_to_read_ s; velocity_control_parameters_to_read_ :=
     velocity_control_parameters_to_read_ s; speed_in_a_plane_control_parameters_to_read_ :=
     speed_in_a_plane_control_parameters_to_read_ s; trajectory_control_parameters_to_read_
     := trajectory_control_parameters_to_read_ s; yaw_control_parameters_to_read_ :=
     yaw_control_parameters_to_read_ s; uav_state_ := uav_state_ s; control_ref_ :=
     control_ref_ s; control_command_ := v; speed_limits_ := speed_limits_ s;
     proportional_limitation_ := proportional_limitation_ s; use_bypass_ := use_bypass_ s;
     enu_frame_id_ := enu_frame_id_ s; flu_frame_id_ := flu_frame_id_ s; input_pose_frame_id_
     := input_pose_frame_id_ s; input_twist_frame_id_ := input_twist_frame_id_ s;
     output_twist_frame_id_ := output_twist_frame_id_ s |}.

Definition with_speed_limits_ (v : Eigen.Vector3d) (s : Plugin) : Plugin :=
  {| control_mode_in_ := control_mode_in_ s; control_mode_out_ := control_mode_out_ s; flags_
     := flags_ s; pid_yaw_handler_ := pid_yaw_handler_ s; pid_3D_position_handler_ :=
     pid_3D_position_handler_ s; pid_3D_velocity_handler_ := pid_3D_velocity_handler_ s;
     pid_1D_speed_in_a_plane_handler_ := pid_1D_speed_in_a_plane_handler_ s;
     pid_3D_speed_in_a_plane_handler_ := pid_3D_speed_in_a_plane_handler_ s;
     pid_3D_trajectory_handler_ := pid_3D_trajectory_handler_ s; plugin_parameters_to_read_
     := plugin_parameters_to_read_ s; position_control_parameters_to_read_ :=
     position_control_parameters_to_read_ s; velocity_control_parameters_to_read_ :=
     velocity_control_parameters_to_read_ s; speed_in_a_plane_control_parameters_to_read_ :=
     speed_in_a_plane_control_parameters_to_read_ s; trajectory_control_parameters_to_read_
     := trajectory_control_parameters_to_read_ s; yaw_control_parameters_to_read_ :=
     yaw_control_parameters_to_read_ s; uav_state_ := uav_state_ s; control_ref_ :=
     control_ref_ s; control_command_ := control_command_ s; speed_limits_ := v;
     proportional_limitation_ := proportional_limitation_ s; use_bypass_ := use_bypass_ s;
     enu_frame_id_ := enu_frame_id_ s; flu_frame_id_ := flu_frame_id_ s; input_pose_frame_id_
     := input_pose_frame_id_ s; input_twist_frame_id_ := input_twist_frame_id_ s;
     output_twist_frame_id_ := output_twist_frame_id_ s |}.

Definition with_proportional_limitation_ (v : bool) (s : Plugin) : Plugin :=
  {| control_mode_in_ := control_mode_in_ s; control_mode_out_ := control_mode_out_ s; flags_
     := flags_ s; pid_yaw_handler_ := pid_yaw_handler_ s; pid_3D_position_handler_ :=
     pid_3D_position_handler_ s; pid_3D_velocity_handler_ := pid_3D_velocity_handler_ s;
     pid_1D_speed_in_a_plane_handler_ := pid_1D_speed_in_a_plane_handler_ s;
     pid_3D_speed_in_a_plane_handler_ := pid_3D_speed_in_a_plane_handler_ s;
     pid_3D_trajectory_handler_ := pid_3D_trajectory_handler_ s; plugin_parameters_to_read_
     := plugin_parameters_to_read_ s; position_control_parameters_to_read_ :=
     position_control_parameters_to_read_ s; velocity_control_parameters_to_read_ :=
     velocity_control_parameters_to_read_ s; speed_in_a_plane_control_parameters_to_read_ :=
     speed_in_a_plane_control_parameters_to_read_ s; trajectory_control_parameters_to_read_
     := trajectory_control_parameters_to_read_ s; yaw_control_parameters_to_read_ :=
     yaw_control_parameters_to_read_ s; uav_state_ := uav_state_ s; control_ref_ :=
     control_ref_ s; control_command_ := control_command_ s; speed_limits_ := speed_limits_
     s; proportional_limitation_ := v; use_bypass_ := use_bypass_ s; enu_frame_id_ :=
     enu_frame_id_ s; flu_frame_id_ := flu_frame_id_ s; input_pose_frame_id_ :=
     input_pose_frame_id_ s; input_twist_frame_id_ := input_twist_frame_id_ s;
     output_twist_frame_id_ := output_twist_frame_id_ s |}.

Definition with_use_bypass_ (v : bool) (s : Plugin) : Plugin :=
  {| control_mode_in_ := control_mode_in_ s; control_mode_out_ := control_mode_out_ s; flags_
     := flags_ s; pid_yaw_handler_ := pid_yaw_handler_ s; pid_3D_position_handler_ :=
     pid_3D_position_handler_ s; pid_3D_velocity_handler_ := pid_3D_velocity_handler_ s;
     pid_1D_speed_in_a_plane_handler_ := pid_1D_speed_in_a_plane_handler_ s;
     pid_3D_speed_in_a_plane_handler_ := pid_3D_speed_in_a_plane_handler_ s;
     pid_3D_trajectory_handler_ := pid_3D_trajectory_handler_ s; plugin_parameters_to_read_
     := plugin_parameters_to_read_ s; position_control_parameters_to_read_ :=
     position_control_parameters_to_read_ s; velocity_control_parameters_to_read_ :=
     velocity_control_parameters_to_read_ s; speed_in_a_plane_control_parameters_to_read_ :=
     speed_in_a_plane_control_parameters_to_read_ s; trajectory_control_parameters_to_read_
     := trajectory_control_parameters_to_read_ s; yaw_control_parameters_to_read_ :=
     yaw_control_parameters_to_read_ s; uav_state_ := uav_state_ s; control_ref_ :=
     control_ref_ s; control_command_ := control_command_ s; speed_limits_ := speed_limits_
     s; proportional_limitation_ := proportional_limitation_ s; use_bypass_ := v;
     enu_frame_id_ := enu_frame_id_ s; flu_frame_id_ := flu_frame_id_ s; input_pose_frame_id_
     := input_pose_frame_id_ s; input_twist_frame_id_ := input_twist_frame_id_ s;
     output_twist_frame_id_ := output_twist_frame_id_ s |}.

Definition with_input_pose_frame_id_ (v : string) (s : Plugin) : Plugin :=
  {| control_mode_in_ := control_mode_in_ s; control_mode_out_ := control_mode_out_ s; flags_
     := flags_ s; pid_yaw_handler_ := pid_yaw_handler_ s; pid_3D_position_handler_ :=
     pid_3D_position_handler_ s; pid_3D_velocity_handler_ := pid_3D_velocity_handler_ s;
     pid_1D_speed_in_a_plane_handler_ := pid_1D_speed_in_a_plane_handler_ s;
     pid_3D_speed_in_a_plane_handler_ := pid_3D_speed_in_a_plane_handler_ s;
     pid_3D_trajectory_handler_ := pid_3D_trajectory_handler_ s; plugin_parameters_to_read_
     := plugin_parameters_to_read_ s; position_control_parameters_to_read_ :=
     position_control_parameters_to_read_ s; velocity_control_parameters_to_read_ :=
     velocity_control_parameters_to_read_ s; speed_in_a_plane_control_parameters_to_read_ :=
     speed_in_a_plane_control_parameters_to_read_ s; trajectory_control_parameters_to_read_
     := trajectory_control_parameters_to_read_ s; yaw_control_parameters_to_read_ :=
     yaw_control_parameters_to_read_ s; uav_state_ := uav_state_ s; control_ref_ :=
     control_ref_ s; control_command_ := control_command_ s; speed_limits_ := speed_limits_
     s; proportional_limitation_ := proportional_limitation_ s; use_bypass_ := use_bypass_ s;
     enu_frame_id_ := enu_frame_id_ s; flu_frame_id_ := flu_frame_id_ s; input_pose_frame_id_
     := v; input_twist_frame_id_ := input_twist_frame_id_ s; output_twist_frame_id_ :=
     output_twist_frame_id_ s |}.

Definition with_input_twist_frame_id_ (v : string) (s : Plugin) : Plugin :=
  {| control_mode_in_ := control_mode_in_ s; control_mode_out_ := control_mode_out_ s; flags_
     := flags_ s; pid_yaw_handler_ := pid_yaw_handler_ s; pid_3D_position_handler_ :=
     pid_3D_position_handler_ s; pid_3D_velocity_handler_ := pid_3D_velocity_handler_ s;
     pid_1D_speed_in_a_plane_handler_ := pid_1D_speed_in_a_plane_handler_ s;
     pid_3D_speed_in_a_plane_handler_ := pid_3D_speed_in_a_plane_handler_ s;
     pid_3D_trajectory_handler_ := pid_3D_trajectory_handler_ s; plugin_parameters_to_read_
     := plugin_parameters_to_read_ s; position_control_parameters_to_read_ :=
     position_control_parameters_to_read_ s; velocity_control_parameters_to_read_ :=
     velocity_control_parameters_to_read_ s; speed_in_a_plane_control_parameters_to_read_ :=
     speed_in_a_plane_control_parameters_to_read_ s; trajectory_control_parameters_to_read_
     := trajectory_control_parameters_to_read_ s; yaw_control_parameters_to_read_ :=
     yaw_control_parameters_to_read_ s; uav_state_ := uav_state_ s; control_ref_ :=
     control_ref_ s; control_command_ := control_command_ s; speed_limits_ := speed_limits_
     s; proportional_limitation_ := proportional_limitation_ s; use_bypass_ := use_bypass_ s;
     enu_frame_id_ := enu_frame_id_ s; flu_frame_id_ := flu_frame_id_ s; input_pose_frame_id_
     := input_pose_frame_id_ s; input_twist_frame_id_ := v; output_twist_frame_id_ :=
     output_twist_frame_id_ s |}.

Definition with_output_twist_frame_id_ (v : string) (s : Plugin) : Plugin :=
  {| control_mode_in_ := control_mode_in_ s; control_mode_out_ := control_mode_out_ s; flags_
     := flags_ s; pid_yaw_handler_ := pid_yaw_handler_ s; pid_3D_position_handler_ :=
     pid_3D_position_handler_ s; pid_3D_velocity_handler_ := pid_3D_velocity_handler_ s;
     pid_1D_speed_in_a_plane_handler_ := pid_1D_speed_in_a_plane_handler_ s;
     pid_3D_speed_in_a_plane_handler_ := pid_3D_speed_in_a_plane_handler_ s;
     pid_3D_trajectory_handler_ := pid_3D_trajectory_handler_ s; plugin_parameters_to_read_
     := plugin_parameters_to_read_ s; position_control_parameters_to_read_ :=
     position_control_parameters_to_read_ s; velocity_control_parameters_to_read_ :=
     velocity_control_parameters_to_read_ s; speed_in_a_plane_control_parameters_to_read_ :=
     speed_in_a_plane_control_parameters_to_read_ s; trajectory_control_parameters_to_read_
     := trajectory_control_parameters_to_read_ s; yaw_control_parameters_to_read_ :=
     yaw_control_parameters_to_read_ s; uav_state_ := uav_state_ s; control_ref_ :=
     control_ref_ s; control_command_ := control_command_ s; speed_limits_ := speed_limits_
     s; proportional_limitation_ := proportional_limitation_ s; use_bypass_ := use_bypass_ s;
     enu_frame_id_ := enu_frame_id_ s; flu_frame_id_ := flu_frame_id_ s; input_pose_frame_id_
     := input_pose_frame_id_ s; input_twist_frame_id_ := input_twist_frame_id_ s;
     output_twist_frame_id_ := v |}.

(** ** Collaborators outside the repository *)

(** What the plugin takes from other packages, as it uses it:
    - the constants of [as2_msgs::msg::ControlMode] (their numeric values are
      fixed by the message definition, which is not part of this package);
    - [as2::frame::getYawFromQuaternion], [as2::frame::angleMinError] and
      [as2::tf::generateTfName];
    - the parameter store of the node, read by [get_parameters];
    - the value a regulator returns from [computeControl], a function of
      every call made on the handle up to and including that one. *)
Class Externals : Type :=
  { HOVER : Z;
    POSITION : Z;
    SPEED : Z;
    SPEED_IN_A_PLANE : Z;
    TRAJECTORY : Z;
    YAW_ANGLE : Z;
    YAW_SPEED : Z;
    LOCAL_ENU_FRAME : Z;
    BODY_FLU_FRAME : Z;
    getYawFromQuaternion : geometry_msgs.Quaternion -> double;
    angleMinError : double -> double -> double;
    generateTfName : string -> string;
    get_parameters : list string -> Outcome (list rclcpp.Parameter_);
    control_effort : pid_controller.PIDController -> double;
    control_effort3D : pid_controller.PIDController3D -> Eigen.Vector3d }.

(** ** Logging *)

(** [RCLCPP_WARN_THROTTLE] and [RCLCPP_ERROR_THROTTLE]: the record handed to
    the logger.  Whether the logger prints it depends on the clock and is
    not modelled. *)
Inductive Severity : Type := WARN | ERROR.

Record LogRecord : Type := { severity : Severity; message : string }.

(** What one call of [computeOutput] leaves behind: the returned flag, the
    [twist] reference argument, the plugin, and the records logged. *)
Record Output : Type :=
  { ok : bool;
    twist : geometry_msgs.TwistStamped;
    plugin : Plugin;
    logged : list LogRecord }.

(** ** Parameter names *)

(** [param_name.substr(0, param_name.find("."))]: without a dot [find]
    gives [npos] and the prefix is the whole name. *)
Definition controller_of (param_name : string) : string :=
  match index 0 "." param_name with
  | Some i => substring 0 i param_name
  | None => param_name
  end.

(** [param_name.substr(param_name.find(".") + 1)]: without a dot
    [npos + 1] wraps to 0 and the suffix is the whole name. *)
Definition param_subname_of (param_name : string) : string :=
  match index 0 "." param_name with
  | Some i => substring (i + 1) (String.length param_name - (i + 1)) param_name
  | None => param_name
  end.

(** The typed reads, continuing with the value or raising. *)
Definition read_bool {A : Type} (p : rclcpp.Parameter_) (k : bool -> A) : Outcome A :=
  match rclcpp.get_value_bool p with
  | Some b => Returned (k b)
  | None => Thrown (rclcpp.get_name p)
  end.

Definition read_double {A : Type} (p : rclcpp.Parameter_) (k : double -> A) : Outcome A :=
  match rclcpp.get_value_double p with
  | Some d => Returned (k d)
  | None => Thrown (rclcpp.get_name p)
  end.

(** ** Readiness tracking *)

(** [Plugin::checkParamList]: the two reference arguments are returned. *)
Definition checkParamList (param : string) (_params_list : list string)
    (_all_params_read : bool) : list string * bool :=
  let _params_list :=
    if existsb (String.eqb param) _params_list
    then remove string_dec param _params_list
    else _params_list in
  (_params_list,
   if (List.length _params_list =? 0)%nat then true else _all_params_read).

(** ** Parameter routing *)

Import pid_controller.

(** [Plugin::updateControllerParameter]; the handle after the call. *)
Definition updateControllerParameter (_pid_handler : PIDController)
    (_parameter_name : string) (_param : rclcpp.Parameter_) : Outcome PIDController :=
  if _parameter_name =? "reset_integral" then
    read_bool _param (fun b => setResetIntegralSaturationFlag b :: _pid_handler)
  else if _parameter_name =? "antiwindup_cte" then
    read_double _param (fun d => setAntiWindup d :: _pid_handler)
  else if _parameter_name =? "alpha" then
    read_double _param (fun d => setAlpha d :: _pid_handler)
  else if _parameter_name =? "kp" then
    read_double _param (fun d => setGainKp d :: _pid_handler)
  else if _parameter_name =? "ki" then
    read_double _param (fun d => setGainKi d :: _pid_handler)
  else if _parameter_name =? "kd" then
    read_double _param (fun d => setGainKd d :: _pid_handler)
  else Returned _pid_handler.

(** [Plugin::updateController3DParameter]. *)
Definition updateController3DParameter (_pid_handler : PIDController3D)
    (_parameter_name : string) (_param : rclcpp.Parameter_) : Outcome PIDController3D :=
  if _parameter_name =? "reset_integral" then
    read_bool _param (fun b => setResetIntegralSaturationFlag3D b :: _pid_handler)
  else if _parameter_name =? "antiwindup_cte" then
    read_double _param (fun d => setAntiWindup3D d :: _pid_handler)
  else if _parameter_name =? "alpha" then
    read_double _param (fun d => setAlpha3D d :: _pid_handler)
  else if _parameter_name =? "kp.x" then
    read_double _param (fun d => setGainKpX d :: _pid_handler)
  else if _parameter_name =? "kp.y" then
    read_double _param (fun d => setGainKpY d :: _pid_handler)
  else if _parameter_name =? "kp.z" then
    read_double _param (fun d => setGainKpZ d :: _pid_handler)
  else if _parameter_name =? "ki.x" then
    read_double _param (fun d => setGainKiX d :: _pid_handler)
  else if _parameter_name =? "ki.y" then
    read_double _param (fun d => setGainKiY d :: _pid_handler)
  else if _parameter_name =? "ki.z" then
    read_double _param (fun d => setGainKiZ d :: _pid_handler)
  else if _parameter_name =? "kd.x" then
    read_double _param (fun d => setGainKdX d :: _pid_handler)
  else if _parameter_name =? "kd.y" then
    read_double _param (fun d => setGainKdY d :: _pid_handler)
  else if _parameter_name =? "kd.z" then
    read_double _param (fun d => setGainKdZ d :: _pid_handler)
  else Returned _pid_handler.

(** [Plugin::updateSpeedInAPlaneParameter]: the shared leaves go to both
    handles, [height.*] to the 1-D one and [speed.*] to the 3-D one. *)
Definition updateSpeedInAPlaneParameter (_pid_1d_handler : PIDController)
    (_pid_3d_handler : PIDController3D) (_parameter_name : string)
    (_param : rclcpp.Parameter_) : Outcome (PIDController * PIDController3D) :=
  if _parameter_name =? "reset_integral" then
    read_bool _param (fun b => (setResetIntegralSaturationFlag b :: _pid_1d_handler,
                                setResetIntegralSaturationFlag3D b :: _pid_3d_handler))
  else if _parameter_name =? "antiwindup_cte" then
    read_double _param (fun d => (setAntiWindup d :: _pid_1d_handler,
                                  setAntiWindup3D d :: _pid_3d_handler))
  else if _parameter_name =? "alpha" then
    read_double _param (fun d => (setAlpha d :: _pid_1d_handler,
                                  setAlpha3D d :: _pid_3d_handler))
  else if _parameter_name =? "height.kp" then
    read_double _param (fun d => (setGainKp d :: _pid_1d_handler, _pid_3d_handler))
  else if _parameter_name =? "height.ki" then
    read_double _param (fun d => (setGainKi d :: _pid_1d_handler, _pid_3d_handler))
  else if _parameter_name =? "height.kd" then
    read_double _param (fun d => (setGainKd d :: _pid_1d_handler, _pid_3d_handler))
  else if _parameter_name =? "speed.kp.x" then
    read_double _param (fun d => (_pid_1d_handler, setGainKpX d :: _pid_3d_handler))
  else if _parameter_name =? "speed.kp.y" then
    read_double _param (fun d => (_pid_1d_handler, setGainKpY d :: _pid_3d_handler))
  else if _parameter_name =? "speed.ki.x" then
    read_double _param (fun d => (_pid_1d_handler, setGainKiX d :: _pid_3d_handler))
  else if _parameter_name =? "speed.ki.y" then
    read_double _param (fun d => (_pid_1d_handler, setGainKiY d :: _pid_3d_handler))
  else if _parameter_name =? "speed.kd.x" then
    read_double _param (fun d => (_pid_1d_handler, setGainKdX d :: _pid_3d_handler))
  else if _parameter_name =? "speed.kd.y" then
    read_double _param (fun d => (_pid_1d_handler, setGainKdY d :: _pid_3d_handler))
  else Returned (_pid_1d_handler, _pid_3d_handler).

Section PluginOperations.

Context {E : Externals}.

(** The six guarded calls of [parametersCallback]:
    [if (!flags_.g_read) checkParamList(param_name, g_to_read_, flags_.g_read);]
    with the list and the flag written back to the members they alias. *)
Definition check_plugin_parameters (param_name : string) (s : Plugin) : Plugin :=
  if negb (plugin_parameters_read (flags_ s)) then
    let c := checkParamList param_name (plugin_parameters_to_read_ s)
               (plugin_parameters_read (flags_ s)) in
    with_flags_ (with_plugin_parameters_read (snd c) (flags_ s))
      (with_plugin_parameters_to_read_ (fst c) s)
  else s.

Definition check_position_control_parameters (param_name : string) (s : Plugin) : Plugin :=
  if negb (position_controller_parameters_read (flags_ s)) then
    let c := checkParamList param_name (position_control_parameters_to_read_ s)
               (position_controller_parameters_read (flags_ s)) in
    with_flags_ (with_position_controller_parameters_read (snd c) (flags_ s))
      (with_position_control_parameters_to_read_ (fst c) s)
  else s.

Definition check_velocity_control_parameters (param_name : string) (s : Plugin) : Plugin :=
  if negb (velocity_controller_parameters_read (flags_ s)) then
    let c := checkParamList param_name (velocity_control_parameters_to_read_ s)
               (velocity_controller_parameters_read (flags_ s)) in
    with_flags_ (with_velocity_controller_parameters_read (snd c) (flags_ s))
      (with_velocity_control_parameters_to_read_ (fst c) s)
  else s.

Definition check_speed_in_a_plane_control_parameters (param_name : string) (s : Plugin)
  : Plugin :=
  if negb (speed_in_a_plane_controller_parameters_read (flags_ s)) then
    let c := checkParamList param_name (speed_in_a_plane_control_parameters_to_read_ s)
               (speed_in_a_plane_controller_parameters_read (flags_ s)) in
    with_flags_ (with_speed_in_a_plane_controller_parameters_read (snd c) (flags_ s))
      (with_speed_in_a_plane_control_parameters_to_read_ (fst c) s)
  else s.

Definition check_trajectory_control_parameters (param_name : string) (s : Plugin) : Plugin :=
  if negb (trajectory_controller_parameters_read (flags_ s)) then
    let c := checkParamList param_name (trajectory_control_parameters_to_read_ s)
               (trajectory_controller_parameters_read (flags_ s)) in
    with_flags_ (with_trajectory_controller_parameters_read (snd c) (flags_ s))
      (with_trajectory_control_parameters_to_read_ (fst c) s)
  else s.

Definition check_yaw_control_parameters (param_name : string) (s : Plugin) : Plugin :=
  if negb (yaw_controller_parameters_read (flags_ s)) then
    let c := checkParamList param_name (yaw_control_parameters_to_read_ s)
               (yaw_controller_parameters_read (flags_ s)) in
    with_flags_ (with_yaw_controller_parameters_read (snd c) (flags_ s))
      (with_yaw_control_parameters_to_read_ (fst c) s)
  else s.

(** The body of the [for] loop of [parametersCallback] for one parameter:
    the plugin after it, and whether the iteration completed or raised.  A
    typed read that raises does so before anything is assigned. *)
Definition parametersCallback_body (param : rclcpp.Parameter_) (s : Plugin)
  : Plugin * Outcome unit :=
  let param_name := rclcpp.get_name param in
  if param_name =? "proportional_limitation" then
    match rclcpp.get_value_bool param with
    | None => (s, Thrown param_name)
    | Some b =>
        (check_plugin_parameters param_name (with_proportional_limitation_ b s),
         Returned tt)
    end
  else if param_name =? "use_bypass" then
    match rclcpp.get_value_bool param with
    | None => (s, Thrown param_name)
    | Some b => (check_plugin_parameters param_name (with_use_bypass_ b s), Returned tt)
    end
  else
    let controller := controller_of param_name in
    let param_subname := param_subname_of param_name in
    if controller =? "position_control" then
      match updateController3DParameter (pid_3D_position_handler_ s) param_subname param with
      | Thrown e => (s, Thrown e)
      | Returned h =>
          (check_position_control_parameters param_name (with_pid_3D_position_handler_ h s),
           Returned tt)
      end
    else if controller =? "velocity_control" then
      match updateController3DParameter (pid_3D_velocity_handler_ s) param_subname param with
      | Thrown e => (s, Thrown e)
      | Returned h =>
          (check_velocity_control_parameters param_name (with_pid_3D_velocity_handler_ h s),
           Returned tt)
      end
    else if controller =? "speed_in_a_plane_control" then
      match updateSpeedInAPlaneParameter (pid_1D_speed_in_a_plane_handler_ s)
              (pid_3D_speed_in_a_plane_handler_ s) param_subname param with
      | Thrown e => (s, Thrown e)
      | Returned (h1, h3) =>
          (check_speed_in_a_plane_control_parameters param_name
             (with_pid_3D_speed_in_a_plane_handler_ h3
                (with_pid_1D_speed_in_a_plane_handler_ h1 s)),
           Returned tt)
      end
    else if controller =? "trajectory_control" then
      match updateController3DParameter (pid_3D_trajectory_handler_ s) param_subname param with
      | Thrown e => (s, Thrown e)
      | Returned h =>
          (check_trajectory_control_parameters param_name
             (with_pid_3D_trajectory_handler_ h s),
           Returned tt)
      end
    else if controller =? "yaw_control" then
      match updateControllerParameter (pid_yaw_handler_ s) param_subname param with
      | Thrown e => (s, Thrown e)
      | Returned h =>
          (check_yaw_control_parameters param_name (with_pid_yaw_handler_ h s), Returned tt)
      end
    else (s, Returned tt).

(** The [for] loop: an iteration that raises ends the loop and the call. *)
Fixpoint parametersCallback_loop (parameters : list rclcpp.Parameter_) (s : Plugin)
  : Plugin * Outcome unit :=
  match parameters with
  | [] => (s, Returned tt)
  | param :: rest =>
      match parametersCallback_body param s with
      | (s', Returned _) => parametersCallback_loop rest s'
      | (s', Thrown e) => (s', Thrown e)
      end
  end.

(** [Plugin::parametersCallback]. *)
Definition parametersCallback (parameters : list rclcpp.Parameter_) (s : Plugin)
  : Plugin * Outcome rcl_interfaces.SetParametersResult :=
  let result :=
    {| rcl_interfaces.successful := true; rcl_interfaces.reason := "success" |} in
  match parametersCallback_loop parameters s with
  | (s', Returned _) => (s', Returned result)
  | (s', Thrown e) => (s', Thrown e)
  end.

(** [Plugin::updateParams]: [get_parameters] raises on an undeclared name. *)
Definition updateParams (_params_list : list string) (s : Plugin)
  : Plugin * Outcome bool :=
  match get_parameters _params_list with
  | Thrown e => (s, Thrown e)
  | Returned parameters =>
      match parametersCallback parameters s with
      | (s', Returned result) => (s', Returned (rcl_interfaces.successful result))
      | (s', Thrown e) => (s', Thrown e)
      end
  end.

(** ** Reset *)

(** [Plugin::resetState]: [uav_state_ = UAV_state()]. *)
Definition resetState (s : Plugin) : Plugin :=
  with_uav_state_
    {| position := Eigen.Zero; velocity := Eigen.Zero; yaw := Eigen.Zero |} s.

(** [Plugin::resetReferences]: the reference takes the position and the yaw
    the vehicle state holds at the time of the call. *)
Definition resetReferences (s : Plugin) : Plugin :=
  let s := with_control_ref_ (with_position (position (uav_state_ s)) (control_ref_ s)) s in
  let s := with_control_ref_ (with_velocity Eigen.Zero (control_ref_ s)) s in
  with_control_ref_ (with_yaw (yaw (uav_state_ s)) (control_ref_ s)) s.

(** [Plugin::resetCommands]. *)
Definition resetCommands (s : Plugin) : Plugin :=
  let s := with_control_command_
             (with_command_velocity Eigen.Zero (control_command_ s)) s in
  with_control_command_ (with_yaw_speed 0%float (control_command_ s)) s.

(** [Plugin::reset]. *)
Definition reset (s : Plugin) : Plugin :=
  let s := resetReferences s in
  let s := resetState s in
  let s := resetCommands s in
  let s := with_pid_yaw_handler_ (resetController :: pid_yaw_handler_ s) s in
  let s := with_pid_3D_position_handler_
             (resetController3D :: pid_3D_position_handler_ s) s in
  let s := with_pid_3D_velocity_handler_
             (resetController3D :: pid_3D_velocity_handler_ s) s in
  with_pid_3D_trajectory_handler_ (resetController3D :: pid_3D_trajectory_handler_ s) s.

(** [Plugin::ownInitialize], from the members as their default initialisers
    left them. *)
Definition ownInitialize (s : Plugin) : Plugin :=
  let s := with_speed_limits_ Eigen.Zero s in
  let s := with_pid_yaw_handler_ make_PIDController s in
  let s := with_pid_3D_position_handler_ make_PIDController3D s in
  let s := with_pid_3D_velocity_handler_ make_PIDController3D s in
  let s := with_pid_1D_speed_in_a_plane_handler_ make_PIDController s in
  let s := with_pid_3D_speed_in_a_plane_handler_ make_PIDController3D s in
  let s := with_pid_3D_trajectory_handler_ make_PIDController3D s in
  let s :=
    {| control_mode_in_ := control_mode_in_ s; control_mode_out_ := control_mode_out_ s;
       flags_ := flags_ s; pid_yaw_handler_ := pid_yaw_handler_ s;
       pid_3D_position_handler_ := pid_3D_position_handler_ s;
       pid_3D_velocity_handler_ := pid_3D_velocity_handler_ s;
       pid_1D_speed_in_a_plane_handler_ := pid_1D_speed_in_a_plane_handler_ s;
       pid_3D_speed_in_a_plane_handler_ := pid_3D_speed_in_a_plane_handler_ s;
       pid_3D_trajectory_handler_ := pid_3D_trajectory_handler_ s;
       plugin_parameters_to_read_ := plugin_parameters_to_read_ s;
       position_control_parameters_to_read_ := position_control_parameters_to_read_ s;
       velocity_control_parameters_to_read_ := velocity_control_parameters_to_read_ s;
       speed_in_a_plane_control_parameters_to_read_ :=
         speed_in_a_plane_control_parameters_to_read_ s;
       trajectory_control_parameters_to_read_ := trajectory_control_parameters_to_read_ s;
       yaw_control_parameters_to_read_ := yaw_control_parameters_to_read_ s;
       uav_state_ := uav_state_ s; control_ref_ := control_ref_ s;
       control_command_ := control_command_ s; speed_limits_ := speed_limits_ s;
       proportional_limitation_ := proportional_limitation_ s;
       use_bypass_ := use_bypass_ s;
       enu_frame_id_ := generateTfName (enu_frame_id_ s);
       flu_frame_id_ := generateTfName (flu_frame_id_ s);
       input_pose_frame_id_ := generateTfName (input_pose_frame_id_ s);
       input_twist_frame_id_ := generateTfName (input_twist_frame_id_ s);
       output_twist_frame_id_ := generateTfName (output_twist_frame_id_ s) |} in
  reset s.

(** ** State and reference ingestion *)

(** [Plugin::updateState]. *)
Definition updateState (pose_msg : geometry_msgs.PoseStamped)
    (twist_msg : geometry_msgs.TwistStamped) (s : Plugin) : Plugin :=
  let p := geometry_msgs.position pose_msg in
  let l := geometry_msgs.linear twist_msg in
  let s := with_uav_state_
             (with_position (Eigen.Vector3 (Eigen.x p) (Eigen.y p) (Eigen.z p))
                (uav_state_ s)) s in
  let s := with_uav_state_
             (with_velocity (Eigen.Vector3 (Eigen.x l) (Eigen.y l) (Eigen.z l))
                (uav_state_ s)) s in
  let s := with_uav_state_
             (with_yaw
                (Eigen.set_x (getYawFromQuaternion (geometry_msgs.orientation pose_msg))
                   (yaw (uav_state_ s)))
                (uav_state_ s)) s in
  with_flags_ (with_state_received true (flags_ s)) s.

(** [Plugin::updateReference(const PoseStamped &)]. *)
Definition updateReference_pose (pose_msg : geometry_msgs.PoseStamped) (s : Plugin)
  : Plugin :=
  let p := geometry_msgs.position pose_msg in
  let s :=
    if (as2_msgs.control_mode (control_mode_in_ s) =? POSITION)%Z
       || (as2_msgs.control_mode (control_mode_in_ s) =? SPEED_IN_A_PLANE)%Z
    then
      let s := with_control_ref_
                 (with_position (Eigen.Vector3 (Eigen.x p) (Eigen.y p) (Eigen.z p))
                    (control_ref_ s)) s in
      with_flags_ (with_ref_received true (flags_ s)) s
    else s in
  if ((as2_msgs.control_mode (control_mode_in_ s) =? SPEED)%Z
      || (as2_msgs.control_mode (control_mode_in_ s) =? POSITION)%Z
      || (as2_msgs.control_mode (control_mode_in_ s) =? SPEED_IN_A_PLANE)%Z)
     && (as2_msgs.yaw_mode (control_mode_in_ s) =? YAW_ANGLE)%Z
  then
    with_control_ref_
      (with_yaw
         (Eigen.set_x (getYawFromQuaternion (geometry_msgs.orientation pose_msg))
            (yaw (control_ref_ s)))
         (control_ref_ s)) s
  else s.

(** [Plugin::updateReference(const TwistStamped &)]. *)
Definition updateReference_twist (twist_msg : geometry_msgs.TwistStamped) (s : Plugin)
  : Plugin :=
  let l := geometry_msgs.linear twist_msg in
  if (as2_msgs.control_mode (control_mode_in_ s) =? POSITION)%Z then
    let s := with_speed_limits_ (Eigen.Vector3 (Eigen.x l) (Eigen.y l) (Eigen.z l)) s in
    let s := with_pid_3D_position_handler_
               (setOutputSaturation (speed_limits_ s) :: pid_3D_position_handler_ s) s in
    let s := with_pid_3D_velocity_handler_
               (setOutputSaturation (speed_limits_ s) :: pid_3D_velocity_handler_ s) s in
    with_pid_3D_trajectory_handler_
      (setOutputSaturation (speed_limits_ s) :: pid_3D_trajectory_handler_ s) s
  else if negb (as2_msgs.control_mode (control_mode_in_ s) =? SPEED)%Z
          && negb (as2_msgs.control_mode (control_mode_in_ s) =? SPEED_IN_A_PLANE)%Z
  then s
  else
    let s := with_control_ref_
               (with_velocity (Eigen.Vector3 (Eigen.x l) (Eigen.y l) (Eigen.z l))
                  (control_ref_ s)) s in
    let s :=
      if (as2_msgs.yaw_mode (control_mode_in_ s) =? YAW_SPEED)%Z then
        with_control_ref_
          (with_yaw
             (Eigen.set_y (Eigen.z (geometry_msgs.angular twist_msg)) (yaw (control_ref_ s)))
             (control_ref_ s)) s
      else s in
    with_flags_ (with_ref_received true (flags_ s)) s.

(** [Plugin::updateReference(const JointTrajectoryPoint &)].  Indexing a
    vector past its end is undefined behaviour: [None]. *)
Definition updateReference_trajectory (traj_msg : trajectory_msgs.JointTrajectoryPoint)
    (s : Plugin) : option Plugin :=
  if negb (as2_msgs.control_mode (control_mode_in_ s) =? TRAJECTORY)%Z then Some s
  else
    let P := trajectory_msgs.positions traj_msg in
    let V := trajectory_msgs.velocities traj_msg in
    let A := trajectory_msgs.accelerations traj_msg in
    match nth_error P 0, nth_error P 1, nth_error P 2, nth_error P 3,
          nth_error V 0, nth_error V 1, nth_error V 2, nth_error V 3,
          nth_error A 3 with
    | Some p0, Some p1, Some p2, Some p3, Some v0, Some v1, Some v2, Some v3, Some a3 =>
        let s := with_control_ref_
                   (with_position (Eigen.Vector3 p0 p1 p2) (control_ref_ s)) s in
        let s := with_control_ref_
                   (with_velocity (Eigen.Vector3 v0 v1 v2) (control_ref_ s)) s in
        let s := with_control_ref_ (with_yaw (Eigen.Vector3 p3 v3 a3) (control_ref_ s)) s in
        Some (with_flags_ (with_ref_received true (flags_ s)) s)
    | _, _, _, _, _, _, _, _, _ => None
    end.

(** ** Mode and frames *)

(** [Plugin::setMode]: the plugin after the call and the returned flag. *)
Definition setMode (in_mode out_mode : as2_msgs.ControlMode) (s : Plugin)
  : Plugin * bool :=
  let s :=
    if (as2_msgs.control_mode in_mode =? HOVER)%Z then
      with_control_mode_in_
        {| as2_msgs.yaw_mode := YAW_ANGLE;
           as2_msgs.control_mode := as2_msgs.control_mode in_mode;
           as2_msgs.reference_frame := LOCAL_ENU_FRAME |} s
    else
      let s := with_flags_ (with_ref_received false (flags_ s)) s in
      let s := with_flags_ (with_state_received false (flags_ s)) s in
      with_control_mode_in_ in_mode s in
  let s := with_control_mode_out_ out_mode s in
  let s :=
    if (as2_msgs.control_mode (control_mode_in_ s) =? POSITION)%Z
       || (as2_msgs.control_mode (control_mode_in_ s) =? TRAJECTORY)%Z
    then
      let s := with_input_pose_frame_id_ (enu_frame_id_ s) s in
      let s := with_input_pose_frame_id_ (enu_frame_id_ s) s in
      with_output_twist_frame_id_ (enu_frame_id_ s) s
    else if (as2_msgs.control_mode (control_mode_in_ s) =? SPEED)%Z
            || (as2_msgs.control_mode (control_mode_in_ s) =? SPEED_IN_A_PLANE)%Z
    then
      let s := with_input_pose_frame_id_ (enu_frame_id_ s) s in
      if (as2_msgs.reference_frame (control_mode_out_ s) =? BODY_FLU_FRAME)%Z then
        let s := with_input_twist_frame_id_ (flu_frame_id_ s) s in
        with_output_twist_frame_id_ (flu_frame_id_ s) s
      else
        let s := with_input_twist_frame_id_ (enu_frame_id_ s) s in
        with_output_twist_frame_id_ (enu_frame_id_ s) s
    else s in
  (s, true).

(** [Plugin::getDesiredPoseFrameId] and [Plugin::getDesiredTwistFrameId]. *)
Definition getDesiredPoseFrameId (s : Plugin) : string := input_pose_frame_id_ s.

Definition getDesiredTwistFrameId (s : Plugin) : string := input_twist_frame_id_ s.

(** ** The control cycle *)

Definition warn (text : string) : LogRecord := {| severity := WARN; message := text |}.

Definition error (text : string) : LogRecord := {| severity := ERROR; message := text |}.

(** [control_command_.velocity = v] and [control_command_.yaw_speed = w]. *)
Definition set_command_velocity (v : Eigen.Vector3d) (s : Plugin) : Plugin :=
  with_control_command_ (with_command_velocity v (control_command_ s)) s.

Definition set_command_yaw_speed (w : double) (s : Plugin) : Plugin :=
  with_control_command_ (with_yaw_speed w (control_command_ s)) s.

(** The first [switch] of [computeOutput], on [control_mode_in_.control_mode]:
    [(false, _, _)] when a [return false] inside it was taken, [(true, _, _)]
    when control leaves it by [break]; with the plugin and the records
    logged on the way. *)
Definition control_mode_switch (dt : double) (s : Plugin)
  : bool * Plugin * list LogRecord :=
  let mode := as2_msgs.control_mode (control_mode_in_ s) in
  if (mode =? HOVER)%Z then
    if negb (position_controller_parameters_read (flags_ s)) then
      (false, s, [warn "Position controller parameters not read yet"])
    else
      let h := computeControl3D dt (position (uav_state_ s)) (position (control_ref_ s))
               :: pid_3D_position_handler_ s in
      let s := with_pid_3D_position_handler_ h s in
      (true, set_command_velocity (control_effort3D h) s, [])
  else if (mode =? POSITION)%Z then
    if negb (position_controller_parameters_read (flags_ s)) then
      (false, s, [warn "Position controller parameters not read yet"])
    else
      let h := computeControl3D dt (position (uav_state_ s)) (position (control_ref_ s))
               :: pid_3D_position_handler_ s in
      let s := with_pid_3D_position_handler_ h s in
      (true, set_command_velocity (control_effort3D h) s, [])
  else if (mode =? SPEED)%Z then
    if use_bypass_ s then
      (true, set_command_velocity (velocity (control_ref_ s)) s, [])
    else
      let records :=
        if negb (velocity_controller_parameters_read (flags_ s))
        then [warn "Velocity controller parameters not read yet"] else [] in
      let h := computeControl3D dt (velocity (uav_state_ s)) (velocity (control_ref_ s))
               :: pid_3D_velocity_handler_ s in
      let s := with_pid_3D_velocity_handler_ h s in
      (true, set_command_velocity (control_effort3D h) s, records)
  else if (mode =? SPEED_IN_A_PLANE)%Z then
    let '(s, records) :=
      if use_bypass_ s then
        (set_command_velocity (velocity (control_ref_ s)) s, [])
      else
        let records :=
          if negb (velocity_controller_parameters_read (flags_ s))
          then [warn "Velocity controller parameters not read yet"] else [] in
        let h := computeControl3D dt (velocity (uav_state_ s)) (velocity (control_ref_ s))
                 :: pid_3D_speed_in_a_plane_handler_ s in
        let s := with_pid_3D_speed_in_a_plane_handler_ h s in
        (set_command_velocity (control_effort3D h) s, records) in
    let h1 := computeControl dt (Eigen.z (position (uav_state_ s)))
                (Eigen.z (position (control_ref_ s)))
              :: pid_1D_speed_in_a_plane_handler_ s in
    let s := with_pid_1D_speed_in_a_plane_handler_ h1 s in
    (true,
     set_command_velocity
       (Eigen.set_z (control_effort h1) (command_velocity (control_command_ s))) s,
     records)
  else if (mode =? TRAJECTORY)%Z then
    if negb (trajectory_controller_parameters_read (flags_ s)) then
      (false, s, [warn "Trajectory controller parameters not read yet"])
    else
      let h := computeControlTrajectory dt (position (uav_state_ s))
                 (position (control_ref_ s)) (velocity (uav_state_ s))
                 (velocity (control_ref_ s))
               :: pid_3D_trajectory_handler_ s in
      let s := with_pid_3D_trajectory_handler_ h s in
      (true, set_command_velocity (control_effort3D h) s, [])
  else (false, s, [error "Unknown control mode"]).

(** The second [switch], on [control_mode_in_.yaw_mode]. *)
Definition yaw_mode_switch (dt : double) (s : Plugin) : bool * Plugin * list LogRecord :=
  let mode := as2_msgs.yaw_mode (control_mode_in_ s) in
  if (mode =? YAW_ANGLE)%Z then
    if negb (yaw_controller_parameters_read (flags_ s)) then
      (false, s, [warn "Yaw controller parameters not read yet"])
    else
      let yaw_error :=
        angleMinError (Eigen.x (yaw (control_ref_ s))) (Eigen.x (yaw (uav_state_ s))) in
      let h := computeControlError dt yaw_error :: pid_yaw_handler_ s in
      let s := with_pid_yaw_handler_ h s in
      (true, set_command_yaw_speed (control_effort h) s, [])
  else if (mode =? YAW_SPEED)%Z then
    (true, set_command_yaw_speed (Eigen.y (yaw (control_ref_ s))) s, [])
  else (false, s, [error "Unknown yaw mode"]).

(** [Plugin::getOutput]: the message after the call. *)
Definition getOutput (_twist_msg : geometry_msgs.TwistStamped) (s : Plugin)
  : geometry_msgs.TwistStamped * bool :=
  let header := geometry_msgs.twist_header _twist_msg in
  let v := command_velocity (control_command_ s) in
  ({| geometry_msgs.twist_header :=
        {| std_msgs.stamp_sec := std_msgs.stamp_sec header;
           std_msgs.stamp_nanosec := std_msgs.stamp_nanosec header;
           std_msgs.frame_id := output_twist_frame_id_ s |};
      geometry_msgs.linear := Eigen.Vector3 (Eigen.x v) (Eigen.y v) (Eigen.z v);
      geometry_msgs.angular :=
        Eigen.Vector3 0%float 0%float (yaw_speed (control_command_ s)) |},
   true).

(** [Plugin::computeOutput].  Its [pose] and [thrust] arguments are never
    touched and are left out. *)
Definition computeOutput (dt : double) (twist : geometry_msgs.TwistStamped) (s : Plugin)
  : Output :=
  let rejected (s : Plugin) (records : list LogRecord) :=
    {| ok := false; twist := twist; plugin := s; logged := records |} in
  if negb (state_received (flags_ s)) then
    rejected s [warn "State not received yet"]
  else if negb (plugin_parameters_read (flags_ s)) then
    rejected s [warn "Parameters not read yet"]
  else if negb (position_controller_parameters_read (flags_ s)) then
    rejected s [warn "Parameters for hover controller not read yet"]
  else if negb (ref_received (flags_ s)) then
    rejected s [warn "State changed, but ref not recived yet"]
  else
    let s := resetCommands s in
    match control_mode_switch dt s with
    | (false, s, records) => rejected s records
    | (true, s, records) =>
        match yaw_mode_switch dt s with
        | (false, s, records') => rejected s (records ++ records')
        | (true, s, records') =>
            let out := getOutput twist s in
            {| ok := snd out; twist := fst out; plugin := s;
               logged := records ++ records' |}
        end
    end.

End PluginOperations.

(** * Vocabulary of the statements *)

(** The four flags [computeOutput] tests before anything else. *)
Definition readiness_gate (s : Plugin) : bool :=
  state_received (flags_ s) && plugin_parameters_read (flags_ s)
  && position_controller_parameters_read (flags_ s) && ref_received (flags_ s).

(** The case labels of the two [switch] statements of [computeOutput]. *)
Definition known_control_modes {E : Externals} : list Z :=
  [HOVER; POSITION; SPEED; SPEED_IN_A_PLANE; TRAJECTORY].

Definition known_yaw_modes {E : Externals} : list Z := [YAW_ANGLE; YAW_SPEED].

(** [UAV_state()] and the command [resetCommands] leaves. *)
Definition zero_state : UAV_state :=
  {| position := Eigen.Zero; velocity := Eigen.Zero; yaw := Eigen.Zero |}.

Definition zero_command : UAV_command :=
  {| command_velocity := Eigen.Zero; yaw_speed := 0%float |}.

(** ** Parameter groups *)

(** The parameter groups, one per readiness flag set by [parametersCallback]. *)
Inductive Group : Type :=
| PluginGroup
| PositionGroup
| VelocityGroup
| SpeedInAPlaneGroup
| TrajectoryGroup
| YawGroup.

Definition group_flag (g : Group) (s : Plugin) : bool :=
  match g with
  | PluginGroup => plugin_parameters_read (flags_ s)
  | PositionGroup => position_controller_parameters_read (flags_ s)
  | VelocityGroup => velocity_controller_parameters_read (flags_ s)
  | SpeedInAPlaneGroup => speed_in_a_plane_controller_parameters_read (flags_ s)
  | TrajectoryGroup => trajectory_controller_parameters_read (flags_ s)
  | YawGroup => yaw_controller_parameters_read (flags_ s)
  end.

Definition group_to_read (g : Group) (s : Plugin) : list string :=
  match g with
  | PluginGroup => plugin_parameters_to_read_ s
  | PositionGroup => position_control_parameters_to_read_ s
  | VelocityGroup => velocity_control_parameters_to_read_ s
  | SpeedInAPlaneGroup => speed_in_a_plane_control_parameters_to_read_ s
  | TrajectoryGroup => trajectory_control_parameters_to_read_ s
  | YawGroup => yaw_control_parameters_to_read_ s
  end.

Definition Group_eqb (g g' : Group) : bool :=
  match g, g' with
  | PluginGroup, PluginGroup | PositionGroup, PositionGroup
  | VelocityGroup, VelocityGroup | SpeedInAPlaneGroup, SpeedInAPlaneGroup
  | TrajectoryGroup, TrajectoryGroup | YawGroup, YawGroup => true
  | _, _ => false
  end.

(** The branch of [parametersCallback] a parameter name takes: the group
    whose regulator and checklist it reaches, or none. *)
Definition group_of (param_name : string) : option Group :=
  if param_name =? "proportional_limitation" then Some PluginGroup
  else if param_name =? "use_bypass" then Some PluginGroup
  else if controller_of param_name =? "position_control" then Some PositionGroup
  else if controller_of param_name =? "velocity_control" then Some VelocityGroup
  else if controller_of param_name =? "speed_in_a_plane_control" then Some SpeedInAPlaneGroup
  else if controller_of param_name =? "trajectory_control" then Some TrajectoryGroup
  else if controller_of param_name =? "yaw_control" then Some YawGroup
  else None.

(** ** Value types read by the callback *)

Inductive ValueType : Type := BoolType | DoubleType.

Definition has_type (t : option ValueType) (p : rclcpp.Parameter_) : bool :=
  match t, rclcpp.get_parameter_value p with
  | None, _ => true
  | Some BoolType, rclcpp.BoolValue _ => true
  | Some DoubleType, rclcpp.DoubleValue _ => true
  | Some _, _ => false
  end.

(** The type each leaf name is read at; [None] for a leaf no setter reads. *)
Definition leaf_type (leaf : string) : option ValueType :=
  if leaf =? "reset_integral" then Some BoolType
  else if (leaf =? "antiwindup_cte") || (leaf =? "alpha")
          || (leaf =? "kp") || (leaf =? "ki") || (leaf =? "kd")
  then Some DoubleType
  else None.

Definition leaf_type3D (leaf : string) : option ValueType :=
  if leaf =? "reset_integral" then Some BoolType
  else if (leaf =? "antiwindup_cte") || (leaf =? "alpha")
          || (leaf =? "kp.x") || (leaf =? "kp.y") || (leaf =? "kp.z")
          || (leaf =? "ki.x") || (leaf =? "ki.y") || (leaf =? "ki.z")
          || (leaf =? "kd.x") || (leaf =? "kd.y") || (leaf =? "kd.z")
  then Some DoubleType
  else None.

Definition leaf_type_speed_in_a_plane (leaf : string) : option ValueType :=
  if leaf =? "reset_integral" then Some BoolType
  else if (leaf =? "antiwindup_cte") || (leaf =? "alpha")
          || (leaf =? "height.kp") || (leaf =? "height.ki") || (leaf =? "height.kd")
          || (leaf =? "speed.kp.x") || (leaf =? "speed.kp.y")
          || (leaf =? "speed.ki.x") || (leaf =? "speed.ki.y")
          || (leaf =? "speed.kd.x") || (leaf =? "speed.kd.y")
  then Some DoubleType
  else None.

(** The type a parameter is read at, by its full name. *)
Definition expected_type (param_name : string) : option ValueType :=
  match group_of param_name with
  | None => None
  | Some PluginGroup => Some BoolType
  | Some YawGroup => leaf_type (param_subname_of param_name)
  | Some SpeedInAPlaneGroup => leaf_type_speed_in_a_plane (param_subname_of param_name)
  | Some _ => leaf_type3D (param_subname_of param_name)
  end.

(** A parameter the callback can process: every typed read made for its
    name finds a value of that type. *)
Definition readable (p : rclcpp.Parameter_) : bool :=
  has_type (expected_type (rclcpp.get_name p)) p.

(** The parameters of one call the loop goes through before it ends: all of
    them, or those before the first that is not readable. *)
Fixpoint processed (parameters : list rclcpp.Parameter_) : list rclcpp.Parameter_ :=
  match parameters with
  | [] => []
  | p :: rest => if readable p then p :: processed rest else []
  end.

(** Successive calls of [parametersCallback], whatever each one returns. *)
Definition parametersCallback_calls (calls : list (list rclcpp.Parameter_)) (s : Plugin)
  : Plugin :=
  fold_left (fun s parameters => fst (parametersCallback parameters s)) calls s.

(** The names a sequence of calls has gone through, and those among them
    that took the branch of group [g]. *)
Definition observed (calls : list (list rclcpp.Parameter_)) : list string :=
  flat_map (fun parameters => map rclcpp.get_name (processed parameters)) calls.

Definition reaches (g : Group) (param_name : string) : bool :=
  match group_of param_name with
  | Some g' => Group_eqb g g'
  | None => false
  end.

Definition observed_by (g : Group) (calls : list (list rclcpp.Parameter_)) : list string :=
  filter (reaches g) (observed calls).

(** The checklist of a group and its flag, and one guarded call of
    [checkParamList] on them. *)
Definition tracker (g : Group) (s : Plugin) : list string * bool :=
  (group_to_read g s, group_flag g s).

Definition tracker_step (param_name : string) (st : list string * bool)
  : list string * bool :=
  if negb (snd st) then checkParamList param_name (fst st) (snd st) else st.

(** A setter call returns when the value has the type read for the leaf,
    and raises with the name of the parameter when it has not. *)
Definition setter_outcome {A : Type} (t : option ValueType) (p : rclcpp.Parameter_)
    (o : Outcome A) : Prop :=
  match o with
  | Returned _ => has_type t p = true
  | Thrown e => e = rclcpp.get_name p /\ has_type t p = false
  end.

(** The result [parametersCallback] returns when it returns. *)
Definition success : rcl_interfaces.SetParametersResult :=
  {| rcl_interfaces.successful := true; rcl_interfaces.reason := "success" |}.

(** The guarded call of [checkParamList] that ends the branch of group
    [g]. *)
Definition check_group (g : Group) (param_name : string) (s : Plugin)
  : Plugin :=
  match g with
  | PluginGroup => check_plugin_parameters param_name s
  | PositionGroup => check_position_control_parameters param_name s
  | VelocityGroup => check_velocity_control_parameters param_name s
  | SpeedInAPlaneGroup => check_speed_in_a_plane_control_parameters param_name s
  | TrajectoryGroup => check_trajectory_control_parameters param_name s
  | YawGroup => check_yaw_control_parameters param_name s
  end.

(** The case labels of each [switch] are pairwise distinct: the compiler
    refuses a [switch] with two equal labels. *)
Definition case_labels_distinct {E : Externals} : Prop :=
  NoDup known_control_modes /\ NoDup known_yaw_modes.

(** What a control cycle only reads: every member but the command and the
    six regulator handles. *)
Definition cycle_inputs_kept (s s' : Plugin) : Prop :=
  control_mode_in_ s' = control_mode_in_ s
  /\ control_mode_out_ s' = control_mode_out_ s
  /\ flags_ s' = flags_ s
  /\ uav_state_ s' = uav_state_ s
  /\ control_ref_ s' = control_ref_ s
  /\ speed_limits_ s' = speed_limits_ s
  /\ proportional_limitation_ s' = proportional_limitation_ s
  /\ use_bypass_ s' = use_bypass_ s
  /\ (forall g : Group, group_to_read g s' = group_to_read g s)
  /\ enu_frame_id_ s' = enu_frame_id_ s
  /\ flu_frame_id_ s' = flu_frame_id_ s
  /\ input_pose_frame_id_ s' = input_pose_frame_id_ s
  /\ input_twist_frame_id_ s' = input_twist_frame_id_ s
  /\ output_twist_frame_id_ s' = output_twist_frame_id_ s.

(** What the parameters of group [g] configure: its 1-D regulator, its
    3-D regulator and the two switches of the plugin group (an empty
    history or [false] where the group has none). *)
Definition group_config (g : Group) (s : Plugin)
  : pid_controller.PIDController * pid_controller.PIDController3D * (bool * bool) :=
  match g with
  | PluginGroup => ([], [], (proportional_limitation_ s, use_bypass_ s))
  | PositionGroup => ([], pid_3D_position_handler_ s, (false, false))
  | VelocityGroup => ([], pid_3D_velocity_handler_ s, (false, false))
  | SpeedInAPlaneGroup =>
      (pid_1D_speed_in_a_plane_handler_ s, pid_3D_speed_in_a_plane_handler_ s,
       (false, false))
  | TrajectoryGroup => ([], pid_3D_trajectory_handler_ s, (false, false))
  | YawGroup => (pid_yaw_handler_ s, [], (false, false))
  end.

(** What a parameter update leaves alone: the modes, the two received
    flags, the vehicle state, the reference, the command, the speed limits
    and the frames. *)
Definition operation_kept (s s' : Plugin) : Prop :=
  control_mode_in_ s' = control_mode_in_ s
  /\ control_mode_out_ s' = control_mode_out_ s
  /\ state_received (flags_ s') = state_received (flags_ s)
  /\ ref_received (flags_ s') = ref_received (flags_ s)
  /\ uav_state_ s' = uav_state_ s
  /\ control_ref_ s' = control_ref_ s
  /\ control_command_ s' = control_command_ s
  /\ speed_limits_ s' = speed_limits_ s
  /\ enu_frame_id_ s' = enu_frame_id_ s
  /\ flu_frame_id_ s' = flu_frame_id_ s
  /\ input_pose_frame_id_ s' = input_pose_frame_id_ s
  /\ input_twist_frame_id_ s' = input_twist_frame_id_ s
  /\ output_twist_frame_id_ s' = output_twist_frame_id_ s.

(** * A concrete plugin *)

(** One setting of the collaborators, for the closed examples: distinct
    message constants, no name space in front of the frame names, a node
    that holds no parameter, and regulators whose gains are all zero, so
    that every control effort is zero. *)
Definition zero_gain_externals : Externals :=
  {| HOVER := 1; POSITION := 2; SPEED := 3; SPEED_IN_A_PLANE := 4; TRAJECTORY := 7;
     YAW_ANGLE := 1; YAW_SPEED := 2;
     LOCAL_ENU_FRAME := 1; BODY_FLU_FRAME := 2;
     getYawFromQuaternion := fun _ => 0%float;
     angleMinError := fun reference state => PrimFloat.sub reference state;
     generateTfName := fun name => name;
     get_parameters := fun names =>
       match names with [] => Returned [] | name :: _ => Thrown name end;
     control_effort := fun _ => 0%float;
     control_effort3D := fun _ => Eigen.Zero |}.

(** The name lists of the header.  Nothing under src/ reads them: no
    checklist is ever filled from them. *)
Definition plugin_parameters_list_ : list string := ["proportional_limitation"].

Definition position_control_parameters_list_ : list string :=
  ["position_control.reset_integral"; "position_control.antiwindup_cte";
   "position_control.alpha"; "position_control.kp.x";
   "position_control.kp.y"; "position_control.kp.z";
   "position_control.ki.x"; "position_control.ki.y";
   "position_control.ki.z"; "position_control.kd.x";
   "position_control.kd.y"; "position_control.kd.z"].

Definition velocity_control_parameters_list_ : list string :=
  ["speed_control.reset_integral"; "speed_control.antiwindup_cte"; "speed_control.alpha";
   "speed_control.kp.x"; "speed_control.kp.y"; "speed_control.kp.z";
   "speed_control.ki.x"; "speed_control.ki.y"; "speed_control.ki.z";
   "speed_control.kd.x"; "speed_control.kd.y"; "speed_control.kd.z"].

Definition trajectory_control_parameters_list_ : list string :=
  ["trajectory_control.reset_integral"; "trajectory_control.antiwindup_cte";
   "trajectory_control.alpha"; "trajectory_control.kp.x";
   "trajectory_control.kp.y"; "trajectory_control.kp.z";
   "trajectory_control.ki.x"; "trajectory_control.ki.y";
   "trajectory_control.ki.z"; "trajectory_control.kd.x";
   "trajectory_control.kd.y"; "trajectory_control.kd.z"].

Definition yaw_control_parameters_list_ : list string :=
  ["yaw_control.reset_integral"; "yaw_control.antiwindup_cte"; "yaw_control.alpha";
   "yaw_control.kp"; "yaw_control.ki"; "yaw_control.kd"].

Definition no_flag : Control_flags :=
  {| state_received := false; ref_received := false;
     plugin_parameters_read := false;
     position_controller_parameters_read := false;
     velocity_controller_parameters_read := false;
     speed_in_a_plane_controller_parameters_read := false;
     trajectory_controller_parameters_read := false;
     yaw_controller_parameters_read := false |}.

Definition unset_mode : as2_msgs.ControlMode :=
  {| as2_msgs.yaw_mode := 0; as2_msgs.control_mode := 0; as2_msgs.reference_frame := 0 |}.

(** A plugin as the constructor [Plugin(){}] leaves it.  The header gives
    [flags_] and [speed_limits_] no initialiser: what they hold is not
    determined by the code and is an argument here.  Every [*_to_read_]
    checklist is default-constructed, that is empty; the regulator handles
    hold no regulator until [ownInitialize] makes them (here a regulator
    that was never called); [enu_frame_id_] and [flu_frame_id_] have the
    defaults of the header.  The members the header does not declare
    ([use_bypass_] and the three input and output frame names) take the
    defaults of their neighbours. *)
Definition constructed (flags : Control_flags) (speed_limits : Eigen.Vector3d) : Plugin :=
  {| control_mode_in_ := unset_mode; control_mode_out_ := unset_mode;
     flags_ := flags;
     pid_yaw_handler_ := make_PIDController;
     pid_3D_position_handler_ := make_PIDController3D;
     pid_3D_velocity_handler_ := make_PIDController3D;
     pid_1D_speed_in_a_plane_handler_ := make_PIDController;
     pid_3D_speed_in_a_plane_handler_ := make_PIDController3D;
     pid_3D_trajectory_handler_ := make_PIDController3D;
     plugin_parameters_to_read_ := [];
     position_control_parameters_to_read_ := [];
     velocity_control_parameters_to_read_ := [];
     speed_in_a_plane_control_parameters_to_read_ := [];
     trajectory_control_parameters_to_read_ := [];
     yaw_control_parameters_to_read_ := [];
     uav_state_ := zero_state; control_ref_ := zero_state;
     control_command_ := zero_command; speed_limits_ := speed_limits;
     proportional_limitation_ := false; use_bypass_ := false;
     enu_frame_id_ := "odom"; flu_frame_id_ := "base_link";
     input_pose_frame_id_ := "odom"; input_twist_frame_id_ := "odom";
     output_twist_frame_id_ := "odom" |}.

(** [ownInitialize] on a plugin whose flags all happened to be false. *)
Definition initialized : Plugin :=
  ownInitialize (E := zero_gain_externals) (constructed no_flag Eigen.Zero).

(** Parameters with a value of the type their name is read at. *)
Definition bool_parameter (name : string) (b : bool) : rclcpp.Parameter_ :=
  {| rclcpp.get_name := name; rclcpp.get_parameter_value := rclcpp.BoolValue b |}.

Definition double_parameter (name : string) (d : double) : rclcpp.Parameter_ :=
  {| rclcpp.get_name := name; rclcpp.get_parameter_value := rclcpp.DoubleValue d |}.

Definition integer_parameter (name : string) (i : Z) : rclcpp.Parameter_ :=
  {| rclcpp.get_name := name; rclcpp.get_parameter_value := rclcpp.IntegerValue i |}.

Definition typed_parameter (name : string) : rclcpp.Parameter_ :=
  match expected_type name with
  | Some BoolType => bool_parameter name false
  | _ => double_parameter name 1%float
  end.

(** The plugin and position parameters, the latter in reverse order. *)
Definition gate_parameters : list rclcpp.Parameter_ :=
  bool_parameter "proportional_limitation" true
  :: bool_parameter "use_bypass" false
  :: map typed_parameter (rev position_control_parameters_list_).

Definition no_header : std_msgs.Header :=
  {| std_msgs.stamp_sec := 0; std_msgs.stamp_nanosec := 0;
     std_msgs.frame_id := EmptyString |}.

Definition pose_at (p : Eigen.Vector3d) : geometry_msgs.PoseStamped :=
  {| geometry_msgs.pose_header := no_header;
     geometry_msgs.position := p;
     geometry_msgs.orientation :=
       {| geometry_msgs.qx := 0; geometry_msgs.qy := 0;
          geometry_msgs.qz := 0; geometry_msgs.qw := 1 |} |}.

Definition twist_of (v : Eigen.Vector3d) (yaw_rate : double) : geometry_msgs.TwistStamped :=
  {| geometry_msgs.twist_header := no_header;
     geometry_msgs.linear := v;
     geometry_msgs.angular := Eigen.Vector3 0 0 yaw_rate |}.

Definition mode (control yaw frame : Z) : as2_msgs.ControlMode :=
  {| as2_msgs.yaw_mode := yaw; as2_msgs.control_mode := control;
     as2_msgs.reference_frame := frame |}.

Section Scenarios.

Let E : Externals := zero_gain_externals.
Existing Instance E.

(** Parameters delivered to a plugin after [ownInitialize]. *)
Definition configured : Plugin := fst (parametersCallback gate_parameters initialized).

(** SPEED mode with yaw by rate, a vehicle at rest and the reference
    velocity (1, 0, 0): the velocity parameters were never delivered. *)
Definition speed_ready : Plugin :=
  let s := fst (setMode (mode SPEED YAW_SPEED LOCAL_ENU_FRAME)
                  (mode SPEED YAW_SPEED LOCAL_ENU_FRAME) configured) in
  let s := updateState (pose_at Eigen.Zero) (twist_of Eigen.Zero 0) s in
  updateReference_twist (twist_of (Eigen.Vector3 1 0 0) 0.5) s.

(** The same with the bypass on, after one accepted cycle, then switched to
    SPEED with a yaw mode that is no case label (0), with fresh state and a
    new reference (2, 0, 0). *)
Definition speed_unknown_yaw : Plugin :=
  let s := fst (parametersCallback [bool_parameter "use_bypass" true] speed_ready) in
  let s := plugin (computeOutput 0.125 (twist_of Eigen.Zero 0) s) in
  let s := fst (setMode (mode SPEED 0 LOCAL_ENU_FRAME) (mode SPEED 0 LOCAL_ENU_FRAME) s) in
  let s := updateState (pose_at Eigen.Zero) (twist_of Eigen.Zero 0) s in
  updateReference_twist (twist_of (Eigen.Vector3 2 0 0) 0) s.

(** A vehicle last seen at (1, 2, 3) in POSITION mode. *)
Definition position_seen : Plugin :=
  let s := fst (setMode (mode POSITION YAW_ANGLE LOCAL_ENU_FRAME)
                  (mode POSITION YAW_ANGLE LOCAL_ENU_FRAME) configured) in
  updateState (pose_at (Eigen.Vector3 1 2 3)) (twist_of Eigen.Zero 0) s.

(** SPEED mode asked for in the body frame, then POSITION. *)
Definition body_then_position : Plugin :=
  let s := fst (setMode (mode SPEED YAW_SPEED BODY_FLU_FRAME)
                  (mode SPEED YAW_SPEED BODY_FLU_FRAME) configured) in
  fst (setMode (mode POSITION YAW_ANGLE LOCAL_ENU_FRAME)
         (mode POSITION YAW_ANGLE LOCAL_ENU_FRAME) s).

(** TRAJECTORY mode with state and a four-component trajectory point
    received; the trajectory parameters were never delivered. *)
Definition trajectory_ready : Plugin :=
  let s := fst (setMode (mode TRAJECTORY YAW_SPEED LOCAL_ENU_FRAME)
                  (mode TRAJECTORY YAW_SPEED LOCAL_ENU_FRAME) configured) in
  let s := updateState (pose_at Eigen.Zero) (twist_of Eigen.Zero 0) s in
  match updateReference_trajectory
          {| trajectory_msgs.positions := [1; 2; 3; 0.5]%float;
             trajectory_msgs.velocities := [0; 0; 0; 0]%float;
             trajectory_msgs.accelerations := [0; 0; 0; 0]%float |} s with
  | Some s' => s'
  | None => s
  end.

(** POSITION mode with yaw by angle, state and a pose reference received;
    the yaw parameters were never delivered.  Then HOVER. *)
Definition position_ready : Plugin :=
  let s := fst (setMode (mode POSITION YAW_ANGLE LOCAL_ENU_FRAME)
                  (mode POSITION YAW_ANGLE LOCAL_ENU_FRAME) configured) in
  let s := updateState (pose_at Eigen.Zero) (twist_of Eigen.Zero 0) s in
  updateReference_pose (pose_at (Eigen.Vector3 1 2 3)) s.

Definition hover_ready : Plugin :=
  fst (setMode (mode HOVER YAW_SPEED BODY_FLU_FRAME)
         (mode HOVER YAW_SPEED BODY_FLU_FRAME) position_ready).

(** [speed_ready] with the bypass switched on. *)
Definition speed_bypass : Plugin :=
  fst (parametersCallback [bool_parameter "use_bypass" true] speed_ready).

(** SPEED_IN_A_PLANE mode with state, a pose reference at height 3 and a
    twist reference received. *)
Definition plane_ready : Plugin :=
  let s := fst (setMode (mode SPEED_IN_A_PLANE YAW_SPEED LOCAL_ENU_FRAME)
                  (mode SPEED_IN_A_PLANE YAW_SPEED LOCAL_ENU_FRAME) configured) in
  let s := updateState (pose_at (Eigen.Vector3 0 0 1)) (twist_of Eigen.Zero 0) s in
  let s := updateReference_pose (pose_at (Eigen.Vector3 0 0 3)) s in
  updateReference_twist (twist_of (Eigen.Vector3 1 1 0) 0.5) s.

End Scenarios.

(** * Proof support *)

(** Evaluation of member reads over member assignments: [members] unfolds
    the assignments, the member projections and the reset functions, and
    nothing else. *)
Ltac members :=
  cbn
    [with_position with_velocity with_yaw with_command_velocity with_yaw_speed
     with_state_received with_ref_received with_plugin_parameters_read
     with_position_controller_parameters_read with_velocity_controller_parameters_read
     with_speed_in_a_plane_controller_parameters_read
     with_trajectory_controller_parameters_read with_yaw_controller_parameters_read
     with_control_mode_in_ with_control_mode_out_ with_flags_ with_pid_yaw_handler_
     with_pid_3D_position_handler_ with_pid_3D_velocity_handler_
     with_pid_1D_speed_in_a_plane_handler_ with_pid_3D_speed_in_a_plane_handler_
     with_pid_3D_trajectory_handler_ with_plugin_parameters_to_read_
     with_position_control_parameters_to_read_ with_velocity_control_parameters_to_read_
     with_speed_in_a_plane_control_parameters_to_read_
     with_trajectory_control_parameters_to_read_ with_yaw_control_parameters_to_read_
     with_uav_state_ with_control_ref_ with_control_command_ with_speed_limits_
     with_proportional_limitation_ with_use_bypass_ with_input_pose_frame_id_
     with_input_twist_frame_id_ with_output_twist_frame_id_ position velocity yaw
     command_velocity yaw_speed state_received ref_received plugin_parameters_read
     position_controller_parameters_read velocity_controller_parameters_read
     speed_in_a_plane_controller_parameters_read trajectory_controller_parameters_read
     yaw_controller_parameters_read control_mode_in_ control_mode_out_ flags_
     pid_yaw_handler_ pid_3D_position_handler_ pid_3D_velocity_handler_
     pid_1D_speed_in_a_plane_handler_ pid_3D_speed_in_a_plane_handler_
     pid_3D_trajectory_handler_ plugin_parameters_to_read_
     position_control_parameters_to_read_ velocity_control_parameters_to_read_
     speed_in_a_plane_control_parameters_to_read_ trajectory_control_parameters_to_read_
     yaw_control_parameters_to_read_ uav_state_ control_ref_ control_command_ speed_limits_
     proportional_limitation_ use_bypass_ enu_frame_id_ flu_frame_id_ input_pose_frame_id_
     input_twist_frame_id_ output_twist_frame_id_ fst snd Eigen.x Eigen.y Eigen.z
     Eigen.set_x Eigen.set_y Eigen.set_z Eigen.Zero resetState resetReferences
     resetCommands reset set_command_velocity set_command_yaw_speed zero_state zero_command
     getDesiredPoseFrameId getDesiredTwistFrameId].

(** * The control cycle: readiness gate and unknown modes *)

Section ControlCycle.

Context {E : Externals}.

Lemma readiness_gate_false (s : Plugin) :
  readiness_gate s = false <->
  state_received (flags_ s) = false \/ plugin_parameters_read (flags_ s) = false
  \/ position_controller_parameters_read (flags_ s) = false
  \/ ref_received (flags_ s) = false.
Proof.
  unfold readiness_gate.
  destruct (state_received (flags_ s)), (plugin_parameters_read (flags_ s)),
    (position_controller_parameters_read (flags_ s)), (ref_received (flags_ s));
    cbn; intuition congruence.
Qed.

(** A cycle the gate refuses is the identity on the plugin and on the
    message. *)
Lemma computeOutput_gate_closed (dt : double) (tw : geometry_msgs.TwistStamped)
    (s : Plugin) :
  readiness_gate s = false ->
  ok (computeOutput dt tw s) = false
  /\ plugin (computeOutput dt tw s) = s
  /\ twist (computeOutput dt tw s) = tw.
Proof.
  unfold readiness_gate, computeOutput.
  destruct (state_received (flags_ s)), (plugin_parameters_read (flags_ s)),
    (position_controller_parameters_read (flags_ s)), (ref_received (flags_ s));
    cbn; intros H; try discriminate H; repeat split.
Qed.

(** C1. When one of [state_received], [plugin_parameters_read],
    [position_controller_parameters_read], [ref_received] is false,
    [computeOutput] returns false, the plugin is exactly as before the call,
    and so is each of the six regulator handles: no call was made on any of
    them, neither [computeControl] nor any other. *)
Theorem computeOutput_not_ready_rejects (dt : double) (tw : geometry_msgs.TwistStamped)
    (s : Plugin) :
  state_received (flags_ s) = false \/ plugin_parameters_read (flags_ s) = false
  \/ position_controller_parameters_read (flags_ s) = false
  \/ ref_received (flags_ s) = false ->
  let out := computeOutput dt tw s in
  ok out = false
  /\ plugin out = s
  /\ pid_yaw_handler_ (plugin out) = pid_yaw_handler_ s
  /\ pid_3D_position_handler_ (plugin out) = pid_3D_position_handler_ s
  /\ pid_3D_velocity_handler_ (plugin out) = pid_3D_velocity_handler_ s
  /\ pid_1D_speed_in_a_plane_handler_ (plugin out) = pid_1D_speed_in_a_plane_handler_ s
  /\ pid_3D_speed_in_a_plane_handler_ (plugin out) = pid_3D_speed_in_a_plane_handler_ s
  /\ pid_3D_trajectory_handler_ (plugin out) = pid_3D_trajectory_handler_ s.
Proof.
  intros H out.
  apply readiness_gate_false in H.
  destruct (computeOutput_gate_closed dt tw s H) as (Hok & Hs & _).
  subst out. rewrite Hs. repeat split; assumption || reflexivity.
Qed.

End ControlCycle.

(** The gate at work: a configured plugin that has received no state. *)
Lemma computeOutput_not_ready_rejects_witness :
  let out := computeOutput (E := zero_gain_externals) 0.125 (twist_of Eigen.Zero 0)
               configured in
  state_received (flags_ configured) = false
  /\ ok out = false
  /\ plugin out = configured
  /\ pid_yaw_handler_ (plugin out) = pid_yaw_handler_ configured
  /\ pid_3D_position_handler_ (plugin out) = pid_3D_position_handler_ configured
  /\ pid_3D_velocity_handler_ (plugin out) = pid_3D_velocity_handler_ configured
  /\ pid_1D_speed_in_a_plane_handler_ (plugin out)
     = pid_1D_speed_in_a_plane_handler_ configured
  /\ pid_3D_speed_in_a_plane_handler_ (plugin out)
     = pid_3D_speed_in_a_plane_handler_ configured
  /\ pid_3D_trajectory_handler_ (plugin out) = pid_3D_trajectory_handler_ configured.
Proof.
  split; [reflexivity |].
  apply (computeOutput_not_ready_rejects (E := zero_gain_externals) 0.125
           (twist_of Eigen.Zero 0) configured).
  left. reflexivity.
Defined.

Section UnknownModes.

Context {E : Externals}.

(** Past the gate, [computeOutput] is the two switches after [resetCommands]. *)
Lemma computeOutput_gate_open (dt : double) (tw : geometry_msgs.TwistStamped)
    (s : Plugin) :
  readiness_gate s = true ->
  computeOutput dt tw s =
  match control_mode_switch dt (resetCommands s) with
  | (false, s1, records) =>
      {| ok := false; twist := tw; plugin := s1; logged := records |}
  | (true, s1, records) =>
      match yaw_mode_switch dt s1 with
      | (false, s2, records') =>
          {| ok := false; twist := tw; plugin := s2; logged := records ++ records' |}
      | (true, s2, records') =>
          {| ok := snd (getOutput tw s2); twist := fst (getOutput tw s2); plugin := s2;
             logged := records ++ records' |}
      end
  end.
Proof.
  unfold readiness_gate, computeOutput.
  destruct (state_received (flags_ s)), (plugin_parameters_read (flags_ s)),
    (position_controller_parameters_read (flags_ s)), (ref_received (flags_ s));
    cbn [andb negb]; intros H; try discriminate H; reflexivity.
Qed.

Lemma not_in_cons_eqb (a b : Z) (l : list Z) :
  ~ In a (b :: l) -> (a =? b)%Z = false /\ ~ In a l.
Proof.
  intros H. split.
  - apply Z.eqb_neq. intros ->. apply H. left. reflexivity.
  - intros Hl. apply H. right. exact Hl.
Qed.

(** A control mode that is no case label takes the [default] of the first
    switch: nothing is computed. *)
Lemma control_mode_switch_unknown (dt : double) (s : Plugin) :
  ~ In (as2_msgs.control_mode (control_mode_in_ s)) known_control_modes ->
  control_mode_switch dt s = (false, s, [error "Unknown control mode"]).
Proof.
  unfold known_control_modes, control_mode_switch. intros H.
  repeat (apply not_in_cons_eqb in H; destruct H as [-> H]).
  reflexivity.
Qed.

Lemma yaw_mode_switch_unknown (dt : double) (s : Plugin) :
  ~ In (as2_msgs.yaw_mode (control_mode_in_ s)) known_yaw_modes ->
  yaw_mode_switch dt s = (false, s, [error "Unknown yaw mode"]).
Proof.
  unfold known_yaw_modes, yaw_mode_switch. intros H.
  repeat (apply not_in_cons_eqb in H; destruct H as [-> H]).
  reflexivity.
Qed.

(** The first switch writes neither the modes, nor the flags, nor the yaw
    rate of the command. *)
Lemma control_mode_switch_frame (dt : double) (s : Plugin) :
  let s1 := snd (fst (control_mode_switch dt s)) in
  control_mode_in_ s1 = control_mode_in_ s
  /\ flags_ s1 = flags_ s
  /\ yaw_speed (control_command_ s1) = yaw_speed (control_command_ s).
Proof.
  unfold control_mode_switch.
  repeat match goal with
         | |- context [if ?b then _ else _] => destruct b
         end; cbn; repeat split.
Qed.

(** A [return false] inside the second switch leaves the plugin as the
    switch found it. *)
Lemma yaw_mode_switch_rejects (dt : double) (s : Plugin) :
  fst (fst (yaw_mode_switch dt s)) = false -> snd (fst (yaw_mode_switch dt s)) = s.
Proof.
  unfold yaw_mode_switch.
  repeat match goal with
         | |- context [if ?b then _ else _] => destruct b
         end; cbn; intros H; try discriminate H; reflexivity.
Qed.

(** C2, as the code has it.  With a control mode or a yaw mode that is no
    case label, [computeOutput] returns false and never writes the [twist]
    argument.  The command is as before when the readiness gate refuses the
    cycle.  Past the gate the command has been reset first: its yaw rate is
    zero after the call, and with an unknown control mode the plugin is
    exactly what [resetCommands] leaves, zero velocity and no regulator
    called. *)
Theorem computeOutput_unknown_mode_rejects (dt : double)
    (tw : geometry_msgs.TwistStamped) (s : Plugin) :
  ~ In (as2_msgs.control_mode (control_mode_in_ s)) known_control_modes
  \/ ~ In (as2_msgs.yaw_mode (control_mode_in_ s)) known_yaw_modes ->
  let out := computeOutput dt tw s in
  ok out = false
  /\ twist out = tw
  /\ (readiness_gate s = false -> control_command_ (plugin out) = control_command_ s)
  /\ (readiness_gate s = true ->
      yaw_speed (control_command_ (plugin out)) = 0%float
      /\ (~ In (as2_msgs.control_mode (control_mode_in_ s)) known_control_modes ->
          plugin out = resetCommands s
          /\ control_command_ (plugin out) = zero_command)).
Proof.
  intros Hmode out. subst out.
  destruct (readiness_gate s) eqn:Hgate.
  - rewrite (computeOutput_gate_open dt tw s Hgate).
    pose proof (control_mode_switch_unknown dt (resetCommands s)) as Hunknown.
    pose proof (control_mode_switch_frame dt (resetCommands s)) as (Hm & _ & Hy).
    destruct (control_mode_switch dt (resetCommands s)) as [[b s1] records] eqn:Hcms.
    cbn [fst snd] in Hm, Hy.
    change (control_mode_in_ (resetCommands s)) with (control_mode_in_ s) in *.
    change (yaw_speed (control_command_ (resetCommands s))) with 0%float in Hy.
    destruct b.
    + (* the first switch was left by break: the control mode is a case label *)
      assert (Hyaw : ~ In (as2_msgs.yaw_mode (control_mode_in_ s1)) known_yaw_modes).
      { rewrite Hm. destruct Hmode as [Hc | Hy']; [| exact Hy'].
        specialize (Hunknown Hc). discriminate Hunknown. }
      rewrite (yaw_mode_switch_unknown dt s1 Hyaw). cbn [ok twist plugin].
      split; [reflexivity |]. split; [reflexivity |].
      split; [intros Hfalse; discriminate Hfalse |].
      intros _. split; [exact Hy |].
      intros Hc. specialize (Hunknown Hc). discriminate Hunknown.
    + cbn [ok twist plugin].
      split; [reflexivity |]. split; [reflexivity |].
      split; [intros Hfalse; discriminate Hfalse |].
      intros _. split; [exact Hy |].
      intros Hc. specialize (Hunknown Hc).
      injection Hunknown as -> _. split; reflexivity.
  - destruct (computeOutput_gate_closed dt tw s Hgate) as (Hok & Hs & Htw).
    split; [exact Hok |]. split; [exact Htw |].
    split; [intros _; rewrite Hs; reflexivity |].
    intros Htrue. discriminate Htrue.
Qed.

End UnknownModes.

(** The yaw mode of [speed_unknown_yaw] is no case label. *)
Lemma zero_not_a_yaw_mode :
  ~ In (as2_msgs.yaw_mode (control_mode_in_ speed_unknown_yaw))
      (known_yaw_modes (E := zero_gain_externals)).
Proof. vm_compute. intros [H | [H | []]]; discriminate H. Qed.

(** C2, the claim as stated fails: a SPEED cycle with the bypass on and a
    yaw mode that is no case label returns false, yet the command went from
    velocity (1, 0, 0) and yaw rate 0.5 to velocity (2, 0, 0) and yaw rate 0. *)
Lemma computeOutput_unknown_yaw_changes_command :
  let out := computeOutput (E := zero_gain_externals) 0.125 (twist_of Eigen.Zero 0)
               speed_unknown_yaw in
  ~ In (as2_msgs.yaw_mode (control_mode_in_ speed_unknown_yaw))
      (known_yaw_modes (E := zero_gain_externals))
  /\ ok out = false
  /\ control_command_ speed_unknown_yaw
     = {| command_velocity := Eigen.Vector3 1 0 0; yaw_speed := 0.5 |}
  /\ control_command_ (plugin out)
     = {| command_velocity := Eigen.Vector3 2 0 0; yaw_speed := 0 |}
  /\ control_command_ (plugin out) <> control_command_ speed_unknown_yaw.
Proof.
  split; [exact zero_not_a_yaw_mode |].
  split; [vm_compute; reflexivity |].
  split; [vm_compute; reflexivity |].
  split; [vm_compute; reflexivity |].
  intros H.
  apply (f_equal (fun c => PrimFloat.eqb (yaw_speed c) 0)) in H.
  vm_compute in H. discriminate H.
Qed.

(** The same cycle under the statement above. *)
Lemma computeOutput_unknown_mode_rejects_witness :
  let s := speed_unknown_yaw in
  let out := computeOutput (E := zero_gain_externals) 0.125 (twist_of Eigen.Zero 0) s in
  ok out = false
  /\ twist out = twist_of Eigen.Zero 0
  /\ (readiness_gate s = false -> control_command_ (plugin out) = control_command_ s)
  /\ (readiness_gate s = true ->
      yaw_speed (control_command_ (plugin out)) = 0%float
      /\ (~ In (as2_msgs.control_mode (control_mode_in_ s))
              (known_control_modes (E := zero_gain_externals)) ->
          plugin out = resetCommands s
          /\ control_command_ (plugin out) = zero_command)).
Proof.
  apply (computeOutput_unknown_mode_rejects (E := zero_gain_externals) 0.125
           (twist_of Eigen.Zero 0) speed_unknown_yaw).
  right. exact zero_not_a_yaw_mode.
Defined.

(** * Reset *)

Section Reset.

Context {E : Externals}.

Lemma Vector3d_eta (v : Eigen.Vector3d) :
  Eigen.Vector3 (Eigen.x v) (Eigen.y v) (Eigen.z v) = v.
Proof. destruct v. reflexivity. Qed.

(** C3, as the code has it.  [reset] zeroes the vehicle state and the
    command and leaves every flag as it was, but [resetReferences] runs
    before [resetState]: the reference keeps the position and the yaw the
    vehicle state held before the call, with a zero velocity.  A second
    [reset] zeroes the reference as well, so two calls agree with one on the
    vehicle state, the command and the flags, and agree on the reference
    exactly when the vehicle position and yaw were zero beforehand. *)
Theorem reset_state_reference_command (s : Plugin) :
  uav_state_ (reset s) = zero_state
  /\ control_command_ (reset s) = zero_command
  /\ flags_ (reset s) = flags_ s
  /\ control_ref_ (reset s)
     = {| position := position (uav_state_ s); velocity := Eigen.Zero;
          yaw := yaw (uav_state_ s) |}
  /\ uav_state_ (reset (reset s)) = uav_state_ (reset s)
  /\ control_command_ (reset (reset s)) = control_command_ (reset s)
  /\ flags_ (reset (reset s)) = flags_ (reset s)
  /\ control_ref_ (reset (reset s)) = zero_state
  /\ (control_ref_ (reset (reset s)) = control_ref_ (reset s) <->
      position (uav_state_ s) = Eigen.Zero /\ yaw (uav_state_ s) = Eigen.Zero).
Proof.
  members.
  repeat (split; [reflexivity |]).
  split.
  - intros H. injection H as Hp Hy. split; symmetry; assumption.
  - intros [<- <-]. reflexivity.
Qed.

(** C4, what [reset] does to the six handles: [resetController] is called
    on the yaw, position, velocity and trajectory regulators, and on
    neither of the two speed-in-a-plane regulators, which keep their
    memory. *)
Theorem reset_regulators (s : Plugin) :
  pid_yaw_handler_ (reset s) = resetController :: pid_yaw_handler_ s
  /\ pid_3D_position_handler_ (reset s) = resetController3D :: pid_3D_position_handler_ s
  /\ pid_3D_velocity_handler_ (reset s) = resetController3D :: pid_3D_velocity_handler_ s
  /\ pid_3D_trajectory_handler_ (reset s)
     = resetController3D :: pid_3D_trajectory_handler_ s
  /\ pid_1D_speed_in_a_plane_handler_ (reset s) = pid_1D_speed_in_a_plane_handler_ s
  /\ pid_3D_speed_in_a_plane_handler_ (reset s) = pid_3D_speed_in_a_plane_handler_ s.
Proof. members. repeat split. Qed.

End Reset.

(** C3, the claim as stated fails: after one [reset] of a plugin whose
    vehicle was last seen at (1, 2, 3) the reference position is (1, 2, 3),
    not zero, and a second [reset] changes the reference again. *)
Lemma reset_keeps_last_position :
  position (control_ref_ (reset position_seen)) = Eigen.Vector3 1 2 3
  /\ control_ref_ (reset position_seen) <> zero_state
  /\ control_ref_ (reset (reset position_seen)) <> control_ref_ (reset position_seen).
Proof.
  split; [vm_compute; reflexivity |].
  split; intros H;
    apply (f_equal (fun r => PrimFloat.eqb (Eigen.x (position r)) 0)) in H;
    vm_compute in H; discriminate H.
Qed.

(** * Mode switches and frames *)

Section Modes.

Context {E : Externals}.

(** C5. [setMode] always returns true and writes none of the six
    parameter-readiness flags.  With an input control mode other than
    HOVER it clears [state_received] and [ref_received].  With HOVER it
    leaves both as they were and sets the active mode to HOVER with yaw
    mode YAW_ANGLE and reference frame LOCAL_ENU_FRAME, whatever yaw mode
    and frame the caller passed. *)
Theorem setMode_flags_and_hover (in_mode out_mode : as2_msgs.ControlMode) (s : Plugin) :
  let s' := fst (setMode in_mode out_mode s) in
  snd (setMode in_mode out_mode s) = true
  /\ (forall g : Group, group_flag g s' = group_flag g s)
  /\ (as2_msgs.control_mode in_mode <> HOVER ->
      state_received (flags_ s') = false /\ ref_received (flags_ s') = false)
  /\ (as2_msgs.control_mode in_mode = HOVER ->
      state_received (flags_ s') = state_received (flags_ s)
      /\ ref_received (flags_ s') = ref_received (flags_ s)
      /\ as2_msgs.control_mode (control_mode_in_ s') = HOVER
      /\ as2_msgs.yaw_mode (control_mode_in_ s') = YAW_ANGLE
      /\ as2_msgs.reference_frame (control_mode_in_ s') = LOCAL_ENU_FRAME).
Proof.
  unfold setMode.
  destruct (as2_msgs.control_mode in_mode =? HOVER)%Z eqn:Hhover; members;
    repeat match goal with
           | |- context [if ?b then _ else _] => destruct b
           end; members.
  all: split; [reflexivity |].
  all: split; [intros g; destruct g; reflexivity |].
  all: first [apply Z.eqb_eq in Hhover | apply Z.eqb_neq in Hhover].
  all: split; intros Hmode; try contradiction; repeat split; try assumption.
Qed.

(** What [setMode] does to the frames when the input mode is POSITION: the
    pose frame and the output twist frame become the ENU frame, and the
    input twist frame is not assigned. *)
Lemma setMode_position_frames (in_mode out_mode : as2_msgs.ControlMode) (s : Plugin) :
  as2_msgs.control_mode in_mode = POSITION ->
  let s' := fst (setMode in_mode out_mode s) in
  getDesiredPoseFrameId s' = enu_frame_id_ s
  /\ output_twist_frame_id_ s' = enu_frame_id_ s
  /\ getDesiredTwistFrameId s' = getDesiredTwistFrameId s.
Proof.
  intros Hposition. unfold setMode.
  destruct (as2_msgs.control_mode in_mode =? HOVER)%Z; members;
    cbn [as2_msgs.control_mode]; rewrite Hposition, Z.eqb_refl; cbn [orb];
    members; repeat split.
Qed.

End Modes.

(** C8, on the code: after SPEED mode was set with a body-frame output and
    POSITION mode is set next, the pose frame and the output twist frame
    are the ENU frame [odom], and [getDesiredTwistFrameId] still answers the
    body frame [base_link]. *)
Theorem setMode_position_keeps_twist_frame :
  enu_frame_id_ body_then_position = "odom"
  /\ getDesiredPoseFrameId body_then_position = "odom"
  /\ output_twist_frame_id_ body_then_position = "odom"
  /\ getDesiredTwistFrameId body_then_position = "base_link".
Proof. vm_compute. repeat split. Qed.

(** From a plugin with state and reference received: HOVER asked with yaw
    by rate in the body frame, and POSITION. *)
Lemma setMode_flags_and_hover_witness :
  let E := zero_gain_externals in
  let hover := fst (setMode (mode HOVER YAW_SPEED BODY_FLU_FRAME)
                      (mode HOVER YAW_SPEED BODY_FLU_FRAME) speed_ready) in
  let to_position := fst (setMode (mode POSITION YAW_ANGLE LOCAL_ENU_FRAME)
                         (mode POSITION YAW_ANGLE LOCAL_ENU_FRAME) speed_ready) in
  (state_received (flags_ hover) = state_received (flags_ speed_ready)
   /\ ref_received (flags_ hover) = ref_received (flags_ speed_ready)
   /\ as2_msgs.control_mode (control_mode_in_ hover) = HOVER
   /\ as2_msgs.yaw_mode (control_mode_in_ hover) = YAW_ANGLE
   /\ as2_msgs.reference_frame (control_mode_in_ hover) = LOCAL_ENU_FRAME)
  /\ (state_received (flags_ to_position) = false /\ ref_received (flags_ to_position) = false).
Proof.
  intros E hover to_position. split.
  - apply (setMode_flags_and_hover (E := E) (mode HOVER YAW_SPEED BODY_FLU_FRAME)
             (mode HOVER YAW_SPEED BODY_FLU_FRAME) speed_ready).
    reflexivity.
  - apply (setMode_flags_and_hover (E := E) (mode POSITION YAW_ANGLE LOCAL_ENU_FRAME)
             (mode POSITION YAW_ANGLE LOCAL_ENU_FRAME) speed_ready).
    vm_compute. discriminate.
Defined.

(** * Twist references *)

Section TwistReference.

Context {E : Externals}.

(** C9. In POSITION mode a twist reference is a speed limit: its linear
    part is stored in [speed_limits_] and handed by [setOutputSaturation]
    to the position, velocity and trajectory regulators, and nothing else
    is written, neither a flag ([ref_received] included) nor the reference
    (its velocity included).  In a mode that is neither POSITION, SPEED nor
    SPEED_IN_A_PLANE the call leaves the whole plugin as it was. *)
Theorem updateReference_twist_limits_or_ignored (twist_msg : geometry_msgs.TwistStamped)
    (s : Plugin) :
  let s' := updateReference_twist twist_msg s in
  let limits := geometry_msgs.linear twist_msg in
  (as2_msgs.control_mode (control_mode_in_ s) = POSITION ->
   speed_limits_ s' = limits
   /\ pid_3D_position_handler_ s' = setOutputSaturation limits :: pid_3D_position_handler_ s
   /\ pid_3D_velocity_handler_ s' = setOutputSaturation limits :: pid_3D_velocity_handler_ s
   /\ pid_3D_trajectory_handler_ s'
      = setOutputSaturation limits :: pid_3D_trajectory_handler_ s
   /\ flags_ s' = flags_ s
   /\ control_ref_ s' = control_ref_ s
   /\ s' = with_pid_3D_trajectory_handler_
             (setOutputSaturation limits :: pid_3D_trajectory_handler_ s)
             (with_pid_3D_velocity_handler_
                (setOutputSaturation limits :: pid_3D_velocity_handler_ s)
                (with_pid_3D_position_handler_
                   (setOutputSaturation limits :: pid_3D_position_handler_ s)
                   (with_speed_limits_ limits s))))
  /\ (as2_msgs.control_mode (control_mode_in_ s) <> POSITION ->
      as2_msgs.control_mode (control_mode_in_ s) <> SPEED ->
      as2_msgs.control_mode (control_mode_in_ s) <> SPEED_IN_A_PLANE ->
      s' = s).
Proof.
  unfold updateReference_twist. split.
  - intros Hposition. rewrite Hposition, Z.eqb_refl.
    rewrite (Vector3d_eta (geometry_msgs.linear twist_msg)).
    members. repeat split.
  - intros Hposition Hspeed Hplane.
    apply Z.eqb_neq in Hposition, Hspeed, Hplane.
    rewrite Hposition, Hspeed, Hplane. reflexivity.
Qed.

End TwistReference.

(** A twist (1, 2, 3) in POSITION mode, and the same twist before any mode
    was set. *)
Lemma updateReference_twist_limits_or_ignored_witness :
  let E := zero_gain_externals in
  let limits := Eigen.Vector3 1 2 3 in
  let s := fst (setMode (mode POSITION YAW_ANGLE LOCAL_ENU_FRAME)
                  (mode POSITION YAW_ANGLE LOCAL_ENU_FRAME) configured) in
  let s' := updateReference_twist (twist_of limits 0) s in
  (speed_limits_ s' = limits
   /\ pid_3D_position_handler_ s' = setOutputSaturation limits :: pid_3D_position_handler_ s
   /\ pid_3D_velocity_handler_ s' = setOutputSaturation limits :: pid_3D_velocity_handler_ s
   /\ pid_3D_trajectory_handler_ s'
      = setOutputSaturation limits :: pid_3D_trajectory_handler_ s
   /\ flags_ s' = flags_ s
   /\ control_ref_ s' = control_ref_ s
   /\ s' = with_pid_3D_trajectory_handler_
             (setOutputSaturation limits :: pid_3D_trajectory_handler_ s)
             (with_pid_3D_velocity_handler_
                (setOutputSaturation limits :: pid_3D_velocity_handler_ s)
                (with_pid_3D_position_handler_
                   (setOutputSaturation limits :: pid_3D_position_handler_ s)
                   (with_speed_limits_ limits s))))
  /\ updateReference_twist (twist_of limits 0) configured = configured.
Proof.
  intros E limits s s'. split.
  - apply (updateReference_twist_limits_or_ignored (E := E) (twist_of limits 0) s).
    reflexivity.
  - apply (updateReference_twist_limits_or_ignored (E := E) (twist_of limits 0) configured);
      vm_compute; discriminate.
Defined.

(** * SPEED mode *)

Section SpeedMode.

Context {E : Externals}.

(** C7. In SPEED mode without bypass every cycle past the readiness gate
    runs the velocity regulator once, on the measured and the reference
    velocity, and takes its effort as the velocity command, whether or not
    the velocity parameters were read and whatever the yaw branch does
    afterwards: when they were not read, a warning is logged and nothing
    else changes.  What depends on the yaw branch is the result alone: the
    call returns true exactly when the yaw branch succeeds (yaw by rate, or
    yaw by angle with the yaw parameters read), and then the twist carries
    the command and nothing is logged but that warning.  The case labels of
    a [switch] are distinct. *)
Theorem computeOutput_speed_lenient (dt : double) (tw : geometry_msgs.TwistStamped)
    (s : Plugin) :
  SPEED <> HOVER -> SPEED <> POSITION ->
  readiness_gate s = true ->
  as2_msgs.control_mode (control_mode_in_ s) = SPEED ->
  use_bypass_ s = false ->
  let out := computeOutput dt tw s in
  let h := computeControl3D dt (velocity (uav_state_ s)) (velocity (control_ref_ s))
           :: pid_3D_velocity_handler_ s in
  let yaw_branch_succeeds :=
    as2_msgs.yaw_mode (control_mode_in_ s) = YAW_SPEED
    \/ (as2_msgs.yaw_mode (control_mode_in_ s) = YAW_ANGLE
        /\ yaw_controller_parameters_read (flags_ s) = true) in
  pid_3D_velocity_handler_ (plugin out) = h
  /\ command_velocity (control_command_ (plugin out)) = control_effort3D h
  /\ (velocity_controller_parameters_read (flags_ s) = false ->
      In (warn "Velocity controller parameters not read yet") (logged out))
  /\ (YAW_SPEED <> YAW_ANGLE ->
      (ok out = true <-> yaw_branch_succeeds)
      /\ (yaw_branch_succeeds ->
          geometry_msgs.linear (twist out) = control_effort3D h
          /\ (velocity_controller_parameters_read (flags_ s) = true -> logged out = [])
          /\ (velocity_controller_parameters_read (flags_ s) = false ->
              logged out = [warn "Velocity controller parameters not read yet"]))).
Proof.
  intros Hhover Hposition Hgate Hspeed Hbypass out h yaw_branch_succeeds.
  subst out h yaw_branch_succeeds.
  rewrite (computeOutput_gate_open dt tw s Hgate).
  unfold control_mode_switch.
  change (as2_msgs.control_mode (control_mode_in_ (resetCommands s)))
    with (as2_msgs.control_mode (control_mode_in_ s)).
  change (use_bypass_ (resetCommands s)) with (use_bypass_ s).
  rewrite Hspeed, Hbypass.
  apply Z.eqb_neq in Hhover, Hposition.
  rewrite Hhover, Hposition, Z.eqb_refl.
  unfold yaw_mode_switch, getOutput. members.
  destruct (velocity_controller_parameters_read (flags_ s)) eqn:Hvelocity;
    cbn [negb]; members;
    destruct (as2_msgs.yaw_mode (control_mode_in_ s) =? YAW_ANGLE)%Z eqn:Hangle;
    [destruct (yaw_controller_parameters_read (flags_ s)) eqn:Hread; cbn [negb]
    | destruct (as2_msgs.yaw_mode (control_mode_in_ s) =? YAW_SPEED)%Z eqn:Hrate
    | destruct (yaw_controller_parameters_read (flags_ s)) eqn:Hread; cbn [negb]
    | destruct (as2_msgs.yaw_mode (control_mode_in_ s) =? YAW_SPEED)%Z eqn:Hrate];
    members; cbn [ok twist plugin logged app geometry_msgs.linear];
    rewrite ?Vector3d_eta;
    repeat match goal with
           | H : (_ =? _)%Z = true |- _ => apply Z.eqb_eq in H
           | H : (_ =? _)%Z = false |- _ => apply Z.eqb_neq in H
           end;
    (split; [reflexivity |]); (split; [reflexivity |]);
    (split; [first [discriminate | intros _; left; reflexivity
                   | intros _; right; left; reflexivity] |]);
    intros Hyaw;
    (split;
     [ split;
       [ first [ intros _; auto; fail | discriminate ]
       | first [ reflexivity | intros [Hr | [Ha Hf]]; congruence ] ]
     | intros [Hr | [Ha Hf]]; try congruence;
       (split; [reflexivity |]); split; intros; congruence ]).
Qed.

End SpeedMode.

(** The scenario of the specification: SPEED, no bypass, velocity
    parameters never read, vehicle at rest, reference (1, 0, 0). *)
Lemma computeOutput_speed_lenient_witness :
  let E := zero_gain_externals in
  let out := computeOutput 0.125 (twist_of Eigen.Zero 0) speed_ready in
  let h := computeControl3D 0.125 Eigen.Zero (Eigen.Vector3 1 0 0)
           :: pid_3D_velocity_handler_ speed_ready in
  let yaw_branch_succeeds :=
    as2_msgs.yaw_mode (control_mode_in_ speed_ready) = YAW_SPEED
    \/ (as2_msgs.yaw_mode (control_mode_in_ speed_ready) = YAW_ANGLE
        /\ yaw_controller_parameters_read (flags_ speed_ready) = true) in
  velocity_controller_parameters_read (flags_ speed_ready) = false
  /\ pid_3D_velocity_handler_ (plugin out) = h
  /\ command_velocity (control_command_ (plugin out)) = control_effort3D h
  /\ (velocity_controller_parameters_read (flags_ speed_ready) = false ->
      In (warn "Velocity controller parameters not read yet") (logged out))
  /\ (YAW_SPEED <> YAW_ANGLE ->
      (ok out = true <-> yaw_branch_succeeds)
      /\ (yaw_branch_succeeds ->
          geometry_msgs.linear (twist out) = control_effort3D h
          /\ (velocity_controller_parameters_read (flags_ speed_ready) = true ->
              logged out = [])
          /\ (velocity_controller_parameters_read (flags_ speed_ready) = false ->
              logged out = [warn "Velocity controller parameters not read yet"]))).
Proof.
  intros E out h yaw_branch_succeeds. split; [vm_compute; reflexivity |].
  apply (computeOutput_speed_lenient (E := E) 0.125 (twist_of Eigen.Zero 0) speed_ready);
    try (vm_compute; discriminate); vm_compute; reflexivity.
Defined.

(** * Parameter routing *)

Section ParameterRouting.

Ltac typed_read p :=
  unfold setter_outcome, read_bool, read_double, has_type,
    rclcpp.get_value_bool, rclcpp.get_value_double;
  destruct (rclcpp.get_parameter_value p); cbn; auto.

Ltac leaf_cases p :=
  repeat match goal with
         | |- context [String.eqb ?a ?b] =>
             destruct (String.eqb a b); cbn [orb]; [solve [typed_read p] |]
         end;
  try reflexivity.

Lemma updateControllerParameter_outcome (h : PIDController) (leaf : string)
    (p : rclcpp.Parameter_) :
  setter_outcome (leaf_type leaf) p (updateControllerParameter h leaf p).
Proof. unfold updateControllerParameter, leaf_type. leaf_cases p. Qed.

Lemma updateController3DParameter_outcome (h : PIDController3D) (leaf : string)
    (p : rclcpp.Parameter_) :
  setter_outcome (leaf_type3D leaf) p (updateController3DParameter h leaf p).
Proof. unfold updateController3DParameter, leaf_type3D. leaf_cases p. Qed.

Lemma updateSpeedInAPlaneParameter_outcome (h1 : PIDController) (h3 : PIDController3D)
    (leaf : string) (p : rclcpp.Parameter_) :
  setter_outcome (leaf_type_speed_in_a_plane leaf) p
    (updateSpeedInAPlaneParameter h1 h3 leaf p).
Proof. unfold updateSpeedInAPlaneParameter, leaf_type_speed_in_a_plane. leaf_cases p. Qed.

Ltac unknown_leaf :=
  repeat match goal with
         | |- context [String.eqb ?a ?b] =>
             destruct (String.eqb a b); cbn [orb]; [discriminate |]
         end;
  reflexivity.

(** A leaf name that is none of those compared calls no setter and reads
    no value: the handle comes back as it was. *)
Lemma updateControllerParameter_unknown_leaf (h : PIDController) (leaf : string)
    (p : rclcpp.Parameter_) :
  leaf_type leaf = None -> updateControllerParameter h leaf p = Returned h.
Proof. unfold updateControllerParameter, leaf_type. unknown_leaf. Qed.

Lemma updateController3DParameter_unknown_leaf (h : PIDController3D) (leaf : string)
    (p : rclcpp.Parameter_) :
  leaf_type3D leaf = None -> updateController3DParameter h leaf p = Returned h.
Proof. unfold updateController3DParameter, leaf_type3D. unknown_leaf. Qed.

Lemma updateSpeedInAPlaneParameter_unknown_leaf (h1 : PIDController)
    (h3 : PIDController3D) (leaf : string) (p : rclcpp.Parameter_) :
  leaf_type_speed_in_a_plane leaf = None ->
  updateSpeedInAPlaneParameter h1 h3 leaf p = Returned (h1, h3).
Proof. unfold updateSpeedInAPlaneParameter, leaf_type_speed_in_a_plane. unknown_leaf. Qed.

(** Assigning to a handle the value it holds changes nothing. *)
Lemma with_handles_same (s : Plugin) :
  with_pid_yaw_handler_ (pid_yaw_handler_ s) s = s
  /\ with_pid_3D_position_handler_ (pid_3D_position_handler_ s) s = s
  /\ with_pid_3D_velocity_handler_ (pid_3D_velocity_handler_ s) s = s
  /\ with_pid_3D_trajectory_handler_ (pid_3D_trajectory_handler_ s) s = s
  /\ with_pid_3D_speed_in_a_plane_handler_ (pid_3D_speed_in_a_plane_handler_ s)
       (with_pid_1D_speed_in_a_plane_handler_ (pid_1D_speed_in_a_plane_handler_ s) s) = s.
Proof. destruct s. repeat split. Qed.


Ltac tracker_facts :=
  let g := fresh "g" in
  intros g; destruct g; cbn [Group_eqb];
  unfold tracker, tracker_step, group_flag, group_to_read,
    check_plugin_parameters, check_position_control_parameters,
    check_velocity_control_parameters, check_speed_in_a_plane_control_parameters,
    check_trajectory_control_parameters, check_yaw_control_parameters, checkParamList;
  members;
  repeat match goal with
         | |- context [negb ?f] =>
             let Hf := fresh "Hf" in
             destruct f eqn:Hf; cbn [negb]; members; rewrite ?Hf
         end;
  reflexivity.

Ltac setter_case H :=
  unfold setter_outcome in H;
  match type of H with
  | has_type ?t ?p = true => rewrite H; split; [reflexivity | tracker_facts]
  | _ /\ _ => let He := fresh in let Ht := fresh in
              destruct H as [He Ht]; rewrite Ht, He; reflexivity
  end.

(** One iteration of the loop.  On a readable parameter it returns, and
    the checklist and the flag of the group the name reaches take one
    guarded [checkParamList] step while those of every other group stay.  On
    a parameter that is not readable it raises and the plugin is unchanged. *)
Lemma parametersCallback_body_spec (p : rclcpp.Parameter_) (s : Plugin) :
  if readable p
  then snd (parametersCallback_body p s) = Returned tt
       /\ forall g : Group,
           tracker g (fst (parametersCallback_body p s))
           = if reaches g (rclcpp.get_name p)
             then tracker_step (rclcpp.get_name p) (tracker g s)
             else tracker g s
  else parametersCallback_body p s = (s, Thrown (rclcpp.get_name p)).
Proof.
  unfold parametersCallback_body, readable, expected_type, reaches, group_of.
  set (name := rclcpp.get_name p).
  destruct (name =? "proportional_limitation").
  { unfold has_type, rclcpp.get_value_bool.
    destruct (rclcpp.get_parameter_value p); try reflexivity.
    split; [reflexivity | tracker_facts]. }
  destruct (name =? "use_bypass").
  { unfold has_type, rclcpp.get_value_bool.
    destruct (rclcpp.get_parameter_value p); try reflexivity.
    split; [reflexivity | tracker_facts]. }
  destruct (controller_of name =? "position_control").
  { pose proof (updateController3DParameter_outcome (pid_3D_position_handler_ s)
                  (param_subname_of name) p) as H.
    destruct (updateController3DParameter _ _ _); setter_case H. }
  destruct (controller_of name =? "velocity_control").
  { pose proof (updateController3DParameter_outcome (pid_3D_velocity_handler_ s)
                  (param_subname_of name) p) as H.
    destruct (updateController3DParameter _ _ _); setter_case H. }
  destruct (controller_of name =? "speed_in_a_plane_control").
  { pose proof (updateSpeedInAPlaneParameter_outcome
                  (pid_1D_speed_in_a_plane_handler_ s)
                  (pid_3D_speed_in_a_plane_handler_ s) (param_subname_of name) p) as H.
    destruct (updateSpeedInAPlaneParameter _ _ _ _) as [[h1 h3] | e]; setter_case H. }
  destruct (controller_of name =? "trajectory_control").
  { pose proof (updateController3DParameter_outcome (pid_3D_trajectory_handler_ s)
                  (param_subname_of name) p) as H.
    destruct (updateController3DParameter _ _ _); setter_case H. }
  destruct (controller_of name =? "yaw_control").
  { pose proof (updateControllerParameter_outcome (pid_yaw_handler_ s)
                  (param_subname_of name) p) as H.
    destruct (updateControllerParameter _ _ _); setter_case H. }
  cbn. split; [reflexivity |]. intros g. reflexivity.
Qed.


Lemma parametersCallback_body_readable (p : rclcpp.Parameter_) (s : Plugin) :
  readable p = true ->
  snd (parametersCallback_body p s) = Returned tt
  /\ forall g : Group,
      tracker g (fst (parametersCallback_body p s))
      = if reaches g (rclcpp.get_name p)
        then tracker_step (rclcpp.get_name p) (tracker g s)
        else tracker g s.
Proof.
  intros H. pose proof (parametersCallback_body_spec p s) as Hspec.
  rewrite H in Hspec. exact Hspec.
Qed.

Lemma parametersCallback_body_unreadable (p : rclcpp.Parameter_) (s : Plugin) :
  readable p = false ->
  parametersCallback_body p s = (s, Thrown (rclcpp.get_name p)).
Proof.
  intros H. pose proof (parametersCallback_body_spec p s) as Hspec.
  rewrite H in Hspec. exact Hspec.
Qed.

(** The loop stops at the first parameter that is not readable. *)
Lemma parametersCallback_loop_cons (p : rclcpp.Parameter_)
    (rest : list rclcpp.Parameter_) (s : Plugin) :
  parametersCallback_loop (p :: rest) s
  = if readable p
    then parametersCallback_loop rest (fst (parametersCallback_body p s))
    else (s, Thrown (rclcpp.get_name p)).
Proof.
  cbn [parametersCallback_loop].
  destruct (readable p) eqn:Hp.
  - destruct (parametersCallback_body_readable p s Hp) as [Hr _].
    destruct (parametersCallback_body p s) as [s' o]. cbn [fst snd] in *.
    rewrite Hr. reflexivity.
  - rewrite (parametersCallback_body_unreadable p s Hp). reflexivity.
Qed.

Lemma parametersCallback_loop_outcome (parameters : list rclcpp.Parameter_) (s : Plugin) :
  snd (parametersCallback_loop parameters s)
  = match find (fun p => negb (readable p)) parameters with
    | None => Returned tt
    | Some p => Thrown (rclcpp.get_name p)
    end.
Proof.
  revert s. induction parameters as [| p rest IH]; intros s.
  - reflexivity.
  - rewrite parametersCallback_loop_cons. cbn [find].
    destruct (readable p); cbn [negb].
    + apply IH.
    + reflexivity.
Qed.

Lemma parametersCallback_fst (parameters : list rclcpp.Parameter_) (s : Plugin) :
  fst (parametersCallback parameters s) = fst (parametersCallback_loop parameters s).
Proof.
  unfold parametersCallback.
  destruct (parametersCallback_loop parameters s) as [s' [u | e]]; reflexivity.
Qed.

Lemma parametersCallback_outcome (parameters : list rclcpp.Parameter_) (s : Plugin) :
  snd (parametersCallback parameters s)
  = match find (fun p => negb (readable p)) parameters with
    | None => Returned success
    | Some p => Thrown (rclcpp.get_name p)
    end.
Proof.
  pose proof (parametersCallback_loop_outcome parameters s) as H.
  unfold parametersCallback.
  destruct (parametersCallback_loop parameters s) as [s' [u | e]]; cbn [snd] in *;
    destruct (find (fun p => negb (readable p)) parameters);
    try discriminate H; try reflexivity.
  injection H as ->. reflexivity.
Qed.

Context {E : Externals}.

(** One guarded call of [checkParamList] writes the checklist and the flag
    of its group and nothing else. *)
Lemma check_group_effect (g : Group) (param_name : string) (s : Plugin) :
  (forall g' : Group, group_config g' (check_group g param_name s) = group_config g' s)
  /\ operation_kept s (check_group g param_name s)
  /\ (forall g' : Group,
      tracker g' (check_group g param_name s)
      = if Group_eqb g' g then tracker_step param_name (tracker g' s) else tracker g' s).
Proof.
  split; [| split].
  - intros g'. destruct g, g';
      unfold check_group, check_plugin_parameters, check_position_control_parameters,
        check_velocity_control_parameters, check_speed_in_a_plane_control_parameters,
        check_trajectory_control_parameters, check_yaw_control_parameters, group_config;
      match goal with |- context [negb ?f] => destruct f end; cbn [negb]; members;
      reflexivity.
  - destruct g;
      unfold check_group, check_plugin_parameters, check_position_control_parameters,
        check_velocity_control_parameters, check_speed_in_a_plane_control_parameters,
        check_trajectory_control_parameters, check_yaw_control_parameters, operation_kept;
      match goal with |- context [negb ?f] => destruct f end; cbn [negb]; members;
      repeat split.
  - destruct g; unfold check_group; tracker_facts.
Qed.

(** C10, as the code has it.  [parametersCallback] never returns a failed
    result: it returns [successful = true] unless some parameter is not
    readable, that is, carries a recognised name with a value of another
    type than the one read for it, and then it raises at the first such
    parameter and returns nothing.  A name that reaches no group leaves the
    plugin untouched.  A name with an unrecognised leaf under the tag of a
    group is always readable and calls no setter, but it is not ignored:
    the iteration does exactly the guarded call of [checkParamList] of that
    group, which writes no regulator, no switch and nothing of the
    operation, and gives the checklist and the flag of the group one step,
    so that it can set the flag.  [updateParams] passes on what
    [parametersCallback] did. *)
Theorem parametersCallback_never_fails (parameters : list rclcpp.Parameter_)
    (s : Plugin) :
  snd (parametersCallback parameters s)
  = match find (fun p => negb (readable p)) parameters with
    | None => Returned success
    | Some p => Thrown (rclcpp.get_name p)
    end
  /\ (forall r, snd (parametersCallback parameters s) = Returned r ->
      rcl_interfaces.successful r = true)
  /\ (forall p, expected_type (rclcpp.get_name p) = None -> readable p = true)
  /\ (forall p, group_of (rclcpp.get_name p) = None ->
      parametersCallback_body p s = (s, Returned tt))
  /\ (forall p g,
      group_of (rclcpp.get_name p) = Some g ->
      expected_type (rclcpp.get_name p) = None ->
      let s' := check_group g (rclcpp.get_name p) s in
      parametersCallback_body p s = (s', Returned tt)
      /\ (forall g' : Group, group_config g' s' = group_config g' s)
      /\ operation_kept s s'
      /\ (forall g' : Group,
          tracker g' s'
          = if Group_eqb g' g
            then tracker_step (rclcpp.get_name p) (tracker g' s)
            else tracker g' s)
      /\ (group_flag g s = false -> group_to_read g s = [] -> group_flag g s' = true))
  /\ (forall names, get_parameters names = Returned parameters ->
      snd (updateParams names s)
      = match find (fun p => negb (readable p)) parameters with
        | None => Returned true
        | Some p => Thrown (rclcpp.get_name p)
        end).
Proof.
  pose proof (parametersCallback_outcome parameters s) as Hout.
  split; [exact Hout |]. split; [| split; [| split; [| split]]].
  - intros r Hr. rewrite Hout in Hr.
    destruct (find (fun p => negb (readable p)) parameters); [discriminate Hr |].
    injection Hr as <-. reflexivity.
  - intros p Hp. unfold readable. rewrite Hp. reflexivity.
  - intros p Hp. unfold parametersCallback_body. unfold group_of in Hp.
    repeat match type of Hp with
           | (if ?b then _ else _) = None => destruct b; [discriminate Hp |]
           end.
    reflexivity.
  - intros p g Hg Hleaf s'. subst s'.
    destruct (check_group_effect g (rclcpp.get_name p) s) as [Hconfig [Hkept Htracker]].
    split; [| split; [exact Hconfig | split; [exact Hkept | split; [exact Htracker |]]]].
    + unfold expected_type in Hleaf. rewrite Hg in Hleaf.
      destruct (with_handles_same s) as [Hyaw [Hpos [Hvel [Htraj Hplane]]]].
      unfold group_of in Hg. unfold parametersCallback_body.
      repeat match type of Hg with
             | (if ?b then _ else _) = Some _ =>
                 destruct b; [injection Hg as <- |]
             end;
        try discriminate Hleaf; try discriminate Hg.
      * rewrite (updateController3DParameter_unknown_leaf _ _ p Hleaf), Hpos.
        reflexivity.
      * rewrite (updateController3DParameter_unknown_leaf _ _ p Hleaf), Hvel.
        reflexivity.
      * rewrite (updateSpeedInAPlaneParameter_unknown_leaf _ _ _ p Hleaf), Hplane.
        reflexivity.
      * rewrite (updateController3DParameter_unknown_leaf _ _ p Hleaf), Htraj.
        reflexivity.
      * rewrite (updateControllerParameter_unknown_leaf _ _ p Hleaf), Hyaw.
        reflexivity.
    + intros Hflag Hlist.
      pose proof (Htracker g) as Hstep.
      assert (Hsame : Group_eqb g g = true) by (destruct g; reflexivity).
      rewrite Hsame in Hstep. unfold tracker, tracker_step in Hstep.
      cbn [fst snd] in Hstep. rewrite Hflag, Hlist in Hstep. cbn in Hstep.
      injection Hstep as _ Hf. exact Hf.
  - intros names Hnames. unfold updateParams. rewrite Hnames.
    destruct (parametersCallback parameters s) as [s' [r | e]]; cbn [snd] in *;
      destruct (find (fun p => negb (readable p)) parameters);
      try discriminate Hout; try (injection Hout as ->); reflexivity.
Qed.

End ParameterRouting.

(** C10, the claim as stated fails twice.  A gain delivered as an integer
    (a configuration file that says [1] where [1.0] is meant) makes
    [get_value<double>()] raise: the callback returns no result at all.
    And a name with an unrecognised leaf is not ignored: it still reaches
    [checkParamList], and on the empty checklist the plugin starts with it
    sets the readiness flag of its group. *)
Lemma parametersCallback_raises_on_wrong_type :
  readable (integer_parameter "position_control.kp.x" 1) = false
  /\ parametersCallback [integer_parameter "position_control.kp.x" 1] initialized
     = (initialized, Thrown "position_control.kp.x")
  /\ expected_type "yaw_control.bogus" = None
  /\ yaw_controller_parameters_read (flags_ initialized) = false
  /\ yaw_controller_parameters_read
       (flags_ (fst (parametersCallback [integer_parameter "yaw_control.bogus" 1]
                       initialized))) = true.
Proof. repeat split; vm_compute; reflexivity. Qed.

(** * Readiness tracking *)

Section Readiness.

Lemma existsb_eqb_In (n : string) (l : list string) :
  existsb (String.eqb n) l = true <-> In n l.
Proof.
  rewrite existsb_exists. split.
  - intros (m & Hin & Heq). apply String.eqb_eq in Heq. subst m. exact Hin.
  - intros Hin. exists n. split; [exact Hin | apply String.eqb_refl].
Qed.

Lemma remove_filter (n : string) (l : list string) :
  remove string_dec n l = filter (fun m => negb (m =? n)) l.
Proof.
  induction l as [| a l IH]; [reflexivity |].
  cbn [remove filter]. destruct (string_dec n a) as [<- | Hne].
  - rewrite String.eqb_refl. exact IH.
  - assert (Ha : (a =? n) = false).
    { apply String.eqb_neq. intros ->. apply Hne. reflexivity. }
    rewrite Ha. cbn [negb]. rewrite IH. reflexivity.
Qed.

(** The first statement of [checkParamList] is a removal in both cases. *)
Lemma checkParamList_remove (param : string) (l : list string) (f : bool) :
  checkParamList param l f
  = (remove string_dec param l,
     if (List.length (remove string_dec param l) =? 0)%nat then true else f).
Proof.
  unfold checkParamList.
  destruct (existsb (String.eqb param) l) eqn:Hin; [reflexivity |].
  assert (Hsame : remove string_dec param l = l).
  { apply notin_remove. intros Hl. apply existsb_eqb_In in Hl. congruence. }
  rewrite Hsame. reflexivity.
Qed.

Variable g : Group.

(** A test holds of some element exactly when the filter keeps one. *)
Lemma existsb_filter_nil {A : Type} (f : A -> bool) (l : list A) :
  existsb f l = true <-> filter f l <> [].
Proof.
  induction l as [| a l IH]; cbn [existsb filter].
  - split; [discriminate | intros H; contradiction H; reflexivity].
  - destruct (f a); cbn [orb]; [split; [discriminate | reflexivity] | exact IH].
Qed.

(** On an empty checklist one iteration leaves the checklist empty and
    sets the flag as soon as the name takes the branch of the group,
    whatever the name. *)
Lemma empty_checklist_body (p : rclcpp.Parameter_) (s : Plugin) :
  readable p = true ->
  group_to_read g s = [] ->
  group_to_read g (fst (parametersCallback_body p s)) = []
  /\ group_flag g (fst (parametersCallback_body p s))
     = group_flag g s || reaches g (rclcpp.get_name p).
Proof.
  intros Hp Hlist.
  destruct (parametersCallback_body_readable p s Hp) as [_ Htr].
  specialize (Htr g). unfold tracker, tracker_step in Htr. cbn [fst snd] in Htr.
  rewrite Hlist in Htr.
  destruct (reaches g (rclcpp.get_name p)), (group_flag g s);
    cbn in Htr; injection Htr as -> ->; split; reflexivity.
Qed.

Lemma empty_checklist_loop (parameters : list rclcpp.Parameter_) (s : Plugin) :
  group_to_read g s = [] ->
  group_to_read g (fst (parametersCallback_loop parameters s)) = []
  /\ group_flag g (fst (parametersCallback_loop parameters s))
     = group_flag g s
       || existsb (reaches g) (map rclcpp.get_name (processed parameters)).
Proof.
  revert s. induction parameters as [| p rest IH]; intros s Hlist.
  - cbn. rewrite orb_false_r. split; [exact Hlist | reflexivity].
  - rewrite parametersCallback_loop_cons. cbn [processed].
    destruct (readable p) eqn:Hp.
    + destruct (empty_checklist_body p s Hp Hlist) as [Hl Hf].
      destruct (IH _ Hl) as [Hl' Hf']. split; [exact Hl' |].
      rewrite Hf', Hf. cbn [map existsb]. rewrite orb_assoc. reflexivity.
    + cbn. rewrite orb_false_r. split; [exact Hlist | reflexivity].
Qed.

Lemma empty_checklist_calls (calls : list (list rclcpp.Parameter_)) (s : Plugin) :
  group_to_read g s = [] ->
  group_to_read g (parametersCallback_calls calls s) = []
  /\ group_flag g (parametersCallback_calls calls s)
     = group_flag g s || existsb (reaches g) (observed calls).
Proof.
  unfold observed, parametersCallback_calls.
  revert s. induction calls as [| parameters calls IH]; intros s Hlist.
  - cbn. rewrite orb_false_r. split; [exact Hlist | reflexivity].
  - cbn [fold_left flat_map]. rewrite parametersCallback_fst.
    destruct (empty_checklist_loop parameters s Hlist) as [Hl Hf].
    destruct (IH _ Hl) as [Hl' Hf']. split; [exact Hl' |].
    rewrite Hf', Hf, existsb_app, orb_assoc. reflexivity.
Qed.

(** A flag that is set stays set through any iteration, call or calls. *)
Lemma flag_kept_body (p : rclcpp.Parameter_) (s : Plugin) :
  group_flag g s = true -> group_flag g (fst (parametersCallback_body p s)) = true.
Proof.
  intros Hflag. pose proof (parametersCallback_body_spec p s) as Hspec.
  destruct (readable p).
  - destruct Hspec as [_ Htr]. specialize (Htr g). unfold tracker, tracker_step in Htr.
    cbn [fst snd] in Htr. rewrite Hflag in Htr. cbn [negb] in Htr.
    destruct (reaches g (rclcpp.get_name p)); injection Htr as _ ->; reflexivity.
  - rewrite Hspec. exact Hflag.
Qed.

Lemma flag_kept_loop (parameters : list rclcpp.Parameter_) (s : Plugin) :
  group_flag g s = true -> group_flag g (fst (parametersCallback_loop parameters s)) = true.
Proof.
  revert s. induction parameters as [| p rest IH]; intros s Hflag; [exact Hflag |].
  rewrite parametersCallback_loop_cons. destruct (readable p); [| exact Hflag].
  apply IH. apply flag_kept_body. exact Hflag.
Qed.

Lemma flag_kept_calls (calls : list (list rclcpp.Parameter_)) (s : Plugin) :
  group_flag g s = true -> group_flag g (parametersCallback_calls calls s) = true.
Proof.
  unfold parametersCallback_calls.
  revert s. induction calls as [| parameters calls IH]; intros s Hflag; [exact Hflag |].
  cbn [fold_left]. apply IH. rewrite parametersCallback_fst.
  apply flag_kept_loop. exact Hflag.
Qed.

End Readiness.

(** No name of the velocity list of the header takes the velocity branch
    of the callback: the list says [speed_control], the branch compares
    with [velocity_control]. *)
Lemma velocity_list_unreached :
  forall n : string,
    In n velocity_control_parameters_list_ -> reaches VelocityGroup n = false.
Proof.
  apply Forall_forall.
  repeat (apply Forall_cons; [vm_compute; reflexivity |]). apply Forall_nil.
Qed.

(** C6, what the code does.  No checklist is ever filled: the constructor
    leaves each empty and [checkParamList] only removes names.  On an empty
    checklist the flag of a group is true after any sequence of
    [parametersCallback] calls exactly when it was true before or at least
    one name gone through by the calls took the branch of the group: the
    first such name sets it, whatever it is and however many of the names
    listed in the header were seen, and the checklist stays empty.  For the
    velocity group the names of its header list never take its branch, so
    calls that deliver only those leave its flag as it was.  A flag that is
    true stays true through any further calls. *)
Theorem readiness_flag_set_by_first_name (g : Group) (s : Plugin)
    (calls : list (list rclcpp.Parameter_)) :
  group_to_read g s = [] ->
  let s' := parametersCallback_calls calls s in
  (group_flag g s' = true <-> group_flag g s = true \/ observed_by g calls <> [])
  /\ group_to_read g s' = []
  /\ (g = VelocityGroup ->
      incl (observed calls) velocity_control_parameters_list_ ->
      group_flag g s' = group_flag g s)
  /\ (forall (s'' : Plugin) (more : list (list rclcpp.Parameter_)),
      group_flag g s'' = true ->
      group_flag g (parametersCallback_calls more s'') = true).
Proof.
  intros Hlist s'. subst s'.
  destruct (empty_checklist_calls g calls s Hlist) as [Hl Hf].
  split; [| split; [exact Hl | split]].
  - rewrite Hf, orb_true_iff. unfold observed_by.
    rewrite (existsb_filter_nil (reaches g) (observed calls)). reflexivity.
  - intros -> Hincl. rewrite Hf.
    assert (Hnone : existsb (reaches VelocityGroup) (observed calls) = false).
    { destruct (existsb (reaches VelocityGroup) (observed calls)) eqn:Hex;
        [| reflexivity].
      apply existsb_exists in Hex. destruct Hex as (n & Hin & Hreach).
      rewrite (velocity_list_unreached n (Hincl n Hin)) in Hreach.
      discriminate Hreach. }
    rewrite Hnone. apply orb_false_r.
  - intros s'' more. apply flag_kept_calls.
Qed.

(** The failing inputs.  On an initialised plugin whose flags were false,
    one call that delivers the single gain [position_control.kp.x] sets the
    position flag although eleven of the twelve names of the header list
    were never seen; and one call that delivers every name of the velocity
    list of the header leaves the velocity flag false. *)
Lemma readiness_flag_set_by_first_name_witness :
  let one := [[double_parameter "position_control.kp.x" 1]] in
  let all := [map typed_parameter velocity_control_parameters_list_] in
  (group_flag PositionGroup initialized = false
   /\ ~ incl position_control_parameters_list_ (observed one)
   /\ group_flag PositionGroup (parametersCallback_calls one initialized) = true)
  /\ (group_flag VelocityGroup initialized = false
      /\ observed all = velocity_control_parameters_list_
      /\ group_flag VelocityGroup (parametersCallback_calls all initialized) = false)
  /\ (let s' := parametersCallback_calls one initialized in
      (group_flag PositionGroup s' = true <->
       group_flag PositionGroup initialized = true \/ observed_by PositionGroup one <> [])
      /\ group_to_read PositionGroup s' = []
      /\ (PositionGroup = VelocityGroup ->
          incl (observed one) velocity_control_parameters_list_ ->
          group_flag PositionGroup s' = group_flag PositionGroup initialized)
      /\ (forall (s'' : Plugin) (more : list (list rclcpp.Parameter_)),
          group_flag PositionGroup s'' = true ->
          group_flag PositionGroup (parametersCallback_calls more s'') = true)).
Proof.
  intros one all. split; [| split].
  - split; [vm_compute; reflexivity |]. split; [| vm_compute; reflexivity].
    intros Hincl.
    specialize (Hincl "position_control.reset_integral" (or_introl eq_refl)).
    vm_compute in Hincl. destruct Hincl as [Hsame | []]. discriminate Hsame.
  - repeat split; vm_compute; reflexivity.
  - apply (readiness_flag_set_by_first_name PositionGroup initialized one).
    vm_compute. reflexivity.
Defined.

(** * Further properties of the control cycle *)

(** Case analysis of one call of [computeOutput] on [s]: the gate, then
    every test of the two switches. *)
Ltac cycle_cases dt tw s :=
  let Hgate := fresh "Hgate" in
  destruct (readiness_gate s) eqn:Hgate;
  [ rewrite (computeOutput_gate_open dt tw s Hgate);
    unfold control_mode_switch, yaw_mode_switch, getOutput; members;
    repeat match goal with
           | |- context [if ?b then _ else _] =>
               let Hc := fresh "Hc" in destruct b eqn:Hc; members
           end;
    cbn [ok twist plugin logged]; members
  | let Hok := fresh "Hok" in
    let Hs := fresh "Hs" in
    let Htw := fresh "Htw" in
    destruct (computeOutput_gate_closed dt tw s Hgate) as (Hok & Hs & Htw);
    rewrite ?Hok, ?Hs, ?Htw ].

Section CycleProperties.

Context {E : Externals}.

(** X1. A cycle writes nothing but the command and the regulator handles:
    the modes, the flags (the received flags included), the vehicle state,
    the reference, the speed limits, the checklists and the frames are after
    [computeOutput] what they were before, whether the cycle was accepted
    or not. *)
Theorem computeOutput_keeps_inputs (dt : double) (tw : geometry_msgs.TwistStamped)
    (s : Plugin) :
  cycle_inputs_kept s (plugin (computeOutput dt tw s)).
Proof.
  unfold cycle_inputs_kept.
  cycle_cases dt tw s;
    repeat split; try reflexivity; try assumption; intros g; destruct g; reflexivity.
Qed.

(** X2. The message of a cycle.  When [computeOutput] returns true the
    gate was open, the [twist] argument keeps its stamp, takes the output
    twist frame as its frame, the command velocity as its linear part and
    (0, 0, yaw rate command) as its angular part.  When it returns false the
    argument is not written. *)
Theorem computeOutput_twist (dt : double) (tw : geometry_msgs.TwistStamped)
    (s : Plugin) :
  let out := computeOutput dt tw s in
  (ok out = true ->
   readiness_gate s = true
   /\ std_msgs.frame_id (geometry_msgs.twist_header (twist out)) = output_twist_frame_id_ s
   /\ std_msgs.stamp_sec (geometry_msgs.twist_header (twist out))
      = std_msgs.stamp_sec (geometry_msgs.twist_header tw)
   /\ std_msgs.stamp_nanosec (geometry_msgs.twist_header (twist out))
      = std_msgs.stamp_nanosec (geometry_msgs.twist_header tw)
   /\ geometry_msgs.linear (twist out) = command_velocity (control_command_ (plugin out))
   /\ geometry_msgs.angular (twist out)
      = Eigen.Vector3 0 0 (yaw_speed (control_command_ (plugin out))))
  /\ (ok out = false -> twist out = tw).
Proof.
  intros out. subst out.
  cycle_cases dt tw s; cbn [ok twist plugin geometry_msgs.twist_header
    geometry_msgs.linear geometry_msgs.angular std_msgs.frame_id std_msgs.stamp_sec
    std_msgs.stamp_nanosec];
    (split; [intros Hok'; try discriminate Hok';
             repeat split; try reflexivity; apply Vector3d_eta
            | intros Hok'; try discriminate Hok'; reflexivity]).
Qed.


(** X3. Which regulator a cycle calls.  Each handle is after the call
    what it was, or has taken exactly one [computeControl]: the position
    regulator only in HOVER and POSITION mode, the velocity regulator only
    in SPEED mode without bypass, the trajectory regulator only in
    TRAJECTORY mode with its parameters read, the two speed-in-a-plane
    regulators only in SPEED_IN_A_PLANE mode (the 3-D one only without
    bypass), the yaw regulator only with yaw by angle and the yaw parameters
    read; each on the vehicle state and the reference the plugin holds. *)
Theorem computeOutput_regulator_calls (dt : double) (tw : geometry_msgs.TwistStamped)
    (s : Plugin) :
  let s' := plugin (computeOutput dt tw s) in
  let m := as2_msgs.control_mode (control_mode_in_ s) in
  (pid_3D_position_handler_ s' = pid_3D_position_handler_ s
   \/ (m = HOVER \/ m = POSITION)
      /\ pid_3D_position_handler_ s'
         = computeControl3D dt (position (uav_state_ s)) (position (control_ref_ s))
           :: pid_3D_position_handler_ s)
  /\ (pid_3D_velocity_handler_ s' = pid_3D_velocity_handler_ s
      \/ m = SPEED /\ use_bypass_ s = false
         /\ pid_3D_velocity_handler_ s'
            = computeControl3D dt (velocity (uav_state_ s)) (velocity (control_ref_ s))
              :: pid_3D_velocity_handler_ s)
  /\ (pid_3D_trajectory_handler_ s' = pid_3D_trajectory_handler_ s
      \/ m = TRAJECTORY /\ trajectory_controller_parameters_read (flags_ s) = true
         /\ pid_3D_trajectory_handler_ s'
            = computeControlTrajectory dt (position (uav_state_ s))
                (position (control_ref_ s)) (velocity (uav_state_ s))
                (velocity (control_ref_ s))
              :: pid_3D_trajectory_handler_ s)
  /\ (pid_3D_speed_in_a_plane_handler_ s' = pid_3D_speed_in_a_plane_handler_ s
      \/ m = SPEED_IN_A_PLANE /\ use_bypass_ s = false
         /\ pid_3D_speed_in_a_plane_handler_ s'
            = computeControl3D dt (velocity (uav_state_ s)) (velocity (control_ref_ s))
              :: pid_3D_speed_in_a_plane_handler_ s)
  /\ (pid_1D_speed_in_a_plane_handler_ s' = pid_1D_speed_in_a_plane_handler_ s
      \/ m = SPEED_IN_A_PLANE
         /\ pid_1D_speed_in_a_plane_handler_ s'
            = computeControl dt (Eigen.z (position (uav_state_ s)))
                (Eigen.z (position (control_ref_ s)))
              :: pid_1D_speed_in_a_plane_handler_ s)
  /\ (pid_yaw_handler_ s' = pid_yaw_handler_ s
      \/ as2_msgs.yaw_mode (control_mode_in_ s) = YAW_ANGLE
         /\ yaw_controller_parameters_read (flags_ s) = true
         /\ pid_yaw_handler_ s'
            = computeControlError dt
                (angleMinError (Eigen.x (yaw (control_ref_ s)))
                   (Eigen.x (yaw (uav_state_ s))))
              :: pid_yaw_handler_ s).
Proof.
  intros s' m. subst s' m.
  cycle_cases dt tw s;
    repeat match goal with
           | H : (_ =? _)%Z = true |- _ => apply Z.eqb_eq in H
           | H : negb _ = false |- _ => apply negb_false_iff in H
           end;
    repeat match goal with
           | |- _ /\ _ => split
           end;
    solve [left; reflexivity | right; repeat split; auto].
Qed.

(** X4. An accepted cycle starts from nothing: past the gate, the outcome
    of [computeOutput] does not depend on the command the plugin held
    before the call. *)
Theorem computeOutput_forgets_command (dt : double) (tw : geometry_msgs.TwistStamped)
    (s : Plugin) (c : UAV_command) :
  readiness_gate s = true ->
  computeOutput dt tw (with_control_command_ c s) = computeOutput dt tw s.
Proof.
  intros Hgate.
  assert (Hgate' : readiness_gate (with_control_command_ c s) = true) by exact Hgate.
  rewrite (computeOutput_gate_open dt tw s Hgate).
  rewrite (computeOutput_gate_open dt tw _ Hgate').
  replace (resetCommands (with_control_command_ c s)) with (resetCommands s)
    by (members; reflexivity).
  reflexivity.
Qed.

End CycleProperties.

(** A command left by an earlier cycle does not reach the next one. *)
Lemma computeOutput_forgets_command_witness :
  computeOutput (E := zero_gain_externals) 0.125 (twist_of Eigen.Zero 0)
    (with_control_command_
       {| command_velocity := Eigen.Vector3 9 9 9; yaw_speed := 9 |} speed_ready)
  = computeOutput (E := zero_gain_externals) 0.125 (twist_of Eigen.Zero 0) speed_ready.
Proof.
  apply (computeOutput_forgets_command (E := zero_gain_externals)).
  reflexivity.
Defined.

(** * The control cycle, mode by mode *)

Section CycleModes.

Context {E : Externals}.

Lemma case_labels_apart :
  case_labels_distinct ->
  (POSITION =? HOVER)%Z = false
  /\ (SPEED =? HOVER)%Z = false /\ (SPEED =? POSITION)%Z = false
  /\ (SPEED_IN_A_PLANE =? HOVER)%Z = false /\ (SPEED_IN_A_PLANE =? POSITION)%Z = false
  /\ (SPEED_IN_A_PLANE =? SPEED)%Z = false
  /\ (TRAJECTORY =? HOVER)%Z = false /\ (TRAJECTORY =? POSITION)%Z = false
  /\ (TRAJECTORY =? SPEED)%Z = false /\ (TRAJECTORY =? SPEED_IN_A_PLANE)%Z = false
  /\ (YAW_SPEED =? YAW_ANGLE)%Z = false.
Proof.
  unfold case_labels_distinct, known_control_modes, known_yaw_modes.
  intros [Hc Hy].
  repeat match goal with
         | H : NoDup (_ :: _) |- _ => apply NoDup_cons_iff in H; destruct H as [? H]
         end.
  cbn [In] in *.
  repeat split; apply Z.eqb_neq; intros Heq; rewrite Heq in *; tauto.
Qed.

(** The first switch in HOVER mode and in POSITION mode: the same body. *)
Lemma control_mode_switch_position (dt : double) (s : Plugin) :
  as2_msgs.control_mode (control_mode_in_ s) = HOVER
  \/ as2_msgs.control_mode (control_mode_in_ s) = POSITION ->
  control_mode_switch dt s
  = if negb (position_controller_parameters_read (flags_ s))
    then (false, s, [warn "Position controller parameters not read yet"])
    else
      let h := computeControl3D dt (position (uav_state_ s)) (position (control_ref_ s))
               :: pid_3D_position_handler_ s in
      (true, set_command_velocity (control_effort3D h) (with_pid_3D_position_handler_ h s),
       []).
Proof.
  unfold control_mode_switch. intros [-> | ->].
  - rewrite Z.eqb_refl. reflexivity.
  - rewrite Z.eqb_refl. destruct (POSITION =? HOVER)%Z; reflexivity.
Qed.

(** X5. HOVER and POSITION run the same cascade: two plugins that differ
    only in that one is in HOVER and the other in POSITION mode, with the
    same yaw mode, get from [computeOutput] the same flag, the same message,
    the same log, the same command and the same regulator calls. *)
Theorem hover_position_same_cascade (dt : double) (tw : geometry_msgs.TwistStamped)
    (s : Plugin) (m : as2_msgs.ControlMode) :
  as2_msgs.control_mode (control_mode_in_ s) = HOVER ->
  as2_msgs.control_mode m = POSITION ->
  as2_msgs.yaw_mode m = as2_msgs.yaw_mode (control_mode_in_ s) ->
  let a := computeOutput dt tw s in
  let b := computeOutput dt tw (with_control_mode_in_ m s) in
  ok a = ok b /\ twist a = twist b /\ logged a = logged b
  /\ control_command_ (plugin a) = control_command_ (plugin b)
  /\ pid_yaw_handler_ (plugin a) = pid_yaw_handler_ (plugin b)
  /\ pid_3D_position_handler_ (plugin a) = pid_3D_position_handler_ (plugin b)
  /\ pid_3D_velocity_handler_ (plugin a) = pid_3D_velocity_handler_ (plugin b)
  /\ pid_3D_trajectory_handler_ (plugin a) = pid_3D_trajectory_handler_ (plugin b)
  /\ pid_1D_speed_in_a_plane_handler_ (plugin a)
     = pid_1D_speed_in_a_plane_handler_ (plugin b)
  /\ pid_3D_speed_in_a_plane_handler_ (plugin a)
     = pid_3D_speed_in_a_plane_handler_ (plugin b).
Proof.
  intros Hhover Hposition Hyaw a b. subst a b.
  destruct (readiness_gate s) eqn:Hgate.
  - assert (Hgate' : readiness_gate (with_control_mode_in_ m s) = true) by exact Hgate.
    rewrite (computeOutput_gate_open dt tw s Hgate).
    rewrite (computeOutput_gate_open dt tw _ Hgate').
    rewrite (control_mode_switch_position dt (resetCommands s))
      by (left; exact Hhover).
    rewrite (control_mode_switch_position dt (resetCommands (with_control_mode_in_ m s)))
      by (right; exact Hposition).
    members.
    destruct (position_controller_parameters_read (flags_ s)); cbn [negb]; members;
      [| repeat split].
    unfold yaw_mode_switch, getOutput. members. rewrite Hyaw.
    repeat match goal with
           | |- context [if ?c then _ else _] => destruct c; members
           end;
      cbn [ok twist plugin logged]; members; repeat split.
  - assert (Hgate' : readiness_gate (with_control_mode_in_ m s) = false) by exact Hgate.
    destruct (computeOutput_gate_closed dt tw s Hgate) as (Ha & Hsa & Hta).
    destruct (computeOutput_gate_closed dt tw _ Hgate') as (Hb & Hsb & Htb).
    rewrite Ha, Hb, Hsa, Hsb, Hta, Htb.
    unfold computeOutput. unfold readiness_gate in Hgate.
    change (flags_ (with_control_mode_in_ m s)) with (flags_ s).
    destruct (state_received (flags_ s)), (plugin_parameters_read (flags_ s)),
      (position_controller_parameters_read (flags_ s)), (ref_received (flags_ s));
      try discriminate Hgate; repeat split.
Qed.

(** X6. TRAJECTORY mode without its parameters: past the gate the cycle
    is rejected with one warning, no regulator is called, and the plugin is
    what [resetCommands] leaves: the command is zero. *)
Theorem computeOutput_trajectory_unread (dt : double) (tw : geometry_msgs.TwistStamped)
    (s : Plugin) :
  case_labels_distinct ->
  readiness_gate s = true ->
  as2_msgs.control_mode (control_mode_in_ s) = TRAJECTORY ->
  trajectory_controller_parameters_read (flags_ s) = false ->
  computeOutput dt tw s
  = {| ok := false; twist := tw; plugin := resetCommands s;
       logged := [warn "Trajectory controller parameters not read yet"] |}.
Proof.
  intros Hlabels Hgate Hmode Hread.
  destruct (case_labels_apart Hlabels) as (_ & _ & _ & _ & _ & _ & H1 & H2 & H3 & H4 & _).
  rewrite (computeOutput_gate_open dt tw s Hgate).
  unfold control_mode_switch. members.
  rewrite Hmode, H1, H2, H3, H4, Z.eqb_refl, Hread. reflexivity.
Qed.

(** X7. Yaw by angle without the yaw parameters: past the gate the cycle
    is rejected, the yaw regulator is not called and the yaw rate command
    is zero, but the translational branch has run before the yaw switch.  In
    HOVER mode the position regulator has been called and its effort is
    the velocity command of the rejected cycle. *)
Theorem computeOutput_yaw_unread (dt : double) (tw : geometry_msgs.TwistStamped)
    (s : Plugin) :
  readiness_gate s = true ->
  as2_msgs.yaw_mode (control_mode_in_ s) = YAW_ANGLE ->
  yaw_controller_parameters_read (flags_ s) = false ->
  let out := computeOutput dt tw s in
  let h := computeControl3D dt (position (uav_state_ s)) (position (control_ref_ s))
           :: pid_3D_position_handler_ s in
  ok out = false
  /\ twist out = tw
  /\ pid_yaw_handler_ (plugin out) = pid_yaw_handler_ s
  /\ yaw_speed (control_command_ (plugin out)) = 0%float
  /\ (as2_msgs.control_mode (control_mode_in_ s) = HOVER ->
      pid_3D_position_handler_ (plugin out) = h
      /\ command_velocity (control_command_ (plugin out)) = control_effort3D h
      /\ logged out = [warn "Yaw controller parameters not read yet"]).
Proof.
  intros Hgate Hyaw Hread out h. subst out h.
  assert (Hposition : position_controller_parameters_read (flags_ s) = true).
  { unfold readiness_gate in Hgate.
    destruct (position_controller_parameters_read (flags_ s)); [reflexivity |].
    rewrite !andb_false_r in Hgate. discriminate Hgate. }
  rewrite (computeOutput_gate_open dt tw s Hgate).
  unfold control_mode_switch, yaw_mode_switch, getOutput. members.
  rewrite Hposition. cbn [negb].
  repeat match goal with
         | |- context [if ?c then _ else _] =>
             let Hc := fresh "Hc" in
             destruct c eqn:Hc; members;
             rewrite ?Hyaw, ?Z.eqb_refl, ?Hread; cbn [negb]; members
         end;
    cbn [ok twist plugin logged]; members;
    (split; [reflexivity |]); (split; [reflexivity |]);
    (split; [reflexivity |]); (split; [reflexivity |]);
    intros Hhover;
    first [ repeat split; reflexivity
          | rewrite Hhover, Z.eqb_refl in *; discriminate ].
Qed.

(** X8. SPEED with bypass and yaw by rate is a pure pass-through: the
    cycle is accepted, no regulator is called, nothing is logged, and the
    message carries the reference velocity and the reference yaw rate. *)
Theorem computeOutput_speed_bypass (dt : double) (tw : geometry_msgs.TwistStamped)
    (s : Plugin) :
  case_labels_distinct ->
  readiness_gate s = true ->
  as2_msgs.control_mode (control_mode_in_ s) = SPEED ->
  as2_msgs.yaw_mode (control_mode_in_ s) = YAW_SPEED ->
  use_bypass_ s = true ->
  let out := computeOutput dt tw s in
  ok out = true
  /\ logged out = []
  /\ geometry_msgs.linear (twist out) = velocity (control_ref_ s)
  /\ geometry_msgs.angular (twist out) = Eigen.Vector3 0 0 (Eigen.y (yaw (control_ref_ s)))
  /\ plugin out
     = with_control_command_
         {| command_velocity := velocity (control_ref_ s);
            yaw_speed := Eigen.y (yaw (control_ref_ s)) |} s.
Proof.
  intros Hlabels Hgate Hmode Hyaw Hbypass out. subst out.
  destruct (case_labels_apart Hlabels) as (_ & H1 & H2 & _ & _ & _ & _ & _ & _ & _ & H3).
  rewrite (computeOutput_gate_open dt tw s Hgate).
  unfold control_mode_switch. members.
  rewrite Hmode, H1, H2, Z.eqb_refl, Hbypass.
  unfold yaw_mode_switch, getOutput. members.
  rewrite Hyaw, H3, Z.eqb_refl. cbn [ok twist plugin logged app]. members.
  rewrite Vector3d_eta. repeat split.
Qed.

(** X9. SPEED_IN_A_PLANE composes two regulators: the 1-D regulator is
    always called on the measured and the reference height and gives the
    vertical command; the horizontal command is the effort of the 3-D
    regulator on the measured and the reference velocity, or with bypass the
    reference velocity itself, the 3-D regulator not being called.  This
    holds for every cycle past the gate, accepted or rejected by the yaw
    switch. *)
Theorem computeOutput_speed_in_a_plane (dt : double) (tw : geometry_msgs.TwistStamped)
    (s : Plugin) :
  case_labels_distinct ->
  readiness_gate s = true ->
  as2_msgs.control_mode (control_mode_in_ s) = SPEED_IN_A_PLANE ->
  let out := computeOutput dt tw s in
  let h1 := computeControl dt (Eigen.z (position (uav_state_ s)))
              (Eigen.z (position (control_ref_ s)))
            :: pid_1D_speed_in_a_plane_handler_ s in
  let h3 := computeControl3D dt (velocity (uav_state_ s)) (velocity (control_ref_ s))
            :: pid_3D_speed_in_a_plane_handler_ s in
  pid_1D_speed_in_a_plane_handler_ (plugin out) = h1
  /\ pid_3D_speed_in_a_plane_handler_ (plugin out)
     = (if use_bypass_ s then pid_3D_speed_in_a_plane_handler_ s else h3)
  /\ command_velocity (control_command_ (plugin out))
     = Eigen.set_z (control_effort h1)
         (if use_bypass_ s then velocity (control_ref_ s) else control_effort3D h3).
Proof.
  intros Hlabels Hgate Hmode out h1 h3. subst out h1 h3.
  destruct (case_labels_apart Hlabels) as (_ & _ & _ & H1 & H2 & H3 & _).
  rewrite (computeOutput_gate_open dt tw s Hgate).
  unfold control_mode_switch. members.
  rewrite Hmode, H1, H2, H3, Z.eqb_refl.
  unfold yaw_mode_switch, getOutput.
  destruct (use_bypass_ s); members;
    repeat match goal with
           | |- context [if ?c then _ else _] => destruct c; members
           end;
    cbn [ok twist plugin logged]; members; repeat split.
Qed.

End CycleModes.

(** A plugin in HOVER mode, and the same plugin put in POSITION mode. *)
Lemma hover_position_same_cascade_witness :
  let E := zero_gain_externals in
  let a := computeOutput 0.125 (twist_of Eigen.Zero 0) hover_ready in
  let b := computeOutput 0.125 (twist_of Eigen.Zero 0)
             (with_control_mode_in_ (mode POSITION YAW_ANGLE BODY_FLU_FRAME) hover_ready) in
  ok a = ok b /\ twist a = twist b /\ logged a = logged b
  /\ control_command_ (plugin a) = control_command_ (plugin b)
  /\ pid_yaw_handler_ (plugin a) = pid_yaw_handler_ (plugin b)
  /\ pid_3D_position_handler_ (plugin a) = pid_3D_position_handler_ (plugin b)
  /\ pid_3D_velocity_handler_ (plugin a) = pid_3D_velocity_handler_ (plugin b)
  /\ pid_3D_trajectory_handler_ (plugin a) = pid_3D_trajectory_handler_ (plugin b)
  /\ pid_1D_speed_in_a_plane_handler_ (plugin a)
     = pid_1D_speed_in_a_plane_handler_ (plugin b)
  /\ pid_3D_speed_in_a_plane_handler_ (plugin a)
     = pid_3D_speed_in_a_plane_handler_ (plugin b).
Proof.
  intros E.
  apply (hover_position_same_cascade (E := E) 0.125 (twist_of Eigen.Zero 0) hover_ready
           (mode POSITION YAW_ANGLE BODY_FLU_FRAME)); reflexivity.
Defined.

Lemma zero_gain_labels_distinct : case_labels_distinct (E := zero_gain_externals).
Proof.
  split; repeat constructor; cbn; intuition discriminate.
Qed.

(** TRAJECTORY mode entered and fed, its parameters never delivered. *)
Lemma computeOutput_trajectory_unread_witness :
  computeOutput (E := zero_gain_externals) 0.125 (twist_of Eigen.Zero 0) trajectory_ready
  = {| ok := false; twist := twist_of Eigen.Zero 0;
       plugin := resetCommands trajectory_ready;
       logged := [warn "Trajectory controller parameters not read yet"] |}.
Proof.
  apply (computeOutput_trajectory_unread (E := zero_gain_externals) 0.125
           (twist_of Eigen.Zero 0) trajectory_ready);
    [exact zero_gain_labels_distinct | vm_compute; reflexivity
    | vm_compute; reflexivity | vm_compute; reflexivity].
Defined.

(** HOVER entered from POSITION with a pose reference, yaw parameters
    never delivered. *)
Lemma computeOutput_yaw_unread_witness :
  let E := zero_gain_externals in
  let s := hover_ready in
  let out := computeOutput 0.125 (twist_of Eigen.Zero 0) s in
  let h := computeControl3D 0.125 (position (uav_state_ s)) (position (control_ref_ s))
           :: pid_3D_position_handler_ s in
  ok out = false
  /\ twist out = twist_of Eigen.Zero 0
  /\ pid_yaw_handler_ (plugin out) = pid_yaw_handler_ s
  /\ yaw_speed (control_command_ (plugin out)) = 0%float
  /\ pid_3D_position_handler_ (plugin out) = h
  /\ command_velocity (control_command_ (plugin out)) = control_effort3D h
  /\ logged out = [warn "Yaw controller parameters not read yet"].
Proof.
  intros E s out h.
  assert (Hgate : readiness_gate s = true) by (vm_compute; reflexivity).
  assert (Hyaw : as2_msgs.yaw_mode (control_mode_in_ s) = YAW_ANGLE)
    by (vm_compute; reflexivity).
  assert (Hread : yaw_controller_parameters_read (flags_ s) = false)
    by (vm_compute; reflexivity).
  assert (Hhover : as2_msgs.control_mode (control_mode_in_ s) = HOVER)
    by (vm_compute; reflexivity).
  destruct (computeOutput_yaw_unread (E := E) 0.125 (twist_of Eigen.Zero 0) s
              Hgate Hyaw Hread) as (H1 & H2 & H3 & H4 & H5).
  exact (conj H1 (conj H2 (conj H3 (conj H4 (H5 Hhover))))).
Defined.

(** [speed_bypass]: reference velocity (1, 0, 0), reference yaw rate 0.5. *)
Lemma computeOutput_speed_bypass_witness :
  let E := zero_gain_externals in
  let s := speed_bypass in
  let out := computeOutput 0.125 (twist_of Eigen.Zero 0) s in
  ok out = true
  /\ logged out = []
  /\ geometry_msgs.linear (twist out) = velocity (control_ref_ s)
  /\ geometry_msgs.angular (twist out) = Eigen.Vector3 0 0 (Eigen.y (yaw (control_ref_ s)))
  /\ plugin out
     = with_control_command_
         {| command_velocity := velocity (control_ref_ s);
            yaw_speed := Eigen.y (yaw (control_ref_ s)) |} s.
Proof.
  intros E s.
  apply (computeOutput_speed_bypass (E := E) 0.125 (twist_of Eigen.Zero 0) s);
    [exact zero_gain_labels_distinct | vm_compute; reflexivity | vm_compute; reflexivity
    | vm_compute; reflexivity | vm_compute; reflexivity].
Defined.

(** [plane_ready]: height 1 measured, height 3 asked, no bypass. *)
Lemma computeOutput_speed_in_a_plane_witness :
  let E := zero_gain_externals in
  let s := plane_ready in
  let out := computeOutput 0.125 (twist_of Eigen.Zero 0) s in
  let h1 := computeControl 0.125 (Eigen.z (position (uav_state_ s)))
              (Eigen.z (position (control_ref_ s)))
            :: pid_1D_speed_in_a_plane_handler_ s in
  let h3 := computeControl3D 0.125 (velocity (uav_state_ s)) (velocity (control_ref_ s))
            :: pid_3D_speed_in_a_plane_handler_ s in
  pid_1D_speed_in_a_plane_handler_ (plugin out) = h1
  /\ pid_3D_speed_in_a_plane_handler_ (plugin out)
     = (if use_bypass_ s then pid_3D_speed_in_a_plane_handler_ s else h3)
  /\ command_velocity (control_command_ (plugin out))
     = Eigen.set_z (control_effort h1)
         (if use_bypass_ s then velocity (control_ref_ s) else control_effort3D h3).
Proof.
  intros E s.
  apply (computeOutput_speed_in_a_plane (E := E) 0.125 (twist_of Eigen.Zero 0) s);
    [exact zero_gain_labels_distinct | vm_compute; reflexivity | vm_compute; reflexivity].
Defined.

(** * References and mode switches *)

Section References.

Context {E : Externals}.

(** X10. What a pose reference does in each mode.  Outside POSITION, SPEED
    and SPEED_IN_A_PLANE it is ignored altogether.  In SPEED mode it writes
    neither the reference position nor any flag, so it never opens the
    gate, and without yaw by angle it is ignored too.  In POSITION and
    SPEED_IN_A_PLANE mode it sets the reference position and
    [ref_received] and leaves the reference velocity.  In every mode the
    yaw rate and yaw acceleration of the reference, the vehicle state, the
    command and each of the six regulators are left alone. *)
Theorem updateReference_pose_filter (pose_msg : geometry_msgs.PoseStamped) (s : Plugin) :
  case_labels_distinct ->
  let s' := updateReference_pose pose_msg s in
  let m := as2_msgs.control_mode (control_mode_in_ s) in
  (m <> POSITION -> m <> SPEED -> m <> SPEED_IN_A_PLANE -> s' = s)
  /\ (m = SPEED ->
      flags_ s' = flags_ s
      /\ position (control_ref_ s') = position (control_ref_ s)
      /\ (as2_msgs.yaw_mode (control_mode_in_ s) <> YAW_ANGLE -> s' = s))
  /\ (m = POSITION \/ m = SPEED_IN_A_PLANE ->
      ref_received (flags_ s') = true
      /\ position (control_ref_ s') = geometry_msgs.position pose_msg)
  /\ velocity (control_ref_ s') = velocity (control_ref_ s)
  /\ Eigen.y (yaw (control_ref_ s')) = Eigen.y (yaw (control_ref_ s))
  /\ Eigen.z (yaw (control_ref_ s')) = Eigen.z (yaw (control_ref_ s))
  /\ uav_state_ s' = uav_state_ s
  /\ control_command_ s' = control_command_ s
  /\ pid_yaw_handler_ s' = pid_yaw_handler_ s
  /\ pid_3D_position_handler_ s' = pid_3D_position_handler_ s
  /\ pid_3D_velocity_handler_ s' = pid_3D_velocity_handler_ s
  /\ pid_1D_speed_in_a_plane_handler_ s' = pid_1D_speed_in_a_plane_handler_ s
  /\ pid_3D_speed_in_a_plane_handler_ s' = pid_3D_speed_in_a_plane_handler_ s
  /\ pid_3D_trajectory_handler_ s' = pid_3D_trajectory_handler_ s.
Proof.
  intros Hlabels s' m. subst s' m.
  destruct (case_labels_apart Hlabels) as (_ & _ & H1 & _ & _ & H2 & _).
  unfold updateReference_pose.
  destruct (as2_msgs.control_mode (control_mode_in_ s) =? POSITION)%Z eqn:Hp;
    destruct (as2_msgs.control_mode (control_mode_in_ s) =? SPEED_IN_A_PLANE)%Z eqn:Hq;
    destruct (as2_msgs.control_mode (control_mode_in_ s) =? SPEED)%Z eqn:Hs;
    cbn [orb]; members; rewrite ?Hp, ?Hq, ?Hs; cbn [orb andb];
    destruct (as2_msgs.yaw_mode (control_mode_in_ s) =? YAW_ANGLE)%Z eqn:Hy; members;
    rewrite ?Vector3d_eta;
    repeat match goal with
           | H : (_ =? _)%Z = true |- _ => apply Z.eqb_eq in H
           | H : (_ =? _)%Z = false |- _ => apply Z.eqb_neq in H
           end;
    repeat match goal with
           | |- _ /\ _ => split
           | |- _ -> _ => intro
           | H : _ \/ _ |- _ => destruct H
           end;
    solve [reflexivity | congruence].
Qed.


(** X11. A twist reference in SPEED and SPEED_IN_A_PLANE mode sets the
    reference velocity and [ref_received]; it sets the reference yaw rate
    when the yaw mode is yaw by rate and leaves it otherwise; it writes
    neither the reference position, the reference yaw angle, the speed
    limits nor any of the six regulators. *)
Theorem updateReference_twist_speed (twist_msg : geometry_msgs.TwistStamped) (s : Plugin) :
  case_labels_distinct ->
  as2_msgs.control_mode (control_mode_in_ s) = SPEED
  \/ as2_msgs.control_mode (control_mode_in_ s) = SPEED_IN_A_PLANE ->
  let s' := updateReference_twist twist_msg s in
  velocity (control_ref_ s') = geometry_msgs.linear twist_msg
  /\ ref_received (flags_ s') = true
  /\ Eigen.y (yaw (control_ref_ s'))
     = (if (as2_msgs.yaw_mode (control_mode_in_ s) =? YAW_SPEED)%Z
        then Eigen.z (geometry_msgs.angular twist_msg)
        else Eigen.y (yaw (control_ref_ s)))
  /\ position (control_ref_ s') = position (control_ref_ s)
  /\ Eigen.x (yaw (control_ref_ s')) = Eigen.x (yaw (control_ref_ s))
  /\ speed_limits_ s' = speed_limits_ s
  /\ pid_yaw_handler_ s' = pid_yaw_handler_ s
  /\ pid_3D_position_handler_ s' = pid_3D_position_handler_ s
  /\ pid_3D_velocity_handler_ s' = pid_3D_velocity_handler_ s
  /\ pid_1D_speed_in_a_plane_handler_ s' = pid_1D_speed_in_a_plane_handler_ s
  /\ pid_3D_speed_in_a_plane_handler_ s' = pid_3D_speed_in_a_plane_handler_ s
  /\ pid_3D_trajectory_handler_ s' = pid_3D_trajectory_handler_ s.
Proof.
  intros Hlabels Hmode s'. subst s'.
  destruct (case_labels_apart Hlabels) as (_ & _ & H1 & _ & H2 & H3 & _).
  unfold updateReference_twist.
  destruct Hmode as [Hmode | Hmode]; rewrite Hmode, ?H1, ?H2, ?H3, ?Z.eqb_refl;
    cbn [negb andb]; members;
    destruct (as2_msgs.yaw_mode (control_mode_in_ s) =? YAW_SPEED)%Z; members;
    rewrite Vector3d_eta; repeat split.
Qed.

(** X12. A trajectory point outside TRAJECTORY mode is ignored, whatever
    its length.  In TRAJECTORY mode the call is defined exactly when the
    point has at least four positions, four velocities and four
    accelerations, and then the reference position and velocity are the first
    three positions and velocities, the reference yaw vector is the fourth
    position, velocity and acceleration, and [ref_received] is set. *)
Theorem updateReference_trajectory_defined (traj_msg : trajectory_msgs.JointTrajectoryPoint)
    (s : Plugin) :
  let P := trajectory_msgs.positions traj_msg in
  let V := trajectory_msgs.velocities traj_msg in
  let A := trajectory_msgs.accelerations traj_msg in
  (as2_msgs.control_mode (control_mode_in_ s) <> TRAJECTORY ->
   updateReference_trajectory traj_msg s = Some s)
  /\ (as2_msgs.control_mode (control_mode_in_ s) = TRAJECTORY ->
      (updateReference_trajectory traj_msg s <> None <->
       (4 <= List.length P /\ 4 <= List.length V /\ 4 <= List.length A)%nat)
      /\ forall s', updateReference_trajectory traj_msg s = Some s' ->
         ref_received (flags_ s') = true
         /\ position (control_ref_ s')
            = Eigen.Vector3 (nth 0 P 0%float) (nth 1 P 0%float) (nth 2 P 0%float)
         /\ velocity (control_ref_ s')
            = Eigen.Vector3 (nth 0 V 0%float) (nth 1 V 0%float) (nth 2 V 0%float)
         /\ yaw (control_ref_ s')
            = Eigen.Vector3 (nth 3 P 0%float) (nth 3 V 0%float) (nth 3 A 0%float)).
Proof.
  intros P V A. subst P V A. unfold updateReference_trajectory. split.
  - intros Hmode. apply Z.eqb_neq in Hmode. rewrite Hmode. reflexivity.
  - intros Hmode. rewrite Hmode, Z.eqb_refl. cbn [negb].
    repeat match goal with
           | |- context [match nth_error ?l ?n with _ => _ end] =>
               let Hn := fresh "Hn" in
               destruct (nth_error l n) eqn:Hn;
               [ pose proof (nth_error_nth _ _ 0%float Hn);
                 assert (n < List.length l)%nat by (apply nth_error_Some; congruence)
               | apply nth_error_None in Hn ]
           end;
      (split;
       [ split; [intros Hdef; try (exfalso; apply Hdef; reflexivity); lia
                | intros Hlen; try lia; discriminate ]
       | intros s' Hs'; try discriminate Hs'; injection Hs' as <-; members;
         repeat split; subst; reflexivity ]).
Qed.

Lemma setMode_to_other_mode (in_mode out_mode : as2_msgs.ControlMode) (s : Plugin) :
  as2_msgs.control_mode in_mode <> HOVER ->
  control_mode_in_ (fst (setMode in_mode out_mode s)) = in_mode
  /\ flags_ (fst (setMode in_mode out_mode s))
     = with_state_received false (with_ref_received false (flags_ s)).
Proof.
  intros Hmode. apply Z.eqb_neq in Hmode. unfold setMode. rewrite Hmode. members.
  repeat match goal with
         | |- context [if ?c then _ else _] => destruct c; members
         end; split; reflexivity.
Qed.

(** X13. A mode switch forces a new handshake.  After [setMode] to any mode
    but HOVER, [computeOutput] rejects the cycle and leaves the plugin
    untouched, and it still does after a state update alone: no command
    comes out before a reference has been accepted in the new mode. *)
Theorem setMode_then_computeOutput_rejects (in_mode out_mode : as2_msgs.ControlMode)
    (pose_msg : geometry_msgs.PoseStamped) (twist_msg tw : geometry_msgs.TwistStamped)
    (dt : double) (s : Plugin) :
  as2_msgs.control_mode in_mode <> HOVER ->
  let s1 := fst (setMode in_mode out_mode s) in
  let s2 := updateState pose_msg twist_msg s1 in
  ok (computeOutput dt tw s1) = false
  /\ plugin (computeOutput dt tw s1) = s1
  /\ ok (computeOutput dt tw s2) = false
  /\ plugin (computeOutput dt tw s2) = s2.
Proof.
  intros Hmode s1 s2.
  destruct (setMode_to_other_mode in_mode out_mode s Hmode) as [_ Hflags].
  fold s1 in Hflags.
  assert (H1 : readiness_gate s1 = false).
  { unfold readiness_gate. rewrite Hflags. reflexivity. }
  assert (H2 : readiness_gate s2 = false).
  { unfold readiness_gate, s2, updateState. members. rewrite Hflags. members.
    rewrite !andb_false_r. reflexivity. }
  destruct (computeOutput_gate_closed dt tw s1 H1) as (Ha & Hb & _).
  destruct (computeOutput_gate_closed dt tw s2 H2) as (Hc & Hd & _).
  repeat split; assumption.
Qed.

(** X14. The handshake in SPEED and SPEED_IN_A_PLANE mode: after
    [setMode], a state update and a twist reference, the gate is open
    exactly when the plugin parameters and the position-controller
    parameters were read.  The velocity parameters play no part in it. *)
Theorem speed_handshake_opens_gate (in_mode out_mode : as2_msgs.ControlMode)
    (pose_msg : geometry_msgs.PoseStamped) (twist_msg ref_msg : geometry_msgs.TwistStamped)
    (s : Plugin) :
  case_labels_distinct ->
  as2_msgs.control_mode in_mode = SPEED
  \/ as2_msgs.control_mode in_mode = SPEED_IN_A_PLANE ->
  readiness_gate
    (updateReference_twist ref_msg
       (updateState pose_msg twist_msg (fst (setMode in_mode out_mode s))))
  = plugin_parameters_read (flags_ s) && position_controller_parameters_read (flags_ s).
Proof.
  intros Hlabels Hmode.
  destruct (case_labels_apart Hlabels) as (_ & H1 & H2 & H3 & H4 & H5 & _).
  assert (Hother : as2_msgs.control_mode in_mode <> HOVER).
  { apply Z.eqb_neq. destruct Hmode as [-> | ->]; assumption. }
  destruct (setMode_to_other_mode in_mode out_mode s Hother) as [Hin Hflags].
  set (s1 := fst (setMode in_mode out_mode s)) in *. clearbody s1.
  unfold readiness_gate, updateReference_twist, updateState. members.
  rewrite Hin, Hflags.
  destruct Hmode as [Hmode | Hmode]; rewrite Hmode, ?H2, ?H4, ?H5, ?Z.eqb_refl;
    cbn [negb andb]; members;
    destruct (as2_msgs.yaw_mode in_mode =? YAW_SPEED)%Z; members;
    rewrite andb_true_r; reflexivity.
Qed.


(** X15. The frames [setMode] selects.  In SPEED and SPEED_IN_A_PLANE mode
    the pose frame is the ENU frame, and the input and the output twist
    frame are both the body frame when the output mode asks for
    BODY_FLU_FRAME and both the ENU frame for every other value.  In HOVER
    mode no frame is assigned.  The two frame names themselves are never
    written. *)
Theorem setMode_speed_frames (in_mode out_mode : as2_msgs.ControlMode) (s : Plugin) :
  case_labels_distinct ->
  let s' := fst (setMode in_mode out_mode s) in
  (as2_msgs.control_mode in_mode = SPEED
   \/ as2_msgs.control_mode in_mode = SPEED_IN_A_PLANE ->
   getDesiredPoseFrameId s' = enu_frame_id_ s
   /\ getDesiredTwistFrameId s'
      = (if (as2_msgs.reference_frame out_mode =? BODY_FLU_FRAME)%Z
         then flu_frame_id_ s else enu_frame_id_ s)
   /\ output_twist_frame_id_ s' = getDesiredTwistFrameId s')
  /\ (as2_msgs.control_mode in_mode = HOVER ->
      getDesiredPoseFrameId s' = getDesiredPoseFrameId s
      /\ getDesiredTwistFrameId s' = getDesiredTwistFrameId s
      /\ output_twist_frame_id_ s' = output_twist_frame_id_ s)
  /\ enu_frame_id_ s' = enu_frame_id_ s
  /\ flu_frame_id_ s' = flu_frame_id_ s
  /\ control_mode_out_ s' = out_mode.
Proof.
  intros Hlabels s'. subst s'.
  pose proof (case_labels_apart Hlabels) as Hapart.
  unfold setMode.
  destruct (as2_msgs.control_mode in_mode =? HOVER)%Z eqn:Hhover; members;
    repeat match goal with
           | |- context [if ?c then _ else _] =>
               let Hc := fresh "Hc" in destruct c eqn:Hc; members
           end;
    repeat match goal with
           | H : _ /\ _ |- _ => destruct H
           | H : (_ || _) = true |- _ => apply orb_true_iff in H; destruct H
           | H : (_ || _) = false |- _ => apply orb_false_iff in H
           | H : (_ =? _)%Z = true |- _ => apply Z.eqb_eq in H
           | H : (_ =? _)%Z = false |- _ => apply Z.eqb_neq in H
           end;
    repeat match goal with
           | |- _ /\ _ => split
           | |- _ -> _ => intro
           | H : _ \/ _ |- _ => destruct H
           end;
    cbn [as2_msgs.control_mode as2_msgs.yaw_mode as2_msgs.reference_frame] in *;
    solve [reflexivity | congruence].
Qed.

End References.

(** SPEED mode set on a configured plugin, then a pose reference. *)
Lemma updateReference_pose_filter_witness :
  let E := zero_gain_externals in
  let s := fst (setMode (mode SPEED YAW_SPEED LOCAL_ENU_FRAME)
                  (mode SPEED YAW_SPEED LOCAL_ENU_FRAME) configured) in
  let s' := updateReference_pose (pose_at (Eigen.Vector3 1 2 3)) s in
  as2_msgs.control_mode (control_mode_in_ s) = SPEED
  /\ as2_msgs.yaw_mode (control_mode_in_ s) <> YAW_ANGLE
  /\ flags_ s' = flags_ s
  /\ position (control_ref_ s') = position (control_ref_ s)
  /\ s' = s.
Proof.
  intros E s s'.
  assert (Hmode : as2_msgs.control_mode (control_mode_in_ s) = SPEED)
    by (vm_compute; reflexivity).
  assert (Hyaw : as2_msgs.yaw_mode (control_mode_in_ s) <> YAW_ANGLE)
    by (vm_compute; discriminate).
  destruct (updateReference_pose_filter (E := E) (pose_at (Eigen.Vector3 1 2 3)) s
              zero_gain_labels_distinct) as (_ & Hspeed & _).
  destruct (Hspeed Hmode) as (Hflags & Hposition & Hsame).
  exact (conj Hmode (conj Hyaw (conj Hflags (conj Hposition (Hsame Hyaw))))).
Defined.

(** The twist reference of [speed_ready], on the plugin it was given to. *)
Lemma updateReference_twist_speed_witness :
  let E := zero_gain_externals in
  let twist_msg := twist_of (Eigen.Vector3 1 0 0) 0.5 in
  let s := updateState (pose_at Eigen.Zero) (twist_of Eigen.Zero 0)
             (fst (setMode (mode SPEED YAW_SPEED LOCAL_ENU_FRAME)
                     (mode SPEED YAW_SPEED LOCAL_ENU_FRAME) configured)) in
  let s' := updateReference_twist twist_msg s in
  velocity (control_ref_ s') = geometry_msgs.linear twist_msg
  /\ ref_received (flags_ s') = true
  /\ Eigen.y (yaw (control_ref_ s'))
     = (if (as2_msgs.yaw_mode (control_mode_in_ s) =? YAW_SPEED)%Z
        then Eigen.z (geometry_msgs.angular twist_msg)
        else Eigen.y (yaw (control_ref_ s)))
  /\ position (control_ref_ s') = position (control_ref_ s)
  /\ Eigen.x (yaw (control_ref_ s')) = Eigen.x (yaw (control_ref_ s))
  /\ speed_limits_ s' = speed_limits_ s
  /\ pid_yaw_handler_ s' = pid_yaw_handler_ s
  /\ pid_3D_position_handler_ s' = pid_3D_position_handler_ s
  /\ pid_3D_velocity_handler_ s' = pid_3D_velocity_handler_ s
  /\ pid_1D_speed_in_a_plane_handler_ s' = pid_1D_speed_in_a_plane_handler_ s
  /\ pid_3D_speed_in_a_plane_handler_ s' = pid_3D_speed_in_a_plane_handler_ s
  /\ pid_3D_trajectory_handler_ s' = pid_3D_trajectory_handler_ s.
Proof.
  intros E twist_msg s.
  apply (updateReference_twist_speed (E := E) twist_msg s zero_gain_labels_distinct).
  left. vm_compute. reflexivity.
Defined.

(** From a plugin with an open gate, a switch to POSITION mode. *)
Lemma setMode_then_computeOutput_rejects_witness :
  let E := zero_gain_externals in
  let s1 := fst (setMode (mode POSITION YAW_ANGLE LOCAL_ENU_FRAME)
                   (mode POSITION YAW_ANGLE LOCAL_ENU_FRAME) speed_ready) in
  let s2 := updateState (pose_at Eigen.Zero) (twist_of Eigen.Zero 0) s1 in
  readiness_gate speed_ready = true
  /\ ok (computeOutput 0.125 (twist_of Eigen.Zero 0) s1) = false
  /\ plugin (computeOutput 0.125 (twist_of Eigen.Zero 0) s1) = s1
  /\ ok (computeOutput 0.125 (twist_of Eigen.Zero 0) s2) = false
  /\ plugin (computeOutput 0.125 (twist_of Eigen.Zero 0) s2) = s2.
Proof.
  intros E. split; [vm_compute; reflexivity |].
  apply (setMode_then_computeOutput_rejects (E := E)
           (mode POSITION YAW_ANGLE LOCAL_ENU_FRAME)
           (mode POSITION YAW_ANGLE LOCAL_ENU_FRAME)
           (pose_at Eigen.Zero) (twist_of Eigen.Zero 0) (twist_of Eigen.Zero 0) 0.125
           speed_ready).
  vm_compute. discriminate.
Defined.

(** The handshake that led to [speed_ready], on a plugin whose velocity
    parameters were never delivered. *)
Lemma speed_handshake_opens_gate_witness :
  let E := zero_gain_externals in
  velocity_controller_parameters_read (flags_ configured) = false
  /\ readiness_gate
       (updateReference_twist (twist_of (Eigen.Vector3 1 0 0) 0.5)
          (updateState (pose_at Eigen.Zero) (twist_of Eigen.Zero 0)
             (fst (setMode (mode SPEED YAW_SPEED LOCAL_ENU_FRAME)
                     (mode SPEED YAW_SPEED LOCAL_ENU_FRAME) configured))))
     = plugin_parameters_read (flags_ configured)
       && position_controller_parameters_read (flags_ configured).
Proof.
  intros E. split; [vm_compute; reflexivity |].
  apply (speed_handshake_opens_gate (E := E) (mode SPEED YAW_SPEED LOCAL_ENU_FRAME)
           (mode SPEED YAW_SPEED LOCAL_ENU_FRAME) (pose_at Eigen.Zero)
           (twist_of Eigen.Zero 0) (twist_of (Eigen.Vector3 1 0 0) 0.5) configured
           zero_gain_labels_distinct).
  left. reflexivity.
Defined.

(** SPEED mode asked for in the body frame. *)
Lemma setMode_speed_frames_witness :
  let E := zero_gain_externals in
  let s' := fst (setMode (mode SPEED YAW_SPEED BODY_FLU_FRAME)
                   (mode SPEED YAW_SPEED BODY_FLU_FRAME) configured) in
  getDesiredPoseFrameId s' = enu_frame_id_ configured
  /\ getDesiredTwistFrameId s'
     = (if (as2_msgs.reference_frame (mode SPEED YAW_SPEED BODY_FLU_FRAME)
            =? BODY_FLU_FRAME)%Z
        then flu_frame_id_ configured else enu_frame_id_ configured)
  /\ output_twist_frame_id_ s' = getDesiredTwistFrameId s'.
Proof.
  intros E s'.
  destruct (setMode_speed_frames (E := E) (mode SPEED YAW_SPEED BODY_FLU_FRAME)
              (mode SPEED YAW_SPEED BODY_FLU_FRAME) configured
              zero_gain_labels_distinct) as (Hspeed & _).
  apply Hspeed. left. reflexivity.
Defined.

(** * Further properties of the parameter callback *)

Section CallbackProperties.

(** X16. [checkParamList] removes every occurrence of the name and keeps
    the other names in their order; the flag comes out true exactly when it
    was true already or the list held no other name; and a second call with
    the same name changes nothing. *)
Theorem checkParamList_effect (param : string) (l : list string) (f : bool) :
  let r := checkParamList param l f in
  fst r = filter (fun n => negb (n =? param)) l
  /\ ~ In param (fst r)
  /\ (snd r = true <-> f = true \/ forall n, In n l -> n = param)
  /\ checkParamList param (fst r) (snd r) = r.
Proof.
  intros r. subst r. rewrite checkParamList_remove. cbn [fst snd].
  assert (Hempty : remove string_dec param l = [] <-> forall n, In n l -> n = param).
  { split.
    - intros Hnil n Hn. destruct (string_dec n param) as [Heq | Hne]; [exact Heq |].
      assert (Hin : In n (remove string_dec param l)) by (apply in_in_remove; assumption).
      rewrite Hnil in Hin. destruct Hin.
    - intros Hall. destruct (remove string_dec param l) as [| a l'] eqn:Hr; [reflexivity |].
      assert (Ha : In a (remove string_dec param l)) by (rewrite Hr; left; reflexivity).
      apply in_remove in Ha. destruct Ha as [Hin Hne].
      exfalso. apply Hne. apply Hall. exact Hin. }
  split; [apply remove_filter |]. split; [apply remove_In |]. split.
  - destruct (remove string_dec param l) as [| a l'] eqn:Hr; cbn [List.length Nat.eqb].
    + split; [intros _; right; apply Hempty; reflexivity | reflexivity].
    + split; [intros Hf; left; exact Hf |].
      intros [Hf | Hall]; [exact Hf |]. apply Hempty in Hall. discriminate Hall.
  - rewrite checkParamList_remove.
    rewrite (notin_remove string_dec _ _ (remove_In string_dec l param)).
    destruct (List.length (remove string_dec param l) =? 0)%nat; reflexivity.
Qed.

(** X17. What a call has done when it ends.  Its effect on the plugin is
    that of the parameters it went through, and on those alone it returns.
    When every parameter of a first list is readable, one call on two lists
    in a row is the call on the second after the call on the first. *)
Theorem parametersCallback_prefix_and_append (ps1 ps2 : list rclcpp.Parameter_)
    (s : Plugin) :
  fst (parametersCallback ps1 s) = fst (parametersCallback (processed ps1) s)
  /\ snd (parametersCallback (processed ps1) s) = Returned success
  /\ (forallb readable ps1 = true ->
      parametersCallback (ps1 ++ ps2) s
      = parametersCallback ps2 (fst (parametersCallback ps1 s))).
Proof.
  split; [| split].
  - rewrite !parametersCallback_fst. revert s.
    induction ps1 as [| p rest IH]; intros s; [reflexivity |].
    cbn [processed]. rewrite parametersCallback_loop_cons.
    destruct (readable p) eqn:Hp.
    + rewrite parametersCallback_loop_cons, Hp. apply IH.
    + reflexivity.
  - rewrite parametersCallback_outcome.
    assert (Hnone : find (fun p => negb (readable p)) (processed ps1) = None).
    { induction ps1 as [| p rest IH]; [reflexivity |].
      cbn [processed]. destruct (readable p) eqn:Hp; [| reflexivity].
      cbn [find]. rewrite Hp. exact IH. }
    rewrite Hnone. reflexivity.
  - intros Hall. rewrite parametersCallback_fst. unfold parametersCallback.
    revert s. induction ps1 as [| p rest IH]; intros s; [reflexivity |].
    cbn [forallb] in Hall. apply andb_true_iff in Hall. destruct Hall as [Hp Hrest].
    cbn [app]. rewrite !parametersCallback_loop_cons, Hp. apply IH. exact Hrest.
Qed.


Ltac kept_facts :=
  unfold check_plugin_parameters, check_position_control_parameters,
    check_velocity_control_parameters, check_speed_in_a_plane_control_parameters,
    check_trajectory_control_parameters, check_yaw_control_parameters, checkParamList;
  members;
  repeat match goal with
         | |- context [negb ?f] => destruct f; cbn [negb]; members
         end;
  (split;
   [ unfold operation_kept; members; repeat split
   | let g := fresh "g" in
     let Hg := fresh "Hg" in
     intros g Hg; destruct g; cbn [Group_eqb] in Hg; try discriminate Hg; reflexivity ]).

(** One iteration of the loop writes nothing outside the configuration,
    and inside it only what belongs to the group the name reaches. *)
Lemma parametersCallback_body_kept (p : rclcpp.Parameter_) (s : Plugin) :
  operation_kept s (fst (parametersCallback_body p s))
  /\ forall g : Group,
      reaches g (rclcpp.get_name p) = false ->
      group_config g (fst (parametersCallback_body p s)) = group_config g s.
Proof.
  unfold parametersCallback_body, reaches, group_of, group_config.
  set (name := rclcpp.get_name p).
  destruct (name =? "proportional_limitation").
  { destruct (rclcpp.get_value_bool p); cbn [fst]; kept_facts. }
  destruct (name =? "use_bypass").
  { destruct (rclcpp.get_value_bool p); cbn [fst]; kept_facts. }
  destruct (controller_of name =? "position_control").
  { destruct (updateController3DParameter _ _ _); cbn [fst]; kept_facts. }
  destruct (controller_of name =? "velocity_control").
  { destruct (updateController3DParameter _ _ _); cbn [fst]; kept_facts. }
  destruct (controller_of name =? "speed_in_a_plane_control").
  { destruct (updateSpeedInAPlaneParameter _ _ _ _) as [[h1 h3] | e]; cbn [fst];
      kept_facts. }
  destruct (controller_of name =? "trajectory_control").
  { destruct (updateController3DParameter _ _ _); cbn [fst]; kept_facts. }
  destruct (controller_of name =? "yaw_control").
  { destruct (updateControllerParameter _ _ _); cbn [fst]; kept_facts. }
  cbn [fst]. kept_facts.
Qed.

Lemma operation_kept_refl (s : Plugin) : operation_kept s s.
Proof. unfold operation_kept. repeat split. Qed.

Lemma operation_kept_trans (s1 s2 s3 : Plugin) :
  operation_kept s1 s2 -> operation_kept s2 s3 -> operation_kept s1 s3.
Proof.
  unfold operation_kept. intros H12 H23.
  repeat match goal with
         | H : _ /\ _ |- _ => destruct H
         end.
  repeat split; congruence.
Qed.

Lemma parametersCallback_loop_kept (g : Group) (ps : list rclcpp.Parameter_) (s : Plugin) :
  operation_kept s (fst (parametersCallback_loop ps s))
  /\ (filter (reaches g) (map rclcpp.get_name (processed ps)) = [] ->
      group_config g (fst (parametersCallback_loop ps s)) = group_config g s).
Proof.
  revert s. induction ps as [| p rest IH]; intros s.
  - split; [apply operation_kept_refl | reflexivity].
  - rewrite parametersCallback_loop_cons. cbn [processed].
    destruct (readable p).
    + destruct (parametersCallback_body_kept p s) as [Hkept Hconfig].
      destruct (IH (fst (parametersCallback_body p s))) as [Hkept' Hconfig'].
      split; [exact (operation_kept_trans _ _ _ Hkept Hkept') |].
      cbn [map filter]. intros Hnone.
      destruct (reaches g (rclcpp.get_name p)) eqn:Hreach; [discriminate Hnone |].
      rewrite (Hconfig' Hnone). apply Hconfig. exact Hreach.
    + split; [apply operation_kept_refl | reflexivity].
Qed.

(** X18. Parameter updates touch the configuration only: after any
    sequence of [parametersCallback] calls, returned or raised, the modes,
    [state_received] and [ref_received], the vehicle state, the reference,
    the command, the speed limits and the frames are what they were. *)
Theorem parametersCallback_keeps_operation (calls : list (list rclcpp.Parameter_))
    (s : Plugin) :
  operation_kept s (parametersCallback_calls calls s).
Proof.
  unfold parametersCallback_calls. revert s.
  induction calls as [| ps calls IH]; intros s; [apply operation_kept_refl |].
  cbn [fold_left]. apply (operation_kept_trans _ (fst (parametersCallback ps s))).
  - rewrite parametersCallback_fst. apply (parametersCallback_loop_kept PluginGroup).
  - apply IH.
Qed.

(** X19. Parameters configure their own group only: when none of the
    names a sequence of calls went through takes the branch of group [g],
    the regulators of [g] have received no call and, for the plugin group,
    the two switches kept their value. *)
Theorem parametersCallback_group_isolation (g : Group)
    (calls : list (list rclcpp.Parameter_)) (s : Plugin) :
  observed_by g calls = [] ->
  group_config g (parametersCallback_calls calls s) = group_config g s.
Proof.
  unfold observed_by, observed, parametersCallback_calls. revert s.
  induction calls as [| ps calls IH]; intros s Hnone; [reflexivity |].
  cbn [fold_left flat_map] in *. rewrite filter_app in Hnone.
  apply app_eq_nil in Hnone. destruct Hnone as [Hps Hcalls].
  rewrite (IH _ Hcalls). rewrite parametersCallback_fst.
  apply (parametersCallback_loop_kept g). exact Hps.
Qed.

End CallbackProperties.

(** The plugin and position parameters never reach the yaw regulator. *)
Lemma parametersCallback_group_isolation_witness :
  observed_by YawGroup [gate_parameters] = []
  /\ group_config YawGroup (parametersCallback_calls [gate_parameters] initialized)
     = group_config YawGroup initialized.
Proof.
  split; [vm_compute; reflexivity |].
  apply (parametersCallback_group_isolation YawGroup [gate_parameters] initialized).
  vm_compute. reflexivity.
Defined.

(** * Initialisation *)

Section Initialisation.

Context {E : Externals}.

(** X20. [ownInitialize] builds every regulator anew and then resets:
    whatever calls a handle had received are gone, the yaw, position,
    velocity and trajectory regulators hold one [resetController] and the
    two speed-in-a-plane regulators hold nothing.  The speed limits, the
    vehicle state and the command are zero, the five frame names have
    passed through [generateTfName], and the readiness flags, the
    checklists and the two switches are what they were, also on a plugin
    that was configured before. *)
Theorem ownInitialize_effect (s : Plugin) :
  let s' := ownInitialize s in
  pid_yaw_handler_ s' = [resetController]
  /\ pid_3D_position_handler_ s' = [resetController3D]
  /\ pid_3D_velocity_handler_ s' = [resetController3D]
  /\ pid_3D_trajectory_handler_ s' = [resetController3D]
  /\ pid_1D_speed_in_a_plane_handler_ s' = []
  /\ pid_3D_speed_in_a_plane_handler_ s' = []
  /\ speed_limits_ s' = Eigen.Zero
  /\ uav_state_ s' = zero_state
  /\ control_command_ s' = zero_command
  /\ flags_ s' = flags_ s
  /\ (forall g : Group, group_to_read g s' = group_to_read g s)
  /\ use_bypass_ s' = use_bypass_ s
  /\ proportional_limitation_ s' = proportional_limitation_ s
  /\ enu_frame_id_ s' = generateTfName (enu_frame_id_ s)
  /\ flu_frame_id_ s' = generateTfName (flu_frame_id_ s)
  /\ input_pose_frame_id_ s' = generateTfName (input_pose_frame_id_ s)
  /\ input_twist_frame_id_ s' = generateTfName (input_twist_frame_id_ s)
  /\ output_twist_frame_id_ s' = generateTfName (output_twist_frame_id_ s).
Proof.
  intros s'. subst s'. unfold ownInitialize, make_PIDController, make_PIDController3D.
  members. repeat split; try reflexivity; intros g; destruct g; reflexivity.
Qed.

End Initialisation.

(** * Mode switches, reset and what they carry over *)

Section CarryOver.

Context {E : Externals}.

(** X21. [setMode] writes modes, the two received flags and frames, and
    nothing else: the reference, the vehicle state, the command, the speed
    limits and the six regulators go into the new mode as the old mode left
    them, whatever the two modes are. *)
Theorem setMode_keeps_references (in_mode out_mode : as2_msgs.ControlMode) (s : Plugin) :
  let s' := fst (setMode in_mode out_mode s) in
  control_ref_ s' = control_ref_ s
  /\ uav_state_ s' = uav_state_ s
  /\ control_command_ s' = control_command_ s
  /\ speed_limits_ s' = speed_limits_ s
  /\ (forall g : Group, group_config g s' = group_config g s)
  /\ (forall g : Group, group_to_read g s' = group_to_read g s).
Proof.
  intros s'. subst s'. unfold setMode.
  destruct (as2_msgs.control_mode in_mode =? HOVER)%Z; members;
    repeat match goal with
           | |- context [if ?c then _ else _] => destruct c; members
           end;
    repeat split; try reflexivity; intros g; destruct g; reflexivity.
Qed.

(** X22. A cycle right after [reset].  [reset] zeroes the vehicle state
    and keeps its last position as the reference, and it leaves the gate as
    it was.  With an open gate in HOVER or POSITION mode, the next cycle
    therefore calls the position regulator, freshly reset, on a measured
    position of zero and the last position as reference. *)
Theorem reset_then_cycle (dt : double) (tw : geometry_msgs.TwistStamped) (s : Plugin) :
  readiness_gate s = true ->
  as2_msgs.control_mode (control_mode_in_ s) = HOVER
  \/ as2_msgs.control_mode (control_mode_in_ s) = POSITION ->
  let out := computeOutput dt tw (reset s) in
  let h := computeControl3D dt Eigen.Zero (position (uav_state_ s))
           :: resetController3D :: pid_3D_position_handler_ s in
  readiness_gate (reset s) = true
  /\ pid_3D_position_handler_ (plugin out) = h
  /\ command_velocity (control_command_ (plugin out)) = control_effort3D h.
Proof.
  intros Hgate Hmode out h. subst out h.
  assert (Hgate' : readiness_gate (reset s) = true) by exact Hgate.
  assert (Hposition : position_controller_parameters_read (flags_ s) = true).
  { unfold readiness_gate in Hgate.
    destruct (position_controller_parameters_read (flags_ s)); [reflexivity |].
    rewrite !andb_false_r in Hgate. discriminate Hgate. }
  split; [exact Hgate' |].
  rewrite (computeOutput_gate_open dt tw _ Hgate').
  rewrite (control_mode_switch_position dt (resetCommands (reset s))) by exact Hmode.
  members. rewrite Hposition. cbn [negb]. unfold yaw_mode_switch, getOutput. members.
  repeat match goal with
         | |- context [if ?c then _ else _] => destruct c; members
         end;
    cbn [ok twist plugin logged]; members; split; reflexivity.
Qed.

End CarryOver.

(** [position_ready] reset, after its vehicle was seen at (4, 5, 6). *)
Lemma reset_then_cycle_witness :
  let E := zero_gain_externals in
  let s := updateState (pose_at (Eigen.Vector3 4 5 6)) (twist_of Eigen.Zero 0)
             position_ready in
  let out := computeOutput 0.125 (twist_of Eigen.Zero 0) (reset s) in
  let h := computeControl3D 0.125 Eigen.Zero (position (uav_state_ s))
           :: resetController3D :: pid_3D_position_handler_ s in
  position (uav_state_ s) = Eigen.Vector3 4 5 6
  /\ readiness_gate (reset s) = true
  /\ pid_3D_position_handler_ (plugin out) = h
  /\ command_velocity (control_command_ (plugin out)) = control_effort3D h.
Proof.
  intros E s. split; [vm_compute; reflexivity |].
  apply (reset_then_cycle (E := E) 0.125 (twist_of Eigen.Zero 0) s).
  - vm_compute. reflexivity.
  - right. vm_compute. reflexivity.
Defined.
